(** * minigbm: i915 layout engine and cros_gralloc lifecycle manager

    A shallow embedding of [i915.c] (format resolution, plane layout,
    kernel object creation, cache flushing) and of
    [cros_gralloc/cros_gralloc_driver.cc] (support check, allocate,
    retain, release), with the properties of the design document stated
    and proved over it.

    Conventions.
    - A [uint32_t] is a [Z] kept in range by [u32]; a [uint64_t] by [u64].
    - The fixed arrays [uint32_t x[DRV_MAX_PLANES]] are [vec Z 4].
    - System calls and the [drv_*] layer are answered by an explicit
      oracle argument and every call is appended to a log.
    - [None] stands for undefined behaviour or an [assert] that fails. *)

From Stdlib Require Import ZArith Lia List Ascii String.
From stdpp Require Import base option numbers list vector strings gmap fin_maps.

Local Open Scope Z_scope.

(** ** Machine integers *)

Module Mach.

Definition u32 (x : Z) : Z := x mod 2 ^ 32.
Definition u64 (x : Z) : Z := x mod 2 ^ 64.

(** Modelled from the spec: [util.h] is not among the sources; its
    macro [ALIGN(A, B)] is [(((A) + (B)-1) & ~((B)-1))], the rounding
    up to a multiple of [B] that the layout rules ask for. It is used
    on [uint32_t] operands only, hence the wrap-around. *)
Definition ALIGN (a b : Z) : Z :=
  Z.land (u32 (a + b - 1)) (u32 (Z.lnot (b - 1))).

Definition IS_ALIGNED (a b : Z) : bool := ALIGN a b =? a.

(** Modelled from the spec: [DIV_ROUND_UP(n, d)] of [util.h] is
    [(((n) + (d)-1) / (d))], on [uint32_t] operands. *)
Definition DIV_ROUND_UP (n d : Z) : Z := u32 (n + d - 1) / d.

(** The same two roundings on unbounded integers, for statements. *)
Definition ceil_div (n d : Z) : Z := (n + d - 1) / d.
Definition round_up (n d : Z) : Z := ceil_div n d * d.

Lemma u32_range x : 0 <= u32 x < 2 ^ 32.
Proof. unfold u32. apply Z.mod_pos_bound. lia. Qed.

Lemma u32_small x : 0 <= x < 2 ^ 32 -> u32 x = x.
Proof. intros H. unfold u32. now apply Z.mod_small. Qed.

Lemma u32_idemp x : u32 (u32 x) = u32 x.
Proof. apply u32_small, u32_range. Qed.

Lemma u32_add_l x y : u32 (u32 x + y) = u32 (x + y).
Proof. unfold u32. now rewrite Zplus_mod_idemp_l. Qed.

Lemma u32_add_r x y : u32 (x + u32 y) = u32 (x + y).
Proof. unfold u32. now rewrite Zplus_mod_idemp_r. Qed.

(** The mask [~(2^k - 1)], cut to [w] bits, keeps the bits from [k] upwards. *)
Lemma land_mask_width w x k :
  0 <= k <= w -> 0 <= x < 2 ^ w ->
  Z.land x (Z.lnot (2 ^ k - 1) mod 2 ^ w) = x / 2 ^ k * 2 ^ k.
Proof.
  intros Hk Hx.
  rewrite <- Z.shiftl_mul_pow2, <- Z.shiftr_div_pow2 by lia.
  rewrite <- Z.ldiff_ones_r by lia.
  rewrite <- Z.land_ones by lia.
  replace (2 ^ k - 1) with (Z.ones k) by (rewrite Z.ones_equiv; lia).
  apply Z.bits_inj'. intros n Hn.
  rewrite !Z.land_spec, Z.ldiff_spec, Z.lnot_spec by lia.
  destruct (Z.ltb_spec n w) as [Hlt | Hge].
  - rewrite (Z.ones_spec_low w n) by lia. now rewrite andb_true_r.
  - assert (Z.testbit x n = false) as ->; [| reflexivity].
    destruct (Z.eq_dec x 0) as [-> | Hx0]; [apply Z.bits_0 |].
    apply Z.bits_above_log2; [lia |].
    apply Z.log2_lt_pow2; [lia |].
    apply Z.lt_le_trans with (2 ^ w); [lia |].
    apply Z.pow_le_mono_r; lia.
Qed.

Lemma land_mask_pow2 x k :
  0 <= k <= 32 -> 0 <= x < 2 ^ 32 ->
  Z.land x (u32 (Z.lnot (2 ^ k - 1))) = x / 2 ^ k * 2 ^ k.
Proof. apply (land_mask_width 32). Qed.

Lemma ALIGN_pow2 a k :
  0 <= k <= 32 -> ALIGN a (2 ^ k) = u32 (a + 2 ^ k - 1) / 2 ^ k * 2 ^ k.
Proof.
  intros Hk. unfold ALIGN. apply land_mask_pow2; [lia | apply u32_range].
Qed.

(** Rounding to a power of two yields a multiple of it, wrap-around or not. *)
Lemma ALIGN_multiple a k : 0 <= k <= 32 -> (ALIGN a (2 ^ k)) mod 2 ^ k = 0.
Proof.
  intros Hk. rewrite ALIGN_pow2 by lia. apply Z.mod_mul.
  apply Z.pow_nonzero; lia.
Qed.

Lemma ALIGN_range a k : 0 <= k <= 32 -> 0 <= ALIGN a (2 ^ k) < 2 ^ 32.
Proof.
  intros Hk. rewrite ALIGN_pow2 by lia.
  pose proof (u32_range (a + 2 ^ k - 1)) as Hr.
  assert (0 < 2 ^ k) as Hp by (apply Z.pow_pos_nonneg; lia).
  pose proof (Z.mul_div_le (u32 (a + 2 ^ k - 1)) (2 ^ k) Hp).
  assert (0 <= u32 (a + 2 ^ k - 1) / 2 ^ k) by (apply Z.div_pos; lia).
  nia.
Qed.

(** Without wrap-around [ALIGN] is the mathematical rounding up. *)
Lemma ALIGN_exact a k :
  0 <= k <= 32 -> 0 <= a -> a + 2 ^ k - 1 < 2 ^ 32 ->
  ALIGN a (2 ^ k) = round_up a (2 ^ k).
Proof.
  intros Hk Ha Hb. rewrite ALIGN_pow2 by lia.
  assert (0 < 2 ^ k) by (apply Z.pow_pos_nonneg; lia).
  rewrite u32_small by lia. reflexivity.
Qed.

Lemma round_up_bounds a b : 0 < b -> a <= round_up a b < a + b.
Proof.
  intros Hb. unfold round_up, ceil_div.
  pose proof (Z.div_mod (a + b - 1) b ltac:(lia)).
  pose proof (Z.mod_pos_bound (a + b - 1) b Hb). nia.
Qed.


End Mach.
Import Mach.

(** ** Constants of the headers

    [drm_fourcc.h] and [i915_drm.h] (kernel headers) and [drv.h] are not
    among the sources; the names below carry the values those headers
    give them. The proofs use only that the values are distinct. *)

Module Drm.

Definition fourcc_code (a b c d : ascii) : Z :=
  Z.lor (Z.of_nat (nat_of_ascii a))
    (Z.lor (Z.shiftl (Z.of_nat (nat_of_ascii b)) 8)
       (Z.lor (Z.shiftl (Z.of_nat (nat_of_ascii c)) 16)
          (Z.shiftl (Z.of_nat (nat_of_ascii d)) 24))).
Arguments fourcc_code (a b c d)%_char.

Definition DRM_FORMAT_R8 : Z := Eval cbv in fourcc_code "R" "8" " " " ".
Definition DRM_FORMAT_NV12 : Z := Eval cbv in fourcc_code "N" "V" "1" "2".
Definition DRM_FORMAT_XRGB8888 : Z := Eval cbv in fourcc_code "X" "R" "2" "4".
Definition DRM_FORMAT_XBGR8888 : Z := Eval cbv in fourcc_code "X" "B" "2" "4".
Definition DRM_FORMAT_ABGR8888 : Z := Eval cbv in fourcc_code "A" "B" "2" "4".
Definition DRM_FORMAT_YVU420_ANDROID : Z := Eval cbv in fourcc_code "9" "9" "9" "7".
Definition DRM_FORMAT_FLEX_IMPLEMENTATION_DEFINED : Z :=
  Eval cbv in fourcc_code "9" "9" "9" "8".
Definition DRM_FORMAT_FLEX_YCbCr_420_888 : Z := Eval cbv in fourcc_code "9" "9" "9" "9".

Definition fourcc_mod_code_INTEL (val : Z) : Z := Z.lor (Z.shiftl 1 56) val.

Definition DRM_FORMAT_MOD_LINEAR : Z := 0.
Definition I915_FORMAT_MOD_X_TILED : Z := Eval cbv in fourcc_mod_code_INTEL 1.
Definition I915_FORMAT_MOD_Y_TILED : Z := Eval cbv in fourcc_mod_code_INTEL 2.
Definition I915_FORMAT_MOD_Yf_TILED : Z := Eval cbv in fourcc_mod_code_INTEL 3.
Definition I915_FORMAT_MOD_Y_TILED_CCS : Z := Eval cbv in fourcc_mod_code_INTEL 4.
Definition I915_FORMAT_MOD_Yf_TILED_CCS : Z := Eval cbv in fourcc_mod_code_INTEL 5.

Definition I915_TILING_NONE : Z := 0.
Definition I915_TILING_X : Z := 1.
Definition I915_TILING_Y : Z := 2.

Definition BO_USE_SCANOUT : Z := Eval cbv in Z.shiftl 1 0.
Definition BO_USE_LINEAR : Z := Eval cbv in Z.shiftl 1 3.
Definition BO_USE_CAMERA_WRITE : Z := Eval cbv in Z.shiftl 1 6.
Definition BO_USE_CAMERA_READ : Z := Eval cbv in Z.shiftl 1 7.
Definition BO_USE_HW_VIDEO_ENCODER : Z := Eval cbv in Z.shiftl 1 14.

Definition EFAULT : Z := 14.
Definition ENOMEM : Z := 12.
Definition EINVAL : Z := 22.

Definition DRV_MAX_PLANES : nat := 4.

End Drm.
Import Drm.

(** ** Per-plane arrays *)

Module Planes.

(** A [uint32_t a[DRV_MAX_PLANES]]. *)
Abbreviation plane_array := (vec Z DRV_MAX_PLANES).

Definition plane_index (i : nat) : option (fin DRV_MAX_PLANES) :=
  match i with
  | 0%nat => Some 0%fin
  | 1%nat => Some 1%fin
  | 2%nat => Some 2%fin
  | 3%nat => Some 3%fin
  | _ => None
  end.

(** [a[i]]; reading past the end is not done by the code, [0] is a filler. *)
Definition plane_get (a : plane_array) (i : nat) : Z :=
  match plane_index i with
  | Some k => a !!! k
  | None => 0
  end.

(** [a[i] = v]; writing past the end is undefined behaviour. *)
Definition plane_set (a : plane_array) (i : nat) (v : Z) : option plane_array :=
  match plane_index i with
  | Some k => Some (vinsert k v a)
  | None => None
  end.

Definition plane_zero : plane_array := vreplicate DRV_MAX_PLANES 0.

Lemma plane_index_Some i : (i < DRV_MAX_PLANES)%nat -> is_Some (plane_index i).
Proof.
  unfold DRV_MAX_PLANES. intros H.
  destruct i as [| [| [| [| i]]]]; simpl; eauto; lia.
Qed.

Lemma plane_index_nat i k : plane_index i = Some k -> fin_to_nat k = i.
Proof.
  destruct i as [| [| [| [| i]]]]; simpl; intros H; inversion H; reflexivity.
Qed.

Lemma plane_set_Some a i v :
  (i < DRV_MAX_PLANES)%nat -> is_Some (plane_set a i v).
Proof.
  intros H. unfold plane_set. destruct (plane_index_Some i H) as [k ->]. eauto.
Qed.

Lemma plane_set_bound a i v a' :
  plane_set a i v = Some a' -> (i < DRV_MAX_PLANES)%nat.
Proof.
  unfold plane_set, DRV_MAX_PLANES.
  destruct i as [| [| [| [| i]]]]; simpl; intros H; try lia; discriminate.
Qed.

Lemma plane_get_set_eq a i v a' :
  plane_set a i v = Some a' -> plane_get a' i = v.
Proof.
  unfold plane_set, plane_get. destruct (plane_index i) as [k |]; [| discriminate].
  intros [= <-]. apply vlookup_insert.
Qed.

Lemma plane_get_set_ne a i j v a' :
  plane_set a i v = Some a' -> i <> j -> plane_get a' j = plane_get a j.
Proof.
  unfold plane_set, plane_get.
  destruct (plane_index i) as [k |] eqn:Hi; [| discriminate].
  intros [= <-] Hne.
  destruct (plane_index j) as [k' |] eqn:Hj; [| reflexivity].
  apply vlookup_insert_ne. intros ->.
  apply plane_index_nat in Hi, Hj. congruence.
Qed.

End Planes.
Import Planes.

(** ** The buffer object of [drv_priv.h] *)

Module Bo.

(** [struct bo_metadata], the fields the two source files touch. *)
Record bo_metadata := mk_meta {
  meta_width : Z;
  meta_height : Z;
  meta_format : Z;
  meta_tiling : Z;
  meta_num_planes : nat;
  meta_offsets : plane_array;
  meta_sizes : plane_array;
  meta_strides : plane_array;
  meta_format_modifiers : plane_array;
  meta_use_flags : Z;
  meta_total_size : Z
}.

(** [struct bo]: the metadata and one kernel handle per plane. *)
Record bo := mk_bo {
  meta : bo_metadata;
  handles : plane_array
}.

Definition set_tiling (b : bo) (v : Z) : bo :=
  let m := meta b in
  mk_bo (mk_meta (meta_width m) (meta_height m) (meta_format m) v (meta_num_planes m)
           (meta_offsets m) (meta_sizes m) (meta_strides m) (meta_format_modifiers m)
           (meta_use_flags m) (meta_total_size m)) (handles b).

Definition set_num_planes (b : bo) (v : nat) : bo :=
  let m := meta b in
  mk_bo (mk_meta (meta_width m) (meta_height m) (meta_format m) (meta_tiling m) v
           (meta_offsets m) (meta_sizes m) (meta_strides m) (meta_format_modifiers m)
           (meta_use_flags m) (meta_total_size m)) (handles b).

Definition set_offsets (b : bo) (v : plane_array) : bo :=
  let m := meta b in
  mk_bo (mk_meta (meta_width m) (meta_height m) (meta_format m) (meta_tiling m)
           (meta_num_planes m) v (meta_sizes m) (meta_strides m) (meta_format_modifiers m)
           (meta_use_flags m) (meta_total_size m)) (handles b).

Definition set_sizes (b : bo) (v : plane_array) : bo :=
  let m := meta b in
  mk_bo (mk_meta (meta_width m) (meta_height m) (meta_format m) (meta_tiling m)
           (meta_num_planes m) (meta_offsets m) v (meta_strides m) (meta_format_modifiers m)
           (meta_use_flags m) (meta_total_size m)) (handles b).

Definition set_strides (b : bo) (v : plane_array) : bo :=
  let m := meta b in
  mk_bo (mk_meta (meta_width m) (meta_height m) (meta_format m) (meta_tiling m)
           (meta_num_planes m) (meta_offsets m) (meta_sizes m) v (meta_format_modifiers m)
           (meta_use_flags m) (meta_total_size m)) (handles b).

Definition set_format_modifiers (b : bo) (v : plane_array) : bo :=
  let m := meta b in
  mk_bo (mk_meta (meta_width m) (meta_height m) (meta_format m) (meta_tiling m)
           (meta_num_planes m) (meta_offsets m) (meta_sizes m) (meta_strides m) v
           (meta_use_flags m) (meta_total_size m)) (handles b).

Definition set_total_size (b : bo) (v : Z) : bo :=
  let m := meta b in
  mk_bo (mk_meta (meta_width m) (meta_height m) (meta_format m) (meta_tiling m)
           (meta_num_planes m) (meta_offsets m) (meta_sizes m) (meta_strides m)
           (meta_format_modifiers m) (meta_use_flags m) v) (handles b).

Definition set_handles (b : bo) (v : plane_array) : bo := mk_bo (meta b) v.

(** What [drv_bo_new] hands to the backend: the request recorded, the
    plane count of the format, everything else zeroed by [calloc]. *)
Definition bo_new (width height format use_flags : Z) (num_planes : nat) : bo :=
  mk_bo (mk_meta width height format 0 num_planes plane_zero plane_zero plane_zero
           plane_zero use_flags 0) plane_zero.

(** [struct format_metadata] of a registry entry. *)
Record format_metadata := mk_format_metadata {
  fm_priority : Z;
  fm_tiling : Z;
  fm_modifier : Z
}.

End Bo.
Import Bo.

(** ** i915.c: format resolution and plane layout *)

Module I915.

Section Layout.

(** Build configuration: whether [USE_GRALLOC1] is defined. *)
Variable USE_GRALLOC1 : bool.
(** [i915_private_resolve_format] of [i915_private.c] (not among the
    sources): [Some f] when it claims the format, [None] when it returns
    false. *)
Variable i915_private_resolve_format : Z -> Z -> option Z.
(** [getpagesize()]. *)
Variable pagesize : Z.
(** The format helpers of [helpers.c] and the registry of [drv.c], not
    among the sources. *)
Variable drv_num_planes_from_format : Z -> nat.
Variable drv_stride_from_format : Z -> Z -> nat -> Z.
Variable drv_height_from_format : Z -> Z -> nat -> Z.
Variable drv_bo_from_format : bo -> Z -> Z -> Z -> bo.
Variable drv_get_combination : Z -> Z -> option format_metadata.
Variable drv_pick_modifier : list Z -> list Z -> Z.

Definition camera_mask : Z := Z.lor BO_USE_CAMERA_READ BO_USE_CAMERA_WRITE.

(** [i915_resolve_format], lines 661-690. *)
Definition i915_resolve_format (format use_flags : Z) : Z :=
  match (if USE_GRALLOC1 then i915_private_resolve_format format use_flags else None) with
  | Some resolved_format => resolved_format
  | None =>
      if format =? DRM_FORMAT_FLEX_IMPLEMENTATION_DEFINED then
        if negb (Z.land use_flags camera_mask =? 0) then DRM_FORMAT_NV12
        else DRM_FORMAT_XBGR8888
      else if format =? DRM_FORMAT_FLEX_YCbCr_420_888 then DRM_FORMAT_NV12
      else format
  end.

(** The alignment table of [i915_align_dimensions]. *)
Definition horizontal_alignment (tiling : Z) : Z :=
  if tiling =? I915_TILING_X then 512
  else if tiling =? I915_TILING_Y then 128
  else 64.

Definition vertical_alignment (tiling : Z) : Z :=
  if tiling =? I915_TILING_X then 8
  else if tiling =? I915_TILING_Y then 32
  else 4.

(** [i915_align_dimensions], lines 257-296: the return code, the stride
    and the aligned height written through the two pointers. *)
Definition i915_align_dimensions (b : bo) (tiling stride aligned_height : Z)
  : Z * Z * Z :=
  let aligned_height' := ALIGN aligned_height (vertical_alignment tiling) in
  let stride' :=
    if USE_GRALLOC1 && (meta_format (meta b) =? DRM_FORMAT_R8) then stride
    else ALIGN stride (horizontal_alignment tiling) in
  (0, stride', aligned_height').

(** One turn of the loop of [i915_bo_from_format]; [None] when the
    [assert] fails or the plane index leaves the arrays. *)
Definition from_format_step (width height format : Z) (b : bo) (offset : Z)
    (plane : nat) : option (bo * Z) :=
  let stride := u32 (drv_stride_from_format format width plane) in
  let plane_height := u32 (drv_height_from_format format height plane) in
  if negb (meta_tiling (meta b) =? I915_TILING_NONE) && negb (IS_ALIGNED offset pagesize)
  then None
  else
    let '(_, stride, plane_height) :=
      i915_align_dimensions b (meta_tiling (meta b)) stride plane_height in
    strides' ← plane_set (meta_strides (meta b)) plane stride;
    sizes' ← plane_set (meta_sizes (meta b)) plane (u32 (stride * plane_height));
    offsets' ← plane_set (meta_offsets (meta b)) plane offset;
    Some (set_offsets (set_sizes (set_strides b strides') sizes') offsets',
          u32 (offset + u32 (stride * plane_height))).

(** The loop itself: [n] turns left, starting at [plane]. *)
Fixpoint from_format_loop (width height format : Z) (n : nat) (plane : nat)
    (b : bo) (offset : Z) : option (bo * Z) :=
  match n with
  | O => Some (b, offset)
  | S n' =>
      match from_format_step width height format b offset plane with
      | Some (b', offset') =>
          from_format_loop width height format n' (S plane) b' offset'
      | None => None
      end
  end.

(** [i915_bo_from_format], lines 352-380. *)
Definition i915_bo_from_format (b : bo) (width height format : Z) : option (Z * bo) :=
  match from_format_loop width height format (drv_num_planes_from_format format)
          0%nat b 0 with
  | Some (b', offset) => Some (0, set_total_size b' (ALIGN offset pagesize))
  | None => None
  end.

Definition modifier_order : list Z :=
  [I915_FORMAT_MOD_Y_TILED; I915_FORMAT_MOD_X_TILED; DRM_FORMAT_MOD_LINEAR].

(** The [switch (modifier)] of [i915_bo_compute_metadata]. *)
Definition tiling_of_modifier (modifier : Z) (old : Z) : Z :=
  if modifier =? DRM_FORMAT_MOD_LINEAR then I915_TILING_NONE
  else if modifier =? I915_FORMAT_MOD_X_TILED then I915_TILING_X
  else if (modifier =? I915_FORMAT_MOD_Y_TILED)
          || (modifier =? I915_FORMAT_MOD_Y_TILED_CCS)
          || (USE_GRALLOC1 && ((modifier =? I915_FORMAT_MOD_Yf_TILED)
                               || (modifier =? I915_FORMAT_MOD_Yf_TILED_CCS)))
  then I915_TILING_Y
  else old.

(** The compressed-surface branch, lines 432-472. *)
Definition ccs_layout (b : bo) (width height format : Z) : bo :=
  let stride := u32 (drv_stride_from_format format width 0%nat) in
  let width_in_tiles := DIV_ROUND_UP stride 128 in
  let height_in_tiles := DIV_ROUND_UP height 32 in
  let size := u32 (width_in_tiles * height_in_tiles * 4096) in
  let offset := 0 in
  let strides1 := vinsert 0%fin (u32 (width_in_tiles * 128)) (meta_strides (meta b)) in
  let sizes1 := vinsert 0%fin size (meta_sizes (meta b)) in
  let offsets1 := vinsert 0%fin offset (meta_offsets (meta b)) in
  let offset := u32 (offset + size) in
  let ccs_width_in_tiles := DIV_ROUND_UP width_in_tiles 32 in
  let ccs_height_in_tiles := DIV_ROUND_UP height_in_tiles 16 in
  let ccs_size := u32 (ccs_width_in_tiles * ccs_height_in_tiles * 4096) in
  let strides2 := vinsert 1%fin (u32 (ccs_width_in_tiles * 128)) strides1 in
  let sizes2 := vinsert 1%fin ccs_size sizes1 in
  let offsets2 := vinsert 1%fin offset offsets1 in
  let offset := u32 (offset + ccs_size) in
  set_total_size
    (set_num_planes (set_offsets (set_sizes (set_strides b strides2) sizes2) offsets2)
       2%nat)
    offset.

(** The modifier [i915_bo_compute_metadata] settles on, lines 392-400;
    [modifiers] is [None] for a null pointer, the result is [None] when
    the registry has no entry. *)
Definition choose_modifier (format use_flags : Z) (modifiers : option (list Z))
  : option Z :=
  match modifiers with
  | Some ms => Some (drv_pick_modifier ms modifier_order)
  | None => fm_modifier <$> drv_get_combination format use_flags
  end.

(** [i915_bo_compute_metadata], lines 382-477. The result of
    [i915_bo_from_format] is dropped by the caller, which returns 0
    whenever it returns at all. *)
Definition i915_bo_compute_metadata (b : bo) (width height format use_flags : Z)
    (modifiers : option (list Z)) : option (Z * bo) :=
  match choose_modifier format use_flags modifiers with
  | None => Some (- EINVAL, b)
  | Some modifier =>
      let b := set_tiling b (tiling_of_modifier modifier (meta_tiling (meta b))) in
      let b := set_format_modifiers b
                 (vinsert 0%fin modifier (meta_format_modifiers (meta b))) in
      if format =? DRM_FORMAT_YVU420_ANDROID then
        let stride := ALIGN width 32 in
        Some (0, drv_bo_from_format b stride height format)
      else if modifier =? I915_FORMAT_MOD_Y_TILED_CCS then
        Some (0, ccs_layout b width height format)
      else
        match i915_bo_from_format b width height format with
        | Some (_, b') => Some (0, b')
        | None => None
        end
  end.

(** *** What the properties are stated with *)

(** The stride and the row count [i915_align_dimensions] leaves. *)
Definition align_stride (bo_format tiling stride : Z) : Z :=
  if USE_GRALLOC1 && (bo_format =? DRM_FORMAT_R8) then stride
  else ALIGN stride (horizontal_alignment tiling).

Definition align_height (tiling aligned_height : Z) : Z :=
  ALIGN aligned_height (vertical_alignment tiling).

(** Stride, rows and size of plane [plane] in the per-plane path. *)
Definition plane_stride (b : bo) (width format : Z) (plane : nat) : Z :=
  align_stride (meta_format (meta b)) (meta_tiling (meta b))
    (u32 (drv_stride_from_format format width plane)).

Definition plane_rows (b : bo) (height format : Z) (plane : nat) : Z :=
  align_height (meta_tiling (meta b)) (u32 (drv_height_from_format format height plane)).

Definition plane_size (b : bo) (width height format : Z) (plane : nat) : Z :=
  u32 (plane_stride b width format plane * plane_rows b height format plane).

(** [g p + g (p+1) + ... + g (p+n-1)]. *)
Fixpoint sum_from (g : nat -> Z) (p n : nat) : Z :=
  match n with
  | O => 0
  | S n' => g p + sum_from g (S p) n'
  end.

Definition stride_of (b : bo) (i : nat) : Z := plane_get (meta_strides (meta b)) i.
Definition size_of (b : bo) (i : nat) : Z := plane_get (meta_sizes (meta b)) i.
Definition offset_of (b : bo) (i : nat) : Z := plane_get (meta_offsets (meta b)) i.

(** Planes the layout engine writes for a request: two in the compressed
    path, those of the format in the per-plane path. *)
Definition planes_laid_out (format use_flags : Z) (modifiers : option (list Z)) : nat :=
  match choose_modifier format use_flags modifiers with
  | Some modifier =>
      if modifier =? I915_FORMAT_MOD_Y_TILED_CCS then 2%nat
      else drv_num_planes_from_format format
  | None => 0%nat
  end.

(** The R8 exemption of [i915_align_dimensions]. *)
Definition stride_exempt (b : bo) : Prop :=
  USE_GRALLOC1 = true /\ meta_format (meta b) = DRM_FORMAT_R8.

(** What the layout code leaves on the first [n] planes, in terms of the
    table [i915_align_dimensions] switches on. *)
Definition aligned_to_table (b : bo) (n : nat) : Prop :=
  forall i, (i < n)%nat ->
    (stride_exempt b \/ stride_of b i mod horizontal_alignment (meta_tiling (meta b)) = 0)
    /\ exists rows, rows mod vertical_alignment (meta_tiling (meta b)) = 0
                    /\ size_of b i = u32 (stride_of b i * rows).

(** The alignment law of the design document on the first [n] planes of
    a laid-out buffer, with its constants: the stride is a multiple of
    512 for an X-tiled buffer, of 128 for a Y-tiled one and of 64
    otherwise (R8 apart), and the plane holds a whole number of rows that
    is a multiple of 8, 32 and 4 respectively. *)
Definition alignment_law (b : bo) (n : nat) : Prop :=
  forall i, (i < n)%nat ->
    let tiling := meta_tiling (meta b) in
    (stride_exempt b
     \/ (tiling = I915_TILING_X /\ stride_of b i mod 512 = 0)
     \/ (tiling = I915_TILING_Y /\ stride_of b i mod 128 = 0)
     \/ (tiling <> I915_TILING_X /\ tiling <> I915_TILING_Y
         /\ stride_of b i mod 64 = 0))
    /\ exists rows,
         size_of b i = u32 (stride_of b i * rows)
         /\ ((tiling = I915_TILING_X /\ rows mod 8 = 0)
             \/ (tiling = I915_TILING_Y /\ rows mod 32 = 0)
             \/ (tiling <> I915_TILING_X /\ tiling <> I915_TILING_Y
                 /\ rows mod 4 = 0)).

(** The plane layout invariant on the first [n] planes, in unbounded
    integers. *)
Definition plane_layout_invariant (b : bo) (n : nat) : Prop :=
  (forall i, (i < n)%nat -> offset_of b i + size_of b i <= meta_total_size (meta b))
  /\ (forall i, (S i < n)%nat -> offset_of b i < offset_of b (S i))
  /\ (forall i, (i < n)%nat -> offset_of b i = sum_from (size_of b) 0 i)
  /\ meta_total_size (meta b) = round_up (sum_from (size_of b) 0 n) pagesize.


(** The resolution rule as the design document words it: both flexible
    formats take the camera test, with [DRM_FORMAT_XBGR8888] as the RGB
    fallback. *)
Definition resolve_format_as_documented (format use_flags : Z) : Z :=
  if (format =? DRM_FORMAT_FLEX_IMPLEMENTATION_DEFINED)
     || (format =? DRM_FORMAT_FLEX_YCbCr_420_888)
  then if negb (Z.land use_flags camera_mask =? 0) then DRM_FORMAT_NV12
       else DRM_FORMAT_XBGR8888
  else format.

(** *** Format resolution *)

Lemma resolve_format_hook (format use_flags r : Z) :
  USE_GRALLOC1 = true ->
  i915_private_resolve_format format use_flags = Some r ->
  i915_resolve_format format use_flags = r.
Proof. intros HG Hh. unfold i915_resolve_format. now rewrite HG, Hh. Qed.

(** C7, amended. When the private hook leaves the format alone: the
    implementation-defined format resolves to NV12 if a camera flag is
    set and to XBGR8888 otherwise; the flexible YCbCr format resolves to
    NV12 whatever the usage; every other format is returned unchanged.
    The function is total. *)
Theorem i915_resolve_format_cases (format use_flags : Z) :
  (if USE_GRALLOC1 then i915_private_resolve_format format use_flags else None) = None ->
  (format = DRM_FORMAT_FLEX_IMPLEMENTATION_DEFINED ->
     i915_resolve_format format use_flags
     = if Z.land use_flags camera_mask =? 0 then DRM_FORMAT_XBGR8888
       else DRM_FORMAT_NV12)
  /\ (format = DRM_FORMAT_FLEX_YCbCr_420_888 ->
        i915_resolve_format format use_flags = DRM_FORMAT_NV12)
  /\ (format <> DRM_FORMAT_FLEX_IMPLEMENTATION_DEFINED ->
      format <> DRM_FORMAT_FLEX_YCbCr_420_888 ->
        i915_resolve_format format use_flags = format).
Proof.
  intros Hhook. unfold i915_resolve_format. rewrite Hhook.
  repeat split.
  - intros ->. rewrite Z.eqb_refl.
    now destruct (Z.land use_flags camera_mask =? 0).
  - intros ->. reflexivity.
  - intros H1 H2.
    destruct (Z.eqb_spec format DRM_FORMAT_FLEX_IMPLEMENTATION_DEFINED); [contradiction |].
    destruct (Z.eqb_spec format DRM_FORMAT_FLEX_YCbCr_420_888); [contradiction |].
    reflexivity.
Qed.

(** *** The per-plane loop *)

Lemma i915_align_dimensions_eq (b : bo) (tiling stride aligned_height : Z) :
  i915_align_dimensions b tiling stride aligned_height
  = (0, align_stride (meta_format (meta b)) tiling stride,
     align_height tiling aligned_height).
Proof. reflexivity. Qed.

Lemma horizontal_alignment_pow2 tiling :
  exists k, 0 <= k <= 32 /\ horizontal_alignment tiling = 2 ^ k.
Proof.
  unfold horizontal_alignment.
  destruct (tiling =? I915_TILING_X); [exists 9; split; [lia | reflexivity] |].
  destruct (tiling =? I915_TILING_Y); [exists 7 | exists 6]; split; (lia || reflexivity).
Qed.

Lemma vertical_alignment_pow2 tiling :
  exists k, 0 <= k <= 32 /\ vertical_alignment tiling = 2 ^ k.
Proof.
  unfold vertical_alignment.
  destruct (tiling =? I915_TILING_X); [exists 3; split; [lia | reflexivity] |].
  destruct (tiling =? I915_TILING_Y); [exists 5 | exists 2]; split; (lia || reflexivity).
Qed.

(** The alignment step itself: always 0, the height a multiple of the
    vertical constant, the stride a multiple of the horizontal one unless
    the R8 exemption leaves it as it came. *)
Lemma i915_align_dimensions_law (b : bo) (tiling stride aligned_height : Z) :
  let '(ret, stride', aligned_height') :=
    i915_align_dimensions b tiling stride aligned_height in
  ret = 0
  /\ aligned_height' mod vertical_alignment tiling = 0
  /\ (if USE_GRALLOC1 && (meta_format (meta b) =? DRM_FORMAT_R8)
      then stride' = stride
      else stride' mod horizontal_alignment tiling = 0).
Proof.
  rewrite i915_align_dimensions_eq. split; [reflexivity |]. split.
  - unfold align_height.
    destruct (vertical_alignment_pow2 tiling) as (k & Hk & ->).
    now apply ALIGN_multiple.
  - unfold align_stride.
    destruct (USE_GRALLOC1 && (meta_format (meta b) =? DRM_FORMAT_R8)); [reflexivity |].
    destruct (horizontal_alignment_pow2 tiling) as (k & Hk & ->).
    now apply ALIGN_multiple.
Qed.

Lemma plane_size_range b w h f i : 0 <= plane_size b w h f i < 2 ^ 32.
Proof. apply u32_range. Qed.

Lemma from_format_step_inv w h f b off p b' off' :
  from_format_step w h f b off p = Some (b', off') ->
  (p < DRV_MAX_PLANES)%nat
  /\ meta_tiling (meta b') = meta_tiling (meta b)
  /\ meta_format (meta b') = meta_format (meta b)
  /\ stride_of b' p = plane_stride b w f p
  /\ size_of b' p = plane_size b w h f p
  /\ offset_of b' p = off
  /\ (forall j, j <> p ->
        stride_of b' j = stride_of b j /\ size_of b' j = size_of b j
        /\ offset_of b' j = offset_of b j)
  /\ off' = u32 (off + plane_size b w h f p).
Proof.
  unfold from_format_step. rewrite i915_align_dimensions_eq.
  destruct (negb (meta_tiling (meta b) =? I915_TILING_NONE)
            && negb (IS_ALIGNED off pagesize)); [discriminate |].
  fold (plane_stride b w f p). fold (plane_rows b h f p).
  fold (plane_size b w h f p).
  destruct (plane_set (meta_strides (meta b)) p _) as [st |] eqn:Hst; [| discriminate].
  destruct (plane_set (meta_sizes (meta b)) p _) as [sz |] eqn:Hsz; [| discriminate].
  destruct (plane_set (meta_offsets (meta b)) p _) as [os |] eqn:Hos; [| discriminate].
  simpl. intros [= <- <-].
  unfold stride_of, size_of, offset_of; simpl.
  split; [eapply plane_set_bound; eassumption |].
  do 2 (split; [reflexivity |]).
  split; [eapply plane_get_set_eq; eassumption |].
  split; [eapply plane_get_set_eq; eassumption |].
  split; [eapply plane_get_set_eq; eassumption |].
  split; [| reflexivity].
  intros j Hj. repeat split; eapply plane_get_set_ne; eauto.
Qed.

Lemma plane_size_frame b b' w h f i :
  meta_tiling (meta b') = meta_tiling (meta b) ->
  meta_format (meta b') = meta_format (meta b) ->
  plane_stride b' w f i = plane_stride b w f i
  /\ plane_size b' w h f i = plane_size b w h f i.
Proof.
  intros Ht Hf. unfold plane_size, plane_stride, plane_rows. now rewrite Ht, Hf.
Qed.

Lemma sum_from_snoc g p n : sum_from g p (S n) = sum_from g p n + g (p + n)%nat.
Proof.
  revert p. induction n as [| n IH]; intros p.
  - simpl. rewrite Nat.add_0_r. lia.
  - change (sum_from g p (S (S n))) with (g p + sum_from g (S p) (S n)).
    rewrite IH. replace (p + S n)%nat with (S p + n)%nat by lia.
    change (sum_from g p (S n)) with (g p + sum_from g (S p) n). lia.
Qed.

Lemma sum_from_ext g g' p n :
  (forall i, (p <= i < p + n)%nat -> g i = g' i) -> sum_from g p n = sum_from g' p n.
Proof.
  revert p. induction n as [| n IH]; intros p H; [reflexivity |].
  simpl. rewrite (H p) by lia. rewrite (IH (S p)); [reflexivity |].
  intros i Hi. apply H. lia.
Qed.

Lemma sum_from_nonneg g p n :
  (forall i, (p <= i < p + n)%nat -> 0 <= g i) -> 0 <= sum_from g p n.
Proof.
  revert p. induction n as [| n IH]; intros p H; [simpl; lia |].
  simpl. pose proof (H p ltac:(lia)).
  assert (0 <= sum_from g (S p) n) by (apply IH; intros i Hi; apply H; lia). lia.
Qed.

Lemma sum_from_mono g p n m :
  (forall i, (p <= i < p + m)%nat -> 0 <= g i) -> (n <= m)%nat ->
  sum_from g p n <= sum_from g p m.
Proof.
  intros Hg Hnm. induction Hnm as [| m Hnm IH]; [lia |].
  rewrite sum_from_snoc.
  assert (sum_from g p n <= sum_from g p m) by (apply IH; intros i Hi; apply Hg; lia).
  pose proof (Hg (p + m)%nat ltac:(lia)). lia.
Qed.

Lemma from_format_loop_inv w h f n : forall p b off b' off',
  0 <= off < 2 ^ 32 ->
  from_format_loop w h f n p b off = Some (b', off') ->
  (n = 0%nat \/ (p + n <= DRV_MAX_PLANES)%nat)
  /\ meta_tiling (meta b') = meta_tiling (meta b)
  /\ meta_format (meta b') = meta_format (meta b)
  /\ (forall i, (p <= i < p + n)%nat ->
        stride_of b' i = plane_stride b w f i
        /\ size_of b' i = plane_size b w h f i
        /\ offset_of b' i = u32 (off + sum_from (plane_size b w h f) p (i - p)))
  /\ (forall j, (j < p)%nat ->
        stride_of b' j = stride_of b j /\ size_of b' j = size_of b j
        /\ offset_of b' j = offset_of b j)
  /\ off' = u32 (off + sum_from (plane_size b w h f) p n).
Proof.
  induction n as [| n IH]; intros p b off b' off' Hoff Hloop.
  - simpl in Hloop. injection Hloop as <- <-.
    split; [now left |]. do 2 (split; [reflexivity |]).
    split; [intros i Hi; lia |]. split; [now intros |].
    simpl. rewrite Z.add_0_r. symmetry. now apply u32_small.
  - simpl in Hloop.
    destruct (from_format_step w h f b off p) as [[b1 off1] |] eqn:Hstep; [| discriminate].
    apply from_format_step_inv in Hstep
      as (Hp & Ht1 & Hf1 & Hs1 & Hz1 & Ho1 & Hother1 & ->).
    apply IH in Hloop as (Hb & Ht & Hf & Hin & Hbelow & ->); [| apply u32_range].
    assert (forall i, plane_size b1 w h f i = plane_size b w h f i) as Hsz
      by (intros i; now apply plane_size_frame).
    assert (forall i, plane_stride b1 w f i = plane_stride b w f i) as Hstr
      by (intros i; now apply (plane_size_frame b b1 w h f i)).
    split; [right; unfold DRV_MAX_PLANES in *; lia |].
    split; [congruence |]. split; [congruence |].
    split; [| split].
    + intros i Hi. destruct (decide (i = p)) as [-> | Hne].
      * destruct (Hbelow p ltac:(lia)) as (-> & -> & ->).
        rewrite Hs1, Hz1, Ho1, Nat.sub_diag. simpl. rewrite Z.add_0_r.
        repeat split. symmetry. now apply u32_small.
      * destruct (Hin i ltac:(lia)) as (-> & -> & ->).
        rewrite Hstr, Hsz. repeat split.
        rewrite u32_add_l.
        replace (i - p)%nat with (S (i - S p))%nat by lia.
        simpl. rewrite (sum_from_ext _ (plane_size b w h f)) by (intros; apply Hsz).
        f_equal. lia.
    + intros j Hj. destruct (Hbelow j ltac:(lia)) as (-> & -> & ->).
      apply Hother1. lia.
    + rewrite u32_add_l. simpl.
      rewrite (sum_from_ext _ (plane_size b w h f)) by (intros; apply Hsz).
      f_equal. lia.
Qed.


(** *** The per-plane path *)

Lemma i915_bo_from_format_inv b w h f r b' :
  i915_bo_from_format b w h f = Some (r, b') ->
  let n := drv_num_planes_from_format f in
  r = 0
  /\ meta_tiling (meta b') = meta_tiling (meta b)
  /\ meta_format (meta b') = meta_format (meta b)
  /\ (forall i, (i < n)%nat ->
        stride_of b' i = plane_stride b w f i
        /\ size_of b' i = plane_size b w h f i
        /\ offset_of b' i = u32 (sum_from (plane_size b w h f) 0 i))
  /\ meta_total_size (meta b')
     = ALIGN (u32 (sum_from (plane_size b w h f) 0 n)) pagesize.
Proof.
  unfold i915_bo_from_format.
  destruct (from_format_loop w h f (drv_num_planes_from_format f) 0 b 0)
    as [[b1 off1] |] eqn:Hloop; [| discriminate].
  intros [= <- <-]. simpl.
  apply from_format_loop_inv in Hloop as (_ & Ht & Hf & Hin & _ & ->); [| lia].
  split; [reflexivity |]. split; [exact Ht |]. split; [exact Hf |].
  split; [| reflexivity].
  intros i Hi. destruct (Hin i ltac:(lia)) as (Hs & Hz & Ho).
  rewrite Nat.sub_0_r, Z.add_0_l in Ho. auto.
Qed.

(** The planes of a linear buffer are always laid out: no [assert] is in
    the way, and a format of at most [DRV_MAX_PLANES] planes stays
    inside the arrays. *)
Lemma from_format_loop_linear w h f n : forall p b off,
  meta_tiling (meta b) = I915_TILING_NONE ->
  (p + n <= DRV_MAX_PLANES)%nat ->
  is_Some (from_format_loop w h f n p b off).
Proof.
  induction n as [| n IH]; intros p b off Ht Hn; simpl; [eauto |].
  unfold from_format_step. rewrite i915_align_dimensions_eq, Ht. simpl.
  destruct (plane_set_Some (meta_strides (meta b)) p
              (align_stride (meta_format (meta b)) I915_TILING_NONE
                 (u32 (drv_stride_from_format f w p))) ltac:(lia)) as [st ->].
  simpl.
  match goal with |- context [plane_set (meta_sizes (meta b)) p ?v] =>
    destruct (plane_set_Some (meta_sizes (meta b)) p v ltac:(lia)) as [sz ->] end.
  simpl.
  destruct (plane_set_Some (meta_offsets (meta b)) p off ltac:(lia)) as [os ->].
  simpl. apply IH; [exact Ht | lia].
Qed.

Lemma i915_bo_from_format_linear b w h f :
  meta_tiling (meta b) = I915_TILING_NONE ->
  (drv_num_planes_from_format f <= DRV_MAX_PLANES)%nat ->
  is_Some (i915_bo_from_format b w h f).
Proof.
  intros Ht Hn. unfold i915_bo_from_format.
  destruct (from_format_loop_linear w h f (drv_num_planes_from_format f) 0 b 0 Ht
              ltac:(lia)) as [[b1 off1] ->].
  eauto.
Qed.

(** In 32-bit arithmetic, whatever the sizes: every offset is the sum of
    the sizes before it and the total is that of all sizes rounded to the
    page, both modulo 2^32. *)
Lemma i915_bo_from_format_wrapping b w h f r b' :
  i915_bo_from_format b w h f = Some (r, b') ->
  let n := drv_num_planes_from_format f in
  (forall i, (i < n)%nat -> offset_of b' i = u32 (sum_from (size_of b') 0 i))
  /\ meta_total_size (meta b') = ALIGN (u32 (sum_from (size_of b') 0 n)) pagesize.
Proof.
  intros H. apply i915_bo_from_format_inv in H as (_ & _ & _ & Hin & Htot).
  simpl. split.
  - intros i Hi. destruct (Hin i Hi) as (_ & _ & ->). f_equal.
    apply sum_from_ext. intros j Hj. symmetry. apply Hin. lia.
  - rewrite Htot. do 2 f_equal.
    apply sum_from_ext. intros j Hj. symmetry. apply Hin. lia.
Qed.

(** C6, amended. For a layout computed in the per-plane path with a page
    size that is a power of two: if the plane sizes and the page rounding
    add up without leaving 32 bits, then [offset[i] + size[i] <=
    total_size] for every plane, each offset is the sum of the sizes of
    the planes before it, the total is that sum rounded up to the page
    size, and the offsets never decrease in plane order; the offset
    increases strictly from a plane to the next exactly when the plane
    has a size above zero, so that the invariant with strictly
    increasing offsets holds when every plane but the last is not
    empty. *)
Theorem i915_bo_from_format_layout b w h f r b' k :
  0 <= k <= 31 -> pagesize = 2 ^ k ->
  i915_bo_from_format b w h f = Some (r, b') ->
  sum_from (size_of b') 0 (drv_num_planes_from_format f) + pagesize - 1 < 2 ^ 32 ->
  let n := drv_num_planes_from_format f in
  r = 0
  /\ (forall i, (i < n)%nat -> offset_of b' i + size_of b' i <= meta_total_size (meta b'))
  /\ (forall i, (i < n)%nat -> offset_of b' i = sum_from (size_of b') 0 i)
  /\ meta_total_size (meta b') = round_up (sum_from (size_of b') 0 n) pagesize
  /\ (forall i, (S i < n)%nat -> offset_of b' i <= offset_of b' (S i))
  /\ (forall i, (S i < n)%nat ->
        offset_of b' i < offset_of b' (S i) <-> 0 < size_of b' i)
  /\ ((forall i, (S i < n)%nat -> 0 < size_of b' i) -> plane_layout_invariant b' n).
Proof.
  intros Hk Hpg Hrun Hfit n.
  pose proof (i915_bo_from_format_wrapping _ _ _ _ _ _ Hrun) as (Hoff & Htot).
  apply i915_bo_from_format_inv in Hrun as (-> & _ & _ & Hin & _).
  fold n in Hoff, Htot, Hin, Hfit.
  assert (forall i, (i < n)%nat -> 0 <= size_of b' i) as Hnn.
  { intros i Hi. destruct (Hin i Hi) as (_ & -> & _). apply plane_size_range. }
  assert (0 < pagesize) as Hpp by (subst pagesize; apply Z.pow_pos_nonneg; lia).
  assert (forall i, (i <= n)%nat ->
            0 <= sum_from (size_of b') 0 i <= sum_from (size_of b') 0 n) as Hpart.
  { intros i Hi. split.
    - apply sum_from_nonneg. intros j Hj. apply Hnn. lia.
    - apply sum_from_mono; [| lia]. intros j Hj. apply Hnn. lia. }
  assert (forall i, (i < n)%nat -> offset_of b' i = sum_from (size_of b') 0 i) as Hexact.
  { intros i Hi. rewrite (Hoff i Hi). apply u32_small.
    pose proof (Hpart i ltac:(lia)). lia. }
  assert (meta_total_size (meta b') = round_up (sum_from (size_of b') 0 n) pagesize)
    as Hround.
  { rewrite Htot. pose proof (Hpart n ltac:(lia)).
    rewrite u32_small by lia. subst pagesize. apply ALIGN_exact; lia. }
  assert (forall i, (i < n)%nat ->
            offset_of b' i + size_of b' i <= meta_total_size (meta b')) as Hfits.
  { intros i Hi. rewrite Hround, (Hexact i Hi).
    pose proof (round_up_bounds (sum_from (size_of b') 0 n) pagesize Hpp).
    pose proof (Hpart (S i) ltac:(lia)) as Hs. rewrite sum_from_snoc in Hs.
    simpl in Hs. lia. }
  assert (forall i, (S i < n)%nat ->
            offset_of b' (S i) = offset_of b' i + size_of b' i) as Hnext.
  { intros i Hi. rewrite (Hexact i ltac:(lia)), (Hexact (S i) Hi).
    rewrite sum_from_snoc. reflexivity. }
  split; [reflexivity |]. split; [exact Hfits |]. split; [exact Hexact |].
  split; [exact Hround |]. split; [| split].
  - intros i Hi. rewrite (Hnext i Hi). pose proof (Hnn i ltac:(lia)). lia.
  - intros i Hi. rewrite (Hnext i Hi). lia.
  - intros Hpos. unfold plane_layout_invariant.
    split; [exact Hfits |]. split; [| split; [exact Hexact | exact Hround]].
    intros i Hi. rewrite (Hnext i Hi). pose proof (Hpos i Hi). lia.
Qed.


(** *** The compressed-surface path *)

Local Arguments vinsert : simpl never.

Lemma plane_set_1 (a : plane_array) v : plane_set a 1 v = Some (vinsert 1%fin v a).
Proof. reflexivity. Qed.

Lemma plane_get_two_0 (a : plane_array) x y :
  plane_get (vinsert 1%fin y (vinsert 0%fin x a)) 0 = x.
Proof.
  rewrite (plane_get_set_ne (vinsert 0%fin x a) 1 0 y _ (plane_set_1 _ y)) by lia.
  apply (plane_get_set_eq a 0 x). reflexivity.
Qed.

Lemma plane_get_two_1 (a : plane_array) x y :
  plane_get (vinsert 1%fin y (vinsert 0%fin x a)) 1 = y.
Proof. apply (plane_get_set_eq (vinsert 0%fin x a) 1 y). reflexivity. Qed.

Lemma u32_mul_l x y : u32 (u32 x * y) = u32 (x * y).
Proof. unfold u32. now rewrite Zmult_mod_idemp_l. Qed.

Lemma u32_mod_pow2 x k : 0 <= k <= 32 -> u32 x mod 2 ^ k = x mod 2 ^ k.
Proof.
  intros Hk. unfold u32. apply Z.mod_mod_divide.
  exists (2 ^ (32 - k)). rewrite <- Z.pow_add_r by lia. f_equal. lia.
Qed.

Lemma tiling_of_modifier_ccs old :
  tiling_of_modifier I915_FORMAT_MOD_Y_TILED_CCS old = I915_TILING_Y.
Proof. reflexivity. Qed.

Lemma ccs_layout_alignment b w h f :
  meta_tiling (meta b) = I915_TILING_Y -> aligned_to_table (ccs_layout b w h f) 2.
Proof.
  intros Ht i Hi. unfold aligned_to_table, stride_of, size_of, ccs_layout. simpl.
  rewrite Ht. change (horizontal_alignment I915_TILING_Y) with (2 ^ 7).
  change (vertical_alignment I915_TILING_Y) with (2 ^ 5).
  destruct i as [| [| i]]; [| | lia].
  - rewrite !plane_get_two_0. split.
    + right. rewrite u32_mod_pow2 by lia. change (2 ^ 7) with 128. apply Z.mod_mul. lia.
    + exists (DIV_ROUND_UP h 32 * 32). split.
      * change (2 ^ 5) with 32. apply Z.mod_mul. lia.
      * rewrite u32_mul_l. f_equal. lia.
  - rewrite !plane_get_two_1. split.
    + right. rewrite u32_mod_pow2 by lia. change (2 ^ 7) with 128. apply Z.mod_mul. lia.
    + exists (DIV_ROUND_UP (DIV_ROUND_UP h 32) 16 * 32). split.
      * change (2 ^ 5) with 32. apply Z.mod_mul. lia.
      * rewrite u32_mul_l. f_equal. lia.
Qed.

Lemma from_format_alignment b w h f r b' :
  i915_bo_from_format b w h f = Some (r, b') ->
  aligned_to_table b' (drv_num_planes_from_format f).
Proof.
  intros H. apply i915_bo_from_format_inv in H as (_ & Ht & Hf & Hin & _).
  intros i Hi. destruct (Hin i Hi) as (Hs & Hz & _).
  unfold stride_exempt. rewrite Ht, Hf, Hs, Hz. split.
  - unfold plane_stride, align_stride.
    destruct USE_GRALLOC1; simpl.
    + destruct (Z.eqb_spec (meta_format (meta b)) DRM_FORMAT_R8) as [-> | _];
        [now left | right].
      destruct (horizontal_alignment_pow2 (meta_tiling (meta b))) as (k & Hk & ->).
      now apply ALIGN_multiple.
    + right.
      destruct (horizontal_alignment_pow2 (meta_tiling (meta b))) as (k & Hk & ->).
      now apply ALIGN_multiple.
  - exists (plane_rows b h f i). split; [| reflexivity].
    unfold plane_rows, align_height.
    destruct (vertical_alignment_pow2 (meta_tiling (meta b))) as (k & Hk & ->).
    now apply ALIGN_multiple.
Qed.

(** On 4 KiB pages (or smaller) the planes of an X- or Y-tiled buffer
    are always laid out too: a tile row is 512 x 8 or 128 x 32 bytes, so
    every plane size, and with it every offset the [assert] tests, is a
    multiple of 4096. *)
Lemma IS_ALIGNED_multiple offset k :
  0 <= k <= 32 -> 0 <= offset < 2 ^ 32 -> offset mod 2 ^ k = 0 ->
  IS_ALIGNED offset (2 ^ k) = true.
Proof.
  intros Hk Ho Hm. unfold IS_ALIGNED. apply Z.eqb_eq.
  rewrite ALIGN_pow2 by lia.
  assert (0 < 2 ^ k) as Hp by (apply Z.pow_pos_nonneg; lia).
  pose proof (Z.div_mod offset (2 ^ k) ltac:(lia)) as Hd. rewrite Hm in Hd.
  assert (2 ^ 32 = 2 ^ (32 - k) * 2 ^ k) as H32
    by (rewrite <- Z.pow_add_r by lia; f_equal; lia).
  assert (offset / 2 ^ k < 2 ^ (32 - k)) by nia.
  rewrite u32_small by nia.
  replace (offset + 2 ^ k - 1) with (offset / 2 ^ k * 2 ^ k + (2 ^ k - 1)) by lia.
  rewrite Z.div_add_l by lia. rewrite (Z.div_small (2 ^ k - 1)) by lia. lia.
Qed.

Lemma tiled_plane_size_multiple b w h f i :
  meta_tiling (meta b) = I915_TILING_X \/ meta_tiling (meta b) = I915_TILING_Y ->
  USE_GRALLOC1 && (meta_format (meta b) =? DRM_FORMAT_R8) = false ->
  plane_size b w h f i mod 2 ^ 12 = 0.
Proof.
  intros Ht Hex. unfold plane_size. rewrite u32_mod_pow2 by lia.
  unfold plane_stride, plane_rows, align_stride, align_height. rewrite Hex.
  destruct Ht as [-> | ->].
  - change (horizontal_alignment I915_TILING_X) with (2 ^ 9).
    change (vertical_alignment I915_TILING_X) with (2 ^ 3).
    rewrite !ALIGN_pow2 by lia.
    match goal with |- (?a * 2 ^ 9 * (?c * 2 ^ 3)) mod _ = 0 =>
      replace (a * 2 ^ 9 * (c * 2 ^ 3)) with (a * c * 2 ^ 12) by lia end.
    apply Z.mod_mul. lia.
  - change (horizontal_alignment I915_TILING_Y) with (2 ^ 7).
    change (vertical_alignment I915_TILING_Y) with (2 ^ 5).
    rewrite !ALIGN_pow2 by lia.
    match goal with |- (?a * 2 ^ 7 * (?c * 2 ^ 5)) mod _ = 0 =>
      replace (a * 2 ^ 7 * (c * 2 ^ 5)) with (a * c * 2 ^ 12) by lia end.
    apply Z.mod_mul. lia.
Qed.

Lemma mod_pow2_le x j k : 0 <= k <= j -> x mod 2 ^ j = 0 -> x mod 2 ^ k = 0.
Proof.
  intros Hk Hx. apply Z.mod_divide in Hx; [| apply Z.pow_nonzero; lia].
  destruct Hx as [q ->].
  replace (2 ^ j) with (2 ^ (j - k) * 2 ^ k)
    by (rewrite <- Z.pow_add_r by lia; f_equal; lia).
  rewrite Z.mul_assoc. apply Z.mod_mul. apply Z.pow_nonzero; lia.
Qed.

Lemma from_format_loop_tiled w h f k n : forall p b off,
  0 <= k <= 12 -> pagesize = 2 ^ k ->
  meta_tiling (meta b) = I915_TILING_X \/ meta_tiling (meta b) = I915_TILING_Y ->
  USE_GRALLOC1 && (meta_format (meta b) =? DRM_FORMAT_R8) = false ->
  (p + n <= DRV_MAX_PLANES)%nat ->
  0 <= off < 2 ^ 32 -> off mod 2 ^ 12 = 0 ->
  is_Some (from_format_loop w h f n p b off).
Proof.
  induction n as [| n IH]; intros p b off Hk Hpg Ht Hex Hn Hoff Hmod; simpl; [eauto |].
  destruct (from_format_step w h f b off p) as [[b1 off1] |] eqn:Hstep.
  - pose proof (from_format_step_inv _ _ _ _ _ _ _ _ Hstep)
      as (_ & Ht1 & Hf1 & _ & _ & _ & _ & ->).
    apply IH; [exact Hk | exact Hpg | now rewrite Ht1 | now rewrite Hf1 | lia
              | apply u32_range |].
    rewrite u32_mod_pow2 by lia. rewrite Z.add_mod by lia.
    rewrite Hmod, (tiled_plane_size_multiple b w h f p Ht Hex). reflexivity.
  - exfalso. revert Hstep. unfold from_format_step.
    rewrite i915_align_dimensions_eq, Hpg.
    rewrite (IS_ALIGNED_multiple off k) by (try lia; apply (mod_pow2_le off 12 k); lia).
    rewrite andb_false_r.
    destruct (plane_set_Some (meta_strides (meta b)) p
                (align_stride (meta_format (meta b)) (meta_tiling (meta b))
                   (u32 (drv_stride_from_format f w p))) ltac:(lia)) as [st ->].
    simpl.
    match goal with |- context [plane_set (meta_sizes (meta b)) p ?v] =>
      destruct (plane_set_Some (meta_sizes (meta b)) p v ltac:(lia)) as [sz ->] end.
    simpl.
    destruct (plane_set_Some (meta_offsets (meta b)) p off ltac:(lia)) as [os ->].
    discriminate.
Qed.

Lemma i915_bo_from_format_tiled b w h f k :
  0 <= k <= 12 -> pagesize = 2 ^ k ->
  meta_tiling (meta b) = I915_TILING_X \/ meta_tiling (meta b) = I915_TILING_Y ->
  USE_GRALLOC1 && (meta_format (meta b) =? DRM_FORMAT_R8) = false ->
  (drv_num_planes_from_format f <= DRV_MAX_PLANES)%nat ->
  is_Some (i915_bo_from_format b w h f).
Proof.
  intros Hk Hpg Ht Hex Hn. unfold i915_bo_from_format.
  destruct (from_format_loop_tiled w h f k (drv_num_planes_from_format f) 0 b 0
              Hk Hpg Ht Hex ltac:(lia) ltac:(lia) eq_refl) as [[b1 off1] ->].
  eauto.
Qed.

(** The table of [i915_align_dimensions] holds the constants of the
    design document. *)
Lemma aligned_to_table_law (b : bo) (n : nat) :
  aligned_to_table b n -> alignment_law b n.
Proof.
  intros H i Hi. destruct (H i Hi) as (Hs & rows & Hr & Hsize). cbv zeta.
  unfold horizontal_alignment in Hs. unfold vertical_alignment in Hr.
  destruct (Z.eqb_spec (meta_tiling (meta b)) I915_TILING_X) as [Hx | Hx].
  - split.
    + destruct Hs as [Hs | Hs]; [now left | right; left; now split].
    + exists rows. split; [exact Hsize | left; now split].
  - destruct (Z.eqb_spec (meta_tiling (meta b)) I915_TILING_Y) as [Hy | Hy].
    + split.
      * destruct Hs as [Hs | Hs]; [now left | right; right; left; now split].
      * exists rows. split; [exact Hsize | right; left; now split].
    + split.
      * destruct Hs as [Hs | Hs]; [now left | now repeat right].
      * exists rows. split; [exact Hsize | now repeat right].
Qed.

(** C5, amended. For every format but the legacy Android planar one,
    every plane the layout engine writes has a stride that is a multiple
    of the stride constant of the tiling mode chosen (X-tiled 512,
    Y-tiled 128, otherwise 64) unless the buffer is R8 in a
    [USE_GRALLOC1] build, and holds a number of rows that is a multiple of
    the height constant (X-tiled 8, Y-tiled 32, otherwise 4). *)
Theorem i915_alignment_law b w h f u mods r b' :
  f <> DRM_FORMAT_YVU420_ANDROID ->
  i915_bo_compute_metadata b w h f u mods = Some (r, b') ->
  alignment_law b' (planes_laid_out f u mods).
Proof.
  intros Hfmt Hrun. apply aligned_to_table_law. revert Hrun.
  unfold i915_bo_compute_metadata, planes_laid_out.
  destruct (choose_modifier f u mods) as [m |]; [| intros _ i Hi; lia].
  destruct (Z.eqb_spec f DRM_FORMAT_YVU420_ANDROID) as [? | _]; [contradiction |].
  destruct (Z.eqb_spec m I915_FORMAT_MOD_Y_TILED_CCS) as [-> | _].
  - intros [= <- <-]. apply ccs_layout_alignment. apply tiling_of_modifier_ccs.
  - match goal with |- context [i915_bo_from_format ?b1 w h f] =>
      destruct (i915_bo_from_format b1 w h f) as [[r1 b1'] |] eqn:Hrun end;
      [| discriminate].
    intros [= <- <-]. eapply from_format_alignment; eassumption.
Qed.



End Layout.

End I915.

(** ** i915.c: kernel object creation and cache flushing *)

Module I915Kernel.

(** [struct i915_device]. *)
Record i915_device := mk_i915_device {
  gen : Z;
  has_llc : Z;
  device_id : Z;
  is_adlp : bool
}.

(** [struct vma] and [struct mapping], as far as flushing reads them. *)
Record vma := mk_vma { vma_addr : Z; vma_length : Z }.
Record mapping := mk_mapping { mapping_vma : vma }.

(** The three ioctls of [i915_bo_create_from_metadata], each with the
    answer of the kernel: [inr errno] or [Some errno] when it fails. *)
Inductive ioctl_event :=
| DRM_IOCTL_I915_GEM_CREATE (size : Z) (res : Z + positive)
| DRM_IOCTL_I915_GEM_SET_TILING (handle tiling_mode stride : Z) (res : option positive)
| DRM_IOCTL_GEM_CLOSE (handle : Z) (res : option positive).

(** The kernel as the function sees it. *)
Record i915_kernel := mk_i915_kernel {
  gem_create : Z -> Z + positive;
  gem_set_tiling : Z -> Z -> Z -> option positive;
  gem_close : Z -> option positive
}.

(** [for (plane = 0; plane < num_planes; plane++) handles[plane].u32 = handle]. *)
Fixpoint fill_handles (n : nat) (plane : nat) (hs : plane_array) (handle : Z)
  : option plane_array :=
  match n with
  | O => Some hs
  | S n' =>
      match plane_set hs plane handle with
      | Some hs' => fill_handles n' (S plane) hs' handle
      | None => None
      end
  end.

(** [i915_bo_create_from_metadata], lines 479-515: the return code, the
    buffer object and the ioctls issued, oldest first. [errno] is the one
    of the last ioctl that failed. *)
Definition i915_bo_create_from_metadata (K : i915_kernel) (b : bo)
  : option (Z * bo * list ioctl_event) :=
  let size := meta_total_size (meta b) in
  match gem_create K size with
  | inr errno => Some (Z.opp (Z.pos errno), b, [DRM_IOCTL_I915_GEM_CREATE size (inr errno)])
  | inl handle =>
      match fill_handles (meta_num_planes (meta b)) 0 (handles b) handle with
      | None => None
      | Some hs =>
          let b := set_handles b hs in
          let h0 := plane_get (handles b) 0 in
          let tiling := meta_tiling (meta b) in
          let stride := plane_get (meta_strides (meta b)) 0 in
          match gem_set_tiling K h0 tiling stride with
          | Some errno =>
              let closed := gem_close K h0 in
              let errno := match closed with Some errno' => errno' | None => errno end in
              Some (Z.opp (Z.pos errno), b,
                    [DRM_IOCTL_I915_GEM_CREATE size (inl handle);
                     DRM_IOCTL_I915_GEM_SET_TILING h0 tiling stride (Some errno);
                     DRM_IOCTL_GEM_CLOSE h0 closed])
          | None =>
              Some (0, b,
                    [DRM_IOCTL_I915_GEM_CREATE size (inl handle);
                     DRM_IOCTL_I915_GEM_SET_TILING h0 tiling stride None])
          end
      end
  end.

(** Kernel handles a log leaves open: created and not closed since. *)
Fixpoint open_handles (log : list ioctl_event) (live : list Z) : list Z :=
  match log with
  | [] => live
  | DRM_IOCTL_I915_GEM_CREATE _ (inl handle) :: log' => open_handles log' (handle :: live)
  | DRM_IOCTL_GEM_CLOSE handle None :: log' =>
      open_handles log' (filter (fun x => x <> handle) live)
  | _ :: log' => open_handles log' live
  end.

Definition I915_CACHELINE_SIZE : Z := 64.
Definition I915_CACHELINE_MASK : Z := I915_CACHELINE_SIZE - 1.

Inductive cache_op :=
| Mfence
| Clflush (p : Z).

(** The [while (p < end)] of [i915_clflush] on [uintptr_t]; [None] when
    the fuel runs out before the loop ends. *)
Fixpoint clflush_loop (fuel : nat) (p end_ : Z) : option (list cache_op) :=
  if p <? end_ then
    match fuel with
    | O => None
    | S fuel' =>
        match clflush_loop fuel' (u64 (p + I915_CACHELINE_SIZE)) end_ with
        | Some ops => Some (Clflush p :: ops)
        | None => None
        end
    end
  else Some [].

(** [i915_clflush], lines 298-308. *)
Definition i915_clflush (fuel : nat) (start size : Z) : option (list cache_op) :=
  let p := Z.land start (u64 (Z.lnot I915_CACHELINE_MASK)) in
  let end_ := u64 (start + size) in
  match clflush_loop fuel p end_ with
  | Some ops => Some (Mfence :: ops)
  | None => None
  end.

(** [i915_bo_flush], lines 652-659: the return code and the cache
    operations performed. *)
Definition i915_bo_flush (fuel : nat) (i915 : i915_device) (b : bo) (m : mapping)
  : option (Z * list cache_op) :=
  if (has_llc i915 =? 0) && (meta_tiling (meta b) =? I915_TILING_NONE) then
    match i915_clflush fuel (vma_addr (mapping_vma m)) (vma_length (mapping_vma m)) with
    | Some ops => Some (0, ops)
    | None => None
    end
  else Some (0, []).

(** The cache lines [p], [p + 64], ..., [n] of them. *)
Definition flush_lines (p : Z) (n : nat) : list cache_op :=
  map (fun i => Clflush (p + I915_CACHELINE_SIZE * Z.of_nat i)) (seq 0 n).

(** The start of the cache line holding [a]. *)
Definition line_of (a : Z) : Z := a - a mod I915_CACHELINE_SIZE.

(** A flush covers the mapping when it returns 0 after a fence followed
    by a flush of the line of every byte mapped. *)
Definition flush_covers (fuel : nat) (i915 : i915_device) (b : bo) (m : mapping) : Prop :=
  exists ops,
    i915_bo_flush fuel i915 b m = Some (0, Mfence :: ops)
    /\ forall a, vma_addr (mapping_vma m) <= a
                 < vma_addr (mapping_vma m) + vma_length (mapping_vma m) ->
                 In (Clflush (line_of a)) ops.

(** *** Creation: a failed tiling request closes the object *)

Lemma fill_handles_keep n : forall q hs handle hs' j,
  fill_handles n q hs handle = Some hs' -> (j < q)%nat ->
  plane_get hs' j = plane_get hs j.
Proof.
  induction n as [| n IH]; intros q hs handle hs' j H Hj; simpl in H.
  - now injection H as <-.
  - destruct (plane_set hs q handle) as [hs1 |] eqn:Hset; [| discriminate].
    rewrite (IH (S q) hs1 handle hs' j H) by lia.
    eapply plane_get_set_ne; [eassumption | lia].
Qed.

Lemma fill_handles_first n hs handle hs' :
  fill_handles (S n) 0 hs handle = Some hs' -> plane_get hs' 0 = handle.
Proof.
  cbn [fill_handles]. intros H.
  destruct (plane_set hs 0 handle) as [hs1 |] eqn:Hset; [| discriminate].
  rewrite (fill_handles_keep n 1 hs1 handle hs' 0%nat H) by lia.
  eapply plane_get_set_eq; eassumption.
Qed.

Lemma fill_handles_total n : forall q hs handle,
  (q + n <= DRV_MAX_PLANES)%nat -> is_Some (fill_handles n q hs handle).
Proof.
  induction n as [| n IH]; intros q hs handle Hn; simpl; [eauto |].
  destruct (plane_set_Some hs q handle ltac:(lia)) as [hs1 ->].
  apply IH. lia.
Qed.

(** When the kernel creates the object and then refuses the tiling
    request, the object is closed before the error is returned: the log
    leaves no handle open. *)
Lemma i915_bo_create_set_tiling_failure (K : i915_kernel) (b : bo) handle errno :
  (1 <= meta_num_planes (meta b) <= DRV_MAX_PLANES)%nat ->
  gem_create K (meta_total_size (meta b)) = inl handle ->
  gem_set_tiling K handle (meta_tiling (meta b)) (plane_get (meta_strides (meta b)) 0)
  = Some errno ->
  gem_close K handle = None ->
  exists b',
    i915_bo_create_from_metadata K b
    = Some (Z.opp (Z.pos errno), b',
            [DRM_IOCTL_I915_GEM_CREATE (meta_total_size (meta b)) (inl handle);
             DRM_IOCTL_I915_GEM_SET_TILING handle (meta_tiling (meta b))
               (plane_get (meta_strides (meta b)) 0) (Some errno);
             DRM_IOCTL_GEM_CLOSE handle None])
    /\ open_handles
         [DRM_IOCTL_I915_GEM_CREATE (meta_total_size (meta b)) (inl handle);
          DRM_IOCTL_I915_GEM_SET_TILING handle (meta_tiling (meta b))
            (plane_get (meta_strides (meta b)) 0) (Some errno);
          DRM_IOCTL_GEM_CLOSE handle None] [] = [].
Proof.
  intros Hn Hc Ht Hx. unfold i915_bo_create_from_metadata. rewrite Hc.
  destruct (meta_num_planes (meta b)) as [| n] eqn:Hplanes; [lia |].
  destruct (fill_handles_total (S n) 0 (handles b) handle ltac:(lia)) as [hs Hfill].
  rewrite Hfill. cbn [set_handles handles meta].
  rewrite (fill_handles_first _ _ _ _ Hfill), Ht, Hx.
  eexists. split; [reflexivity |].
  simpl. rewrite filter_cons. destruct (decide (handle <> handle)); [congruence |].
  reflexivity.
Qed.

(** *** Flushing *)

Lemma flush_lines_S p n :
  flush_lines p (S n) = Clflush p :: flush_lines (p + I915_CACHELINE_SIZE) n.
Proof.
  unfold flush_lines. simpl. rewrite Z.mul_0_r, Z.add_0_r. f_equal.
  rewrite <- seq_shift, map_map. apply map_ext. intros i. f_equal. lia.
Qed.

Lemma clflush_loop_lines n : forall fuel p end_,
  0 <= p -> end_ <= 2 ^ 64 - I915_CACHELINE_SIZE ->
  end_ <= p + I915_CACHELINE_SIZE * Z.of_nat n ->
  ((0 < n)%nat -> p + I915_CACHELINE_SIZE * (Z.of_nat n - 1) < end_) ->
  (n <= fuel)%nat ->
  clflush_loop fuel p end_ = Some (flush_lines p n).
Proof.
  unfold I915_CACHELINE_SIZE.
  induction n as [| n IH]; intros fuel p end_ Hp Hend Hhi Hlo Hfuel.
  - assert ((p <? end_) = false) as Hcmp by (apply Z.ltb_ge; lia).
    destruct fuel; simpl; now rewrite Hcmp.
  - specialize (Hlo ltac:(lia)).
    assert ((p <? end_) = true) as Hcmp by (apply Z.ltb_lt; lia).
    destruct fuel as [| fuel]; [lia |]. simpl. rewrite Hcmp.
    unfold I915_CACHELINE_SIZE, u64. rewrite Z.mod_small by lia.
    rewrite (IH fuel (p + 64) end_) by lia.
    now rewrite flush_lines_S.
Qed.

Lemma cacheline_floor start :
  0 <= start < 2 ^ 64 ->
  Z.land start (u64 (Z.lnot I915_CACHELINE_MASK)) = line_of start.
Proof.
  intros H. unfold u64, I915_CACHELINE_MASK, line_of, I915_CACHELINE_SIZE.
  change (64 - 1) with (2 ^ 6 - 1).
  rewrite (land_mask_width 64 start 6) by lia.
  change (2 ^ 6) with 64. pose proof (Z.div_mod start 64 ltac:(lia)). lia.
Qed.

Lemma line_of_le a b : a <= b -> line_of a <= line_of b.
Proof.
  intros H. unfold line_of, I915_CACHELINE_SIZE.
  pose proof (Z.div_le_mono a b 64 ltac:(lia) H).
  pose proof (Z.div_mod a 64 ltac:(lia)). pose proof (Z.div_mod b 64 ltac:(lia)). lia.
Qed.

(** C8, amended. Flushing returns 0 in every case. On a platform
    without a shared last-level cache, for an untiled buffer whose
    mapping ends at least one cache line below the top of the address
    space, it issues a fence and then flushes, from the cache-line
    boundary at or below the mapping start, every cache line of the
    mapped range. On a platform with a shared last-level cache, and for
    tiled buffers on any platform, it flushes nothing. *)
Theorem i915_bo_flush_spec (i915 : i915_device) (b : bo) (m : mapping) :
  0 <= vma_addr (mapping_vma m) ->
  0 <= vma_length (mapping_vma m) ->
  vma_addr (mapping_vma m) + vma_length (mapping_vma m) <= 2 ^ 64 - I915_CACHELINE_SIZE ->
  (has_llc i915 = 0 -> meta_tiling (meta b) = I915_TILING_NONE ->
     exists n,
       (forall fuel, (n <= fuel)%nat ->
          i915_bo_flush fuel i915 b m
          = Some (0, Mfence :: flush_lines (line_of (vma_addr (mapping_vma m))) n))
       /\ forall a,
            vma_addr (mapping_vma m) <= a
            < vma_addr (mapping_vma m) + vma_length (mapping_vma m) ->
            In (Clflush (line_of a)) (flush_lines (line_of (vma_addr (mapping_vma m))) n))
  /\ (has_llc i915 <> 0 \/ meta_tiling (meta b) <> I915_TILING_NONE ->
      forall fuel, i915_bo_flush fuel i915 b m = Some (0, [])).
Proof.
  intros Ha Hl Htop. set (addr := vma_addr (mapping_vma m)) in *.
  set (len := vma_length (mapping_vma m)) in *.
  unfold I915_CACHELINE_SIZE in Htop. split.
  - intros Hllc Htil.
    set (p := line_of addr).
    assert (0 <= p <= addr /\ p mod 64 = 0) as (Hp & Hpm).
    { unfold p, line_of, I915_CACHELINE_SIZE.
      pose proof (Z.mod_pos_bound addr 64 ltac:(lia)).
      pose proof (Z.div_mod addr 64 ltac:(lia)). split; [lia |].
      replace (addr - addr mod 64) with (addr / 64 * 64) by lia.
      apply Z.mod_mul. lia. }
    set (n := Z.to_nat (ceil_div (addr + len - p) 64)).
    assert (0 <= ceil_div (addr + len - p) 64) as Hq
      by (unfold ceil_div; apply Z.div_pos; lia).
    pose proof (Z.div_mod (addr + len - p + 64 - 1) 64 ltac:(lia)) as Hdm.
    pose proof (Z.mod_pos_bound (addr + len - p + 64 - 1) 64 ltac:(lia)) as Hmb.
    fold (ceil_div (addr + len - p) 64) in Hdm.
    assert (Z.of_nat n = ceil_div (addr + len - p) 64) as Hn by (unfold n; lia).
    exists n. split.
    + intros fuel Hfuel. unfold i915_bo_flush, i915_clflush.
      rewrite Hllc, Htil. simpl. fold addr len.
      rewrite (cacheline_floor addr) by lia. fold p.
      unfold u64. rewrite (Z.mod_small (addr + len)) by lia.
      rewrite (clflush_loop_lines n fuel p (addr + len));
        unfold I915_CACHELINE_SIZE; try lia; reflexivity.
    + intros a Hrange. unfold flush_lines. apply in_map_iff.
      assert (p <= line_of a) as Hle by (apply line_of_le; lia).
      assert (line_of a <= a /\ (line_of a - p) mod 64 = 0) as (Hla & Hlm).
      { unfold line_of, I915_CACHELINE_SIZE in *.
        pose proof (Z.mod_pos_bound a 64 ltac:(lia)). split; [lia |].
        pose proof (Z.div_mod a 64 ltac:(lia)).
        pose proof (Z.div_mod addr 64 ltac:(lia)).
        replace (a - a mod 64 - p) with ((a / 64 - addr / 64) * 64)
          by (unfold p, line_of, I915_CACHELINE_SIZE; lia).
        apply Z.mod_mul. lia. }
      exists (Z.to_nat ((line_of a - p) / 64)).
      pose proof (Z.div_mod (line_of a - p) 64 ltac:(lia)) as Hd.
      assert (0 <= (line_of a - p) / 64) by (apply Z.div_pos; lia).
      split.
      * f_equal. unfold I915_CACHELINE_SIZE. lia.
      * apply in_seq. lia.
  - intros Hno fuel. unfold i915_bo_flush.
    destruct Hno as [Hllc | Htil].
    + destruct (Z.eqb_spec (has_llc i915) 0); [contradiction | reflexivity].
    + destruct (Z.eqb_spec (meta_tiling (meta b)) I915_TILING_NONE);
        [contradiction |].
      now rewrite andb_false_r.
Qed.

End I915Kernel.

(** ** The format helpers, for concrete runs *)

Module Helpers.

(** Modelled from the spec: [helpers.c] is not among the sources. A
    format is laid out from its "plane-subsampling rules": a plane count
    and, per plane, the horizontal and vertical subsampling and the bytes
    per pixel. The four formats below are the ones the examples use. *)
Record planar_layout := mk_layout {
  layout_num_planes : nat;
  horizontal_subsampling : list Z;
  vertical_subsampling : list Z;
  bytes_per_pixel : list Z
}.

Definition layout_from_format (format : Z) : planar_layout :=
  if format =? DRM_FORMAT_NV12 then mk_layout 2 [1; 2] [1; 2] [1; 2]
  else if format =? DRM_FORMAT_YVU420_ANDROID then mk_layout 3 [1; 2; 2] [1; 2; 2] [1; 1; 1]
  else if format =? DRM_FORMAT_R8 then mk_layout 1 [1] [1] [1]
  else if (format =? DRM_FORMAT_XRGB8888) || (format =? DRM_FORMAT_XBGR8888)
          || (format =? DRM_FORMAT_ABGR8888)
  then mk_layout 1 [1] [1] [4]
  else mk_layout 0 [] [] [].

Definition drv_num_planes_from_format (format : Z) : nat :=
  layout_num_planes (layout_from_format format).

(** Modelled from the spec: the unaligned stride of a plane is its width
    in samples times its bytes per pixel; the legacy Android planar
    format keeps its luma stride a multiple of 32 and its chroma stride a
    multiple of 16 (comment at lines 422-429 of [i915.c]). *)
Definition drv_stride_from_format (format width : Z) (plane : nat) : Z :=
  let l := layout_from_format format in
  let plane_width := DIV_ROUND_UP width (nth plane (horizontal_subsampling l) 1) in
  let stride := u32 (plane_width * nth plane (bytes_per_pixel l) 0) in
  if format =? DRM_FORMAT_YVU420_ANDROID then
    match plane with
    | O => ALIGN stride 32
    | _ => ALIGN stride 16
    end
  else stride.

(** Modelled from the spec: the height of a plane is the height divided
    by its vertical subsampling, rounded up. *)
Definition drv_height_from_format (format height : Z) (plane : nat) : Z :=
  DIV_ROUND_UP height (nth plane (vertical_subsampling (layout_from_format format)) 1).

Fixpoint bo_from_format_loop (format stride aligned_height : Z) (n plane : nat)
    (b : bo) (offset : Z) : bo * Z :=
  match n with
  | O => (b, offset)
  | S n' =>
      let plane_stride := drv_stride_from_format format stride plane in
      let plane_size :=
        u32 (plane_stride * drv_height_from_format format aligned_height plane) in
      let upd a v := default a (plane_set a plane v) in
      let b' :=
        set_offsets
          (set_sizes (set_strides b (upd (meta_strides (meta b)) plane_stride))
             (upd (meta_sizes (meta b)) plane_size))
          (upd (meta_offsets (meta b)) offset) in
      bo_from_format_loop format stride aligned_height n' (S plane) b'
        (u32 (offset + plane_size))
  end.

(** Modelled from the spec: [drv_bo_from_format] of [helpers.c], the
    generic layout the legacy Android planar format goes through: each
    plane takes the (subsampled) stride it is given, with no alignment to
    the tiling mode, planes follow each other and the total is their sum. *)
Definition drv_bo_from_format (b : bo) (stride aligned_height format : Z) : bo :=
  let '(b', offset) :=
    bo_from_format_loop format stride aligned_height
      (drv_num_planes_from_format format) 0 b 0 in
  set_total_size b' offset.

(** Modelled from the spec: [drv_pick_modifier] picks "the first entry,
    in descending preference order, that also appears in the supplied
    list", and the linear modifier when there is none. *)
Definition drv_pick_modifier (modifiers modifier_order : list Z) : Z :=
  match filter (fun m => m ∈ modifiers) modifier_order with
  | m :: _ => m
  | [] => DRM_FORMAT_MOD_LINEAR
  end.

(** Two registries: one that answers every request with the linear
    entry, one that answers with the Y-tiled compressed entry. *)
Definition linear_registry (format use_flags : Z) : option format_metadata :=
  Some (mk_format_metadata 1 I915_TILING_NONE DRM_FORMAT_MOD_LINEAR).

Definition ccs_registry (format use_flags : Z) : option format_metadata :=
  Some (mk_format_metadata 3 I915_TILING_Y I915_FORMAT_MOD_Y_TILED_CCS).

(** A private hook that claims no format. *)
Definition no_private_resolve (format use_flags : Z) : option Z := None.

End Helpers.

(** ** Concrete runs of the layout engine *)

Module I915Runs.

Import I915 I915Kernel Helpers.

(** The build of the gralloc driver: [USE_GRALLOC1] defined, 4 KiB
    pages, the helpers above. *)
Definition layout (registry : Z -> Z -> option format_metadata) (b : bo)
    (width height format use_flags : Z) : option (Z * bo) :=
  i915_bo_compute_metadata true 4096 drv_num_planes_from_format drv_stride_from_format
    drv_height_from_format drv_bo_from_format registry drv_pick_modifier
    b width height format use_flags None.

Definition per_plane_layout (b : bo) (width height format : Z) : option (Z * bo) :=
  i915_bo_from_format true 4096 drv_num_planes_from_format drv_stride_from_format
    drv_height_from_format b width height format.

Definition request (width height format : Z) : bo :=
  bo_new width height format 0 (drv_num_planes_from_format format).

Definition no_llc : i915_device := mk_i915_device 9 0 6418 false.

Definition x_tiled_bo : bo := set_tiling (request 64 8 DRM_FORMAT_XRGB8888) I915_TILING_X.

(** *** C7 *)

Lemma resolve_format_cases_witness :
  i915_resolve_format true no_private_resolve DRM_FORMAT_FLEX_IMPLEMENTATION_DEFINED
    BO_USE_CAMERA_READ = DRM_FORMAT_NV12
  /\ i915_resolve_format true no_private_resolve DRM_FORMAT_FLEX_YCbCr_420_888 0
     = DRM_FORMAT_NV12.
Proof.
  split.
  - destruct (i915_resolve_format_cases true no_private_resolve
                DRM_FORMAT_FLEX_IMPLEMENTATION_DEFINED BO_USE_CAMERA_READ eq_refl)
      as (H & _).
    exact (H eq_refl).
  - destruct (i915_resolve_format_cases true no_private_resolve
                DRM_FORMAT_FLEX_YCbCr_420_888 0 eq_refl) as (_ & H & _).
    exact (H eq_refl).
Defined.

(** With no camera flag the flexible YCbCr format resolves to NV12, not
    to the RGB fallback the documented rule gives. *)
Lemma flex_ycbcr_ignores_camera_flags :
  Z.land 0 camera_mask = 0
  /\ i915_resolve_format true no_private_resolve DRM_FORMAT_FLEX_YCbCr_420_888 0
     = DRM_FORMAT_NV12
  /\ i915_resolve_format true no_private_resolve DRM_FORMAT_FLEX_YCbCr_420_888 0
     <> resolve_format_as_documented DRM_FORMAT_FLEX_YCbCr_420_888 0.
Proof. repeat split. discriminate. Qed.

(** *** C6 *)

Lemma plane_layout_witness :
  exists b',
    per_plane_layout (request 640 480 DRM_FORMAT_NV12) 640 480 DRM_FORMAT_NV12
    = Some (0, b')
    /\ plane_layout_invariant 4096 b' 2.
Proof.
  eexists. split; [vm_compute; reflexivity |].
  refine ((fun H => proj2 (proj2 (proj2 (proj2 (proj2 (proj2 H))))) _)
            (i915_bo_from_format_layout true 4096 drv_num_planes_from_format
               drv_stride_from_format drv_height_from_format
               (request 640 480 DRM_FORMAT_NV12) 640 480 DRM_FORMAT_NV12 0 _ 12
               _ _ _ _)).
  - intros i Hi. assert (i = 0%nat) as -> by (vm_compute in Hi; lia).
    vm_compute. reflexivity.
  - lia.
  - reflexivity.
  - vm_compute. reflexivity.
  - vm_compute. reflexivity.
Defined.

(** A 65536 x 49152 NV12 buffer: the two plane sizes add up to more than
    2^32, the running offset wraps, and the second plane ends far beyond
    the total. *)
Lemma plane_layout_wraps :
  exists b',
    per_plane_layout (request 65536 49152 DRM_FORMAT_NV12) 65536 49152 DRM_FORMAT_NV12
    = Some (0, b')
    /\ ~ plane_layout_invariant 4096 b' 2.
Proof.
  eexists. split; [vm_compute; reflexivity |].
  intros (H & _). specialize (H 1%nat ltac:(lia)). vm_compute in H.
  apply H. reflexivity.
Qed.

(** A buffer of width 0: both planes are empty and share offset 0. *)
Lemma plane_layout_empty_planes :
  exists b',
    per_plane_layout (request 0 480 DRM_FORMAT_NV12) 0 480 DRM_FORMAT_NV12 = Some (0, b')
    /\ offset_of b' 0 = 0 /\ offset_of b' 1 = 0.
Proof. eexists. split; [vm_compute; reflexivity |]. split; reflexivity. Qed.

(** *** C5 *)

(** A registry that answers every request with the X-tiled entry. *)
Definition x_tiled_registry (format use_flags : Z) : option format_metadata :=
  Some (mk_format_metadata 2 I915_TILING_X I915_FORMAT_MOD_X_TILED).

(** A 100 x 10 XRGB8888 buffer, X-tiled: the stride of 400 bytes is
    rounded up to 512 and the 10 rows to 16. *)
Lemma alignment_law_witness :
  exists b',
    layout x_tiled_registry (request 100 10 DRM_FORMAT_XRGB8888) 100 10
      DRM_FORMAT_XRGB8888 0 = Some (0, b')
    /\ meta_tiling (meta b') = I915_TILING_X
    /\ stride_of b' 0 = 512
    /\ size_of b' 0 = 512 * 16
    /\ alignment_law true b' 1.
Proof.
  eexists. split; [vm_compute; reflexivity |].
  split; [reflexivity |]. split; [reflexivity |]. split; [reflexivity |].
  refine (i915_alignment_law true 4096 drv_num_planes_from_format drv_stride_from_format
            drv_height_from_format drv_bo_from_format x_tiled_registry drv_pick_modifier
            (request 100 10 DRM_FORMAT_XRGB8888) 100 10 DRM_FORMAT_XRGB8888 0 None 0 _ _ _).
  - discriminate.
  - vm_compute. reflexivity.
Defined.

(** The legacy Android planar format, 32 x 2, linear: the strides are 32,
    16 and 16, none a multiple of 64. *)
Lemma android_planar_breaks_alignment :
  exists b',
    layout linear_registry (request 32 2 DRM_FORMAT_YVU420_ANDROID) 32 2
      DRM_FORMAT_YVU420_ANDROID 0 = Some (0, b')
    /\ meta_tiling (meta b') = I915_TILING_NONE
    /\ stride_of b' 0 = 32
    /\ ~ alignment_law true b' 3.
Proof.
  eexists. split; [vm_compute; reflexivity |].
  split; [reflexivity |]. split; [reflexivity |].
  intros H. destruct (H 0%nat ltac:(lia)) as [Hs _]. cbv zeta in Hs.
  destruct Hs as [[_ Hfmt] | [[Hx _] | [[Hy _] | (_ & _ & Hmod)]]].
  - vm_compute in Hfmt. discriminate.
  - vm_compute in Hx. discriminate.
  - vm_compute in Hy. discriminate.
  - vm_compute in Hmod. discriminate.
Qed.

(** *** C4 *)



(** *** C8 *)

Lemma flush_witness :
  exists n,
    (forall fuel, (n <= fuel)%nat ->
       i915_bo_flush fuel no_llc (request 64 8 DRM_FORMAT_XRGB8888)
         (mk_mapping (mk_vma 4100 100))
       = Some (0, Mfence :: flush_lines 4096 n))
    /\ forall a, 4100 <= a < 4100 + 100 -> In (Clflush (line_of a)) (flush_lines 4096 n).
Proof.
  destruct (i915_bo_flush_spec no_llc (request 64 8 DRM_FORMAT_XRGB8888)
              (mk_mapping (mk_vma 4100 100)))
    as (H & _); [simpl; lia | simpl; lia | vm_compute; discriminate |].
  exact (H eq_refl eq_refl).
Defined.

(** An X-tiled buffer on a platform without a shared last-level cache:
    nothing is flushed. *)
Lemma tiled_flush_is_empty :
  i915_bo_flush 8 no_llc x_tiled_bo (mk_mapping (mk_vma 4096 64)) = Some (0, [])
  /\ ~ flush_covers 8 no_llc x_tiled_bo (mk_mapping (mk_vma 4096 64)).
Proof.
  split; [reflexivity |]. intros (ops & H & _). vm_compute in H. discriminate.
Qed.

End I915Runs.

(** ** cros_gralloc_driver.cc: the lifecycle manager *)

Module Gralloc.

(** [cros_gralloc_magic] of [cros_gralloc_handle.h]. *)
Definition cros_gralloc_magic : Z := 0xABCDDCBA.

(** [struct cros_gralloc_buffer_descriptor]. *)
Record cros_gralloc_buffer_descriptor := mk_descriptor {
  d_width : Z;
  d_height : Z;
  d_droid_format : Z;
  d_droid_usage : Z;
  d_drm_format : Z;
  d_use_flags : Z;
  d_reserved_region_size : Z;
  d_name : string;
  d_modifier : Z
}.

Definition set_use_flags (d : cros_gralloc_buffer_descriptor) (v : Z)
  : cros_gralloc_buffer_descriptor :=
  mk_descriptor (d_width d) (d_height d) (d_droid_format d) (d_droid_usage d)
    (d_drm_format d) v (d_reserved_region_size d) (d_name d) (d_modifier d).

(** [struct cros_gralloc_handle], the fields [allocate] fills that do
    not depend on the byte layout of the handle or on Android-only
    helpers. [hnd_fds] holds the initialised prefix of [fds]: one
    descriptor per plane, then the reserved-region descriptor; the
    other three lists hold one entry per plane, the part of each array
    that [allocate] writes. *)
Record cros_gralloc_handle := mk_handle {
  hnd_fds : list Z;
  hnd_strides : list Z;
  hnd_offsets : list Z;
  hnd_sizes : list Z;
  hnd_id : Z;
  hnd_width : Z;
  hnd_height : Z;
  hnd_format : Z;
  hnd_format_modifier : Z;
  hnd_use_flags : Z;
  hnd_pixel_stride : Z;
  hnd_magic : Z;
  hnd_usage : Z;
  hnd_num_planes : nat;
  hnd_reserved_region_size : Z;
  hnd_total_size : Z;
  hnd_name : string
}.

(** A non-null [buffer_handle_t]: where the handle lives and what is
    stored there. The tables are keyed by the address. *)
Record handle_ref := mk_ref {
  addr : positive;
  contents : cros_gralloc_handle
}.

(** [buffer_handle_t]; [None] is the null pointer. *)
Definition buffer_handle_t : Type := option handle_ref.

(** Modelled from the spec: [cros_gralloc_convert_handle] of
    [cros_gralloc_helpers.cc] is not among the sources; it rejects a
    "malformed handle", that is a null pointer or one without the magic
    number. *)
Definition cros_gralloc_convert_handle (handle : buffer_handle_t) : option handle_ref :=
  match handle with
  | Some hnd => if hnd_magic (contents hnd) =? cros_gralloc_magic then Some hnd else None
  | None => None
  end.

(** Modelled from the spec: the class [cros_gralloc_buffer] is not among
    the sources. A Buffer has a stable id, owns its buffer object and an
    optional reserved-region descriptor, and carries a reference count
    that starts at 1. *)
Record cros_gralloc_buffer := mk_buffer {
  id_ : Z;
  bo_ : bo;
  hnd_ : option positive;
  reserved_region_fd_ : Z;
  reserved_region_size_ : Z;
  refcount_ : Z
}.

Definition new_cros_gralloc_buffer (id : Z) (acquire_bo : bo) (acquire_handle : option positive)
    (reserved_region_fd reserved_region_size : Z) : cros_gralloc_buffer :=
  mk_buffer id acquire_bo acquire_handle reserved_region_fd reserved_region_size 1.

Definition with_refcount (b : cros_gralloc_buffer) (v : Z) : cros_gralloc_buffer :=
  mk_buffer (id_ b) (bo_ b) (hnd_ b) (reserved_region_fd_ b) (reserved_region_size_ b) v.

(** Modelled from the spec: "increments the Buffer's refcount". *)
Definition increase_refcount (b : cros_gralloc_buffer) : cros_gralloc_buffer :=
  with_refcount b (refcount_ b + 1).

(** Modelled from the spec: "decrements the Buffer's refcount"; the new
    count is what the caller tests. *)
Definition decrease_refcount (b : cros_gralloc_buffer) : cros_gralloc_buffer :=
  with_refcount b (refcount_ b - 1).

(** [struct drv_import_fd_data], as [retain] fills it. *)
Record drv_import_fd_data := mk_import_data {
  data_fds : list Z;
  data_strides : list Z;
  data_offsets : list Z;
  data_format_modifier : Z;
  data_width : Z;
  data_height : Z;
  data_format : Z;
  data_use_flags : Z
}.

(** The calls the driver makes outside its tables: the ones that create
    or release a buffer object or a descriptor, the prime lookup of
    [retain] with the descriptor asked about, the status and the kernel
    handle it answered, and an import the [drv] layer refused. *)
Inductive event :=
| Ev_drv_bo_create (b : bo)
| Ev_drv_bo_import (b : bo)
| Ev_drv_bo_import_refused (data : drv_import_fd_data)
| Ev_drv_bo_destroy (b : bo)
| Ev_drmPrimeFDToHandle (fd : Z) (ret : Z) (handle : Z)
| Ev_memfd_create (fd : Z)
| Ev_ftruncate (fd size : Z) (ret : Z)
| Ev_close (fd : Z).

(** What the kernel, the C library and the [drv] layer answer during one
    call. A system call returns its raw value and leaves [errno];
    [malloc] returns the address of the new block, or [None] for the
    null pointer; [drv_bytes_per_pixel_from_format] of [helpers.c] is
    not among the sources and is taken as it answers. *)
Record kernel := mk_kernel {
  drv_bo_create : Z -> Z -> Z -> Z -> option bo;
  drv_bo_create_with_modifiers : Z -> Z -> Z -> list Z -> option bo;
  drv_bo_get_plane_fd : bo -> nat -> Z;
  drv_bo_import : drv_import_fd_data -> option bo;
  drv_bytes_per_pixel_from_format : Z -> nat -> Z;
  drmPrimeFDToHandle : Z -> Z * Z;
  memfd_create : string -> Z;
  ftruncate : Z -> Z -> Z;
  malloc : option positive;
  errno : positive
}.

(** The driver object: the Buffers on the heap, the two tables, the
    static [next_buffer_id] counter and the log of outside calls, oldest
    first. *)
Record driver := mk_driver {
  heap : gmap positive cros_gralloc_buffer;
  buffers_ : gmap Z positive;
  handles_ : gmap positive (positive * Z);
  next_buffer_id : Z;
  log : list event
}.

Definition empty_driver : driver := mk_driver ∅ ∅ ∅ 1 [].

Definition add_log (s : driver) (evs : list event) : driver :=
  mk_driver (heap s) (buffers_ s) (handles_ s) (next_buffer_id s) (log s ++ evs).

(** The bookkeeping of a driver, without the log. *)
Definition tables (s : driver)
  : gmap positive cros_gralloc_buffer * gmap Z positive * gmap positive (positive * Z) :=
  (heap s, buffers_ s, handles_ s).

(** [std::unordered_map::emplace]: no effect on a key that is present. *)
Definition emplace `{Countable K} {V} (k : K) (v : V) (m : gmap K V) : gmap K V :=
  match m !! k with
  | Some _ => m
  | None => <[k := v]> m
  end.

(** Descriptors a log leaves open, and buffer objects it leaves alive. *)
Fixpoint open_fds (evs : list event) (live : list Z) : list Z :=
  match evs with
  | [] => live
  | Ev_memfd_create fd :: evs' => open_fds evs' (fd :: live)
  | Ev_close fd :: evs' => open_fds evs' (filter (fun x => x <> fd) live)
  | _ :: evs' => open_fds evs' live
  end.

Fixpoint live_bos (evs : list event) (live : nat) : nat :=
  match evs with
  | [] => live
  | Ev_drv_bo_create _ :: evs' => live_bos evs' (S live)
  | Ev_drv_bo_import _ :: evs' => live_bos evs' (S live)
  | Ev_drv_bo_destroy _ :: evs' => live_bos evs' (pred live)
  | _ :: evs' => live_bos evs' live
  end.

Section Driver.

(** Build configuration. *)
Variable USE_GRALLOC1 : bool.
(** [drv_resolve_format], [drv_get_combination] and
    [drv_num_buffers_per_bo] of [drv.c], not among the sources: the
    backend's format resolution, the read-only combination registry, and
    the count of distinct kernel buffers behind a buffer object. *)
Variable drv_resolve_format : Z -> Z -> Z.
Variable drv_get_combination : Z -> Z -> option format_metadata.
Variable drv_num_buffers_per_bo : bo -> Z.

(** [use_flags & ~BO_USE_SCANOUT] on [uint64_t]. *)
Definition drop_scanout (use_flags : Z) : Z :=
  Z.land use_flags (u64 (Z.lnot BO_USE_SCANOUT)).

(** [cros_gralloc_driver::is_supported], lines 175-193: the answer, the
    descriptor as the call leaves it, and the registry queries made. *)
Definition is_supported (descriptor : cros_gralloc_buffer_descriptor)
  : bool * cros_gralloc_buffer_descriptor * list (Z * Z) :=
  let resolved_format :=
    drv_resolve_format (d_drm_format descriptor) (d_use_flags descriptor) in
  let combo := drv_get_combination resolved_format (d_use_flags descriptor) in
  let supported := bool_decide (is_Some combo) in
  let queries := [(resolved_format, d_use_flags descriptor)] in
  if negb supported && negb (Z.land (d_use_flags descriptor) BO_USE_SCANOUT =? 0) then
    let descriptor := set_use_flags descriptor (drop_scanout (d_use_flags descriptor)) in
    let combo := drv_get_combination resolved_format (d_use_flags descriptor) in
    (bool_decide (is_Some combo), descriptor,
     queries ++ [(resolved_format, d_use_flags descriptor)])
  else (supported, descriptor, queries).

(** [create_reserved_region], lines 195-212: the value returned and the
    calls made. *)
Definition create_reserved_region (K : kernel) (buffer_name : string)
    (reserved_region_size : Z) : Z * list event :=
  let reserved_region_name := (buffer_name ++ " reserved region")%string in
  let reserved_region_fd := memfd_create K reserved_region_name in
  if reserved_region_fd =? -1 then (- Z.pos (errno K), [])
  else
    let ret := ftruncate K reserved_region_fd reserved_region_size in
    if negb (ret =? 0) then
      (- Z.pos (errno K),
       [Ev_memfd_create reserved_region_fd;
        Ev_ftruncate reserved_region_fd reserved_region_size ret])
    else
      (reserved_region_fd,
       [Ev_memfd_create reserved_region_fd;
        Ev_ftruncate reserved_region_fd reserved_region_size ret]).

(** The usage flags [allocate] passes to the buffer-object factory. *)
Definition allocate_use_flags (descriptor : cros_gralloc_buffer_descriptor)
    (resolved_format : Z) : Z :=
  let use_flags := d_use_flags descriptor in
  let use_flags :=
    if resolved_format =? DRM_FORMAT_NV12 then Z.lor use_flags BO_USE_LINEAR
    else use_flags in
  if (d_drm_format descriptor =? DRM_FORMAT_FLEX_IMPLEMENTATION_DEFINED)
     && ((resolved_format =? DRM_FORMAT_XBGR8888)
         || (resolved_format =? DRM_FORMAT_ABGR8888))
  then Z.land use_flags (u64 (Z.lnot BO_USE_HW_VIDEO_ENCODER))
  else use_flags.

Definition planes_of (n : nat) (a : plane_array) : list Z :=
  map (plane_get a) (seq 0 n).

(** The handle [allocate] fills in, lines 312-357. Line 338 divides the
    stride of plane 0 by the bytes per pixel of the format, both
    [uint32_t]: [None], behaviour the language leaves undefined, when
    the buffer object has no plane, so that [strides[0]] was never
    written, and when the bytes per pixel are 0. *)
Definition build_handle (K : kernel) (descriptor : cros_gralloc_buffer_descriptor)
    (b : bo) (reserved_region_fd id : Z) : option cros_gralloc_handle :=
  let num_planes := meta_num_planes (meta b) in
  let strides := planes_of num_planes (meta_strides (meta b)) in
  let format := meta_format (meta b) in
  let bytes_per_pixel := u32 (drv_bytes_per_pixel_from_format K format 0) in
  stride ← strides !! 0%nat;
  if bytes_per_pixel =? 0 then None
  else
    Some (mk_handle
            (map (drv_bo_get_plane_fd K b) (seq 0 num_planes) ++ [reserved_region_fd])
            strides
            (planes_of num_planes (meta_offsets (meta b)))
            (planes_of num_planes (meta_sizes (meta b)))
            id
            (meta_width (meta b))
            (meta_height (meta b))
            format
            (plane_get (meta_format_modifiers (meta b)) 0)
            (d_use_flags descriptor)
            (DIV_ROUND_UP stride bytes_per_pixel)
            cros_gralloc_magic
            (d_droid_usage descriptor)
            num_planes
            (d_reserved_region_size descriptor)
            (d_reserved_region_size descriptor + meta_total_size (meta b))
            (d_name descriptor)).

(** The end of [allocate], lines 299-367, once no call can report a
    failure any more: build the handle in the block [malloc] returned,
    wrap the buffer object in a new Buffer and register both. The
    result of [malloc] is written through unchecked (line 312): [None]
    when it is the null pointer, and when filling the handle is
    undefined. *)
Definition register_allocation (K : kernel) (descriptor : cros_gralloc_buffer_descriptor)
    (b : bo) (reserved_region_fd : Z) (s : driver)
  : option (Z * buffer_handle_t * driver) :=
  a ← malloc K;
  hnd ← build_handle K descriptor b reserved_region_fd (next_buffer_id s);
  let id := plane_get (handles b) 0 in
  let buffer :=
    new_cros_gralloc_buffer id b (Some a)
      (nth (hnd_num_planes hnd) (hnd_fds hnd) (-1)) (hnd_reserved_region_size hnd) in
  let p := fresh (dom (heap s)) in
  Some (0, Some (mk_ref a hnd),
        mk_driver (<[p := buffer]> (heap s)) (emplace id p (buffers_ s))
          (emplace a (p, 1) (handles_ s)) (u32 (next_buffer_id s + 1)) (log s)).

(** The buffer object [allocate] asks the factory for, lines 237-267. *)
Definition create_bo (K : kernel) (descriptor : cros_gralloc_buffer_descriptor)
  : option bo :=
  let resolved_format :=
    drv_resolve_format (d_drm_format descriptor) (d_use_flags descriptor) in
  let use_flags := allocate_use_flags descriptor resolved_format in
  if USE_GRALLOC1 && negb (d_modifier descriptor =? 0) then
    drv_bo_create_with_modifiers K (d_width descriptor) (d_height descriptor)
      resolved_format [d_modifier descriptor]
  else
    drv_bo_create K (d_width descriptor) (d_height descriptor) resolved_format use_flags.

(** [cros_gralloc_driver::allocate], lines 214-368: the status, the
    handle stored through [out_handle] if any, and the driver after;
    [None] when the call runs into undefined behaviour. *)
Definition allocate (K : kernel) (descriptor : cros_gralloc_buffer_descriptor)
    (s : driver) : option (Z * buffer_handle_t * driver) :=
  match create_bo K descriptor with
  | None => Some (- ENOMEM, None, s)
  | Some b =>
      let s := add_log s [Ev_drv_bo_create b] in
      if negb (drv_num_buffers_per_bo b =? 1) then
        Some (- EINVAL, None, add_log s [Ev_drv_bo_destroy b])
      else if 0 <? d_reserved_region_size descriptor then
        let '(reserved_region_fd, evs) :=
          create_reserved_region K (d_name descriptor)
            (d_reserved_region_size descriptor) in
        let s := add_log s evs in
        if reserved_region_fd <? 0 then
          Some (reserved_region_fd, None, add_log s [Ev_drv_bo_destroy b])
        else register_allocation K descriptor b reserved_region_fd s
      else register_allocation K descriptor b (-1) s
  end.

Definition set_tables (s : driver) (h : gmap positive cros_gralloc_buffer)
    (bs : gmap Z positive) (hs : gmap positive (positive * Z)) : driver :=
  mk_driver h bs hs (next_buffer_id s) (log s).

(** The import data [retain] copies out of the handle, lines 401-413. *)
Definition import_data_of (hnd : cros_gralloc_handle) : drv_import_fd_data :=
  mk_import_data (hnd_fds hnd) (hnd_strides hnd) (hnd_offsets hnd)
    (hnd_format_modifier hnd) (hnd_width hnd) (hnd_height hnd) (hnd_format hnd)
    (hnd_use_flags hnd).

(** [cros_gralloc_driver::retain], lines 370-428. [get_buffer(hnd)] and
    the [handles_[hnd]] after it read the same table entry, looked up
    once here. The prime lookup and a refused import are logged like the
    calls that succeed. [None] is a Buffer pointer that dangles. *)
Definition retain (K : kernel) (handle : buffer_handle_t) (s : driver)
  : option (Z * driver) :=
  match cros_gralloc_convert_handle handle with
  | None => Some (- EINVAL, s)
  | Some hnd =>
      match handles_ s !! addr hnd with
      | Some (buffer, count) =>
          b ← heap s !! buffer;
          Some (0, set_tables s (<[buffer := increase_refcount b]> (heap s)) (buffers_ s)
                     (<[addr hnd := (buffer, count + 1)]> (handles_ s)))
      | None =>
          let fd := nth 0 (hnd_fds (contents hnd)) (-1) in
          let '(ret, id) := drmPrimeFDToHandle K fd in
          let s := add_log s [Ev_drmPrimeFDToHandle fd ret id] in
          if negb (ret =? 0) then Some (- Z.pos (errno K), s)
          else
            match buffers_ s !! id with
            | Some buffer =>
                b ← heap s !! buffer;
                Some (0, set_tables s (<[buffer := increase_refcount b]> (heap s))
                           (buffers_ s)
                           (emplace (addr hnd) (buffer, 1) (handles_ s)))
            | None =>
                let data := import_data_of (contents hnd) in
                match drv_bo_import K data with
                | None => Some (- EFAULT, add_log s [Ev_drv_bo_import_refused data])
                | Some b =>
                    let s := add_log s [Ev_drv_bo_import b] in
                    let id := plane_get (handles b) 0 in
                    let buffer :=
                      new_cros_gralloc_buffer id b None
                        (nth (hnd_num_planes (contents hnd)) (hnd_fds (contents hnd)) (-1))
                        (hnd_reserved_region_size (contents hnd)) in
                    let p := fresh (dom (heap s)) in
                    Some (0, set_tables s (<[p := buffer]> (heap s))
                               (emplace id p (buffers_ s))
                               (emplace (addr hnd) (p, 1) (handles_ s)))
                end
            end
      end
  end.

(** Modelled from the spec: the destructor of [cros_gralloc_buffer]
    "releases the kernel memory object and closes the reserved-region
    descriptor if present". *)
Definition destroy_events (b : cros_gralloc_buffer) : list event :=
  Ev_drv_bo_destroy (bo_ b)
  :: (if 0 <=? reserved_region_fd_ b then [Ev_close (reserved_region_fd_ b)] else []).

(** [cros_gralloc_driver::release], lines 430-455. *)
Definition release (handle : buffer_handle_t) (s : driver) : option (Z * driver) :=
  match cros_gralloc_convert_handle handle with
  | None => Some (- EINVAL, s)
  | Some hnd =>
      match handles_ s !! addr hnd with
      | None => Some (- EINVAL, s)
      | Some (buffer, count) =>
          let handles' :=
            if count - 1 =? 0 then delete (addr hnd) (handles_ s)
            else <[addr hnd := (buffer, count - 1)]> (handles_ s) in
          b ← heap s !! buffer;
          let b := decrease_refcount b in
          if refcount_ b =? 0 then
            Some (0, add_log
                       (set_tables s (delete buffer (heap s)) (delete (id_ b) (buffers_ s))
                          handles')
                       (destroy_events b))
          else Some (0, set_tables s (<[buffer := b]> (heap s)) (buffers_ s) handles')
      end
  end.

(** [n] calls of [retain] on the same handle, each with its own answers
    of the kernel; the statuses come back oldest first. *)
Fixpoint retain_n (Ks : list kernel) (handle : buffer_handle_t) (s : driver)
  : option (list Z * driver) :=
  match Ks with
  | [] => Some ([], s)
  | K :: Ks' =>
      '(r, s1) ← retain K handle s;
      '(rs, s2) ← retain_n Ks' handle s1;
      Some (r :: rs, s2)
  end.

(** [n] calls of [release] on the same handle. *)
Fixpoint release_n (n : nat) (handle : buffer_handle_t) (s : driver)
  : option (list Z * driver) :=
  match n with
  | O => Some ([], s)
  | S n' =>
      '(r, s1) ← release handle s;
      '(rs, s2) ← release_n n' handle s1;
      Some (r :: rs, s2)
  end.

(** *** Invariants of the tables *)

(** Every Buffer on the heap is the one registered under its id, and
    every entry of [buffers_] points to a Buffer with that id. *)
Definition tables_consistent (s : driver) : Prop :=
  (forall p b, heap s !! p = Some b -> buffers_ s !! id_ b = Some p)
  /\ (forall i p, buffers_ s !! i = Some p ->
        exists b, heap s !! p = Some b /\ id_ b = i).

(** No two Buffers share a kernel object id. *)
Definition one_buffer_per_id (s : driver) : Prop :=
  forall p1 p2 b1 b2,
    heap s !! p1 = Some b1 -> heap s !! p2 = Some b2 -> id_ b1 = id_ b2 -> p1 = p2.

(** Every Buffer alive is referenced. *)
Definition refcounts_positive (s : driver) : Prop :=
  forall p b, heap s !! p = Some b -> 1 <= refcount_ b.

(** Handle [a] is in the table with count [c], attached to the Buffer
    [b] that lives at [p]. *)
Definition registered (s : driver) (a p : positive) (c : Z) (b : cros_gralloc_buffer)
  : Prop :=
  handles_ s !! a = Some (p, c) /\ heap s !! p = Some b.

(** [s] after [k] more references to Buffer [b] at [p] through handle [a]. *)
Definition bump (a p : positive) (c : Z) (b : cros_gralloc_buffer) (k : Z) (s : driver)
  : driver :=
  set_tables s (<[p := with_refcount b (refcount_ b + k)]> (heap s)) (buffers_ s)
    (<[a := (p, c + k)]> (handles_ s)).

Lemma consistent_one_buffer s : tables_consistent s -> one_buffer_per_id s.
Proof.
  intros [H _] p1 p2 b1 b2 H1 H2 Hid.
  apply H in H1, H2. rewrite Hid in H1. congruence.
Qed.

Lemma empty_driver_consistent : tables_consistent empty_driver.
Proof.
  split; simpl; [intros p b H | intros i p H]; rewrite lookup_empty in H; discriminate.
Qed.

Lemma empty_driver_refcounts : refcounts_positive empty_driver.
Proof. intros p b H. simpl in H. rewrite lookup_empty in H. discriminate. Qed.

Lemma with_refcount_same b : with_refcount b (refcount_ b) = b.
Proof. now destruct b. Qed.

Lemma with_refcount_twice b x y : with_refcount (with_refcount b x) y = with_refcount b y.
Proof. reflexivity. Qed.

Lemma bump_0 a p c b s : registered s a p c b -> bump a p c b 0 s = s.
Proof.
  intros [Hh Hp]. unfold bump, set_tables. rewrite !Z.add_0_r, with_refcount_same.
  rewrite !insert_id by assumption. now destruct s.
Qed.

Lemma bump_registered a p c b k s :
  registered (bump a p c b k s) a p (c + k) (with_refcount b (refcount_ b + k)).
Proof. split; simpl; apply lookup_insert_eq. Qed.

(** *** Single calls *)

Lemma convert_valid hnd :
  hnd_magic (contents hnd) = cros_gralloc_magic ->
  cros_gralloc_convert_handle (Some hnd) = Some hnd.
Proof. intros H. unfold cros_gralloc_convert_handle. now rewrite H, Z.eqb_refl. Qed.

Lemma retain_registered K hnd s p c b :
  hnd_magic (contents hnd) = cros_gralloc_magic ->
  registered s (addr hnd) p c b ->
  retain K (Some hnd) s
  = Some (0, set_tables s (<[p := increase_refcount b]> (heap s)) (buffers_ s)
               (<[addr hnd := (p, c + 1)]> (handles_ s))).
Proof.
  intros Hm [Hh Hp]. unfold retain. rewrite (convert_valid _ Hm), Hh, Hp. reflexivity.
Qed.

Lemma release_unknown hnd s :
  handles_ s !! addr hnd = None -> release (Some hnd) s = Some (- EINVAL, s).
Proof.
  intros Hh. unfold release.
  destruct (cros_gralloc_convert_handle (Some hnd)) as [hnd' |] eqn:Hc; [| reflexivity].
  unfold cros_gralloc_convert_handle in Hc.
  destruct (hnd_magic (contents hnd) =? cros_gralloc_magic); [| discriminate].
  injection Hc as <-. now rewrite Hh.
Qed.

Lemma release_registered hnd s p c b :
  hnd_magic (contents hnd) = cros_gralloc_magic ->
  registered s (addr hnd) p c b ->
  release (Some hnd) s
  = Some (0,
          let handles' :=
            if c - 1 =? 0 then delete (addr hnd) (handles_ s)
            else <[addr hnd := (p, c - 1)]> (handles_ s) in
          if refcount_ b - 1 =? 0 then
            add_log (set_tables s (delete p (heap s)) (delete (id_ b) (buffers_ s)) handles')
              (destroy_events (decrease_refcount b))
          else set_tables s (<[p := decrease_refcount b]> (heap s)) (buffers_ s) handles').
Proof.
  intros Hm [Hh Hp]. unfold release. rewrite (convert_valid _ Hm), Hh, Hp. simpl.
  now destruct (refcount_ b - 1 =? 0).
Qed.

(** *** Repeated calls on a registered handle *)

Lemma retain_bump K hnd s p c b k :
  hnd_magic (contents hnd) = cros_gralloc_magic ->
  retain K (Some hnd) (bump (addr hnd) p c b k s)
  = Some (0, bump (addr hnd) p c b (k + 1) s).
Proof.
  intros Hm. rewrite (retain_registered K hnd _ p (c + k) _ Hm (bump_registered _ _ _ _ _ _)).
  unfold bump, set_tables, increase_refcount. simpl.
  rewrite !insert_insert_eq, with_refcount_twice.
  now rewrite !Z.add_assoc.
Qed.

Lemma release_bump hnd s p c b k :
  hnd_magic (contents hnd) = cros_gralloc_magic ->
  1 <= c -> 1 <= refcount_ b -> 1 <= k ->
  release (Some hnd) (bump (addr hnd) p c b k s)
  = Some (0, bump (addr hnd) p c b (k - 1) s).
Proof.
  intros Hm Hc Hr Hk.
  rewrite (release_registered hnd _ p (c + k) _ Hm (bump_registered _ _ _ _ _ _)).
  simpl.
  destruct (Z.eqb_spec (c + k - 1) 0) as [? | _]; [lia |].
  destruct (Z.eqb_spec (refcount_ b + k - 1) 0) as [? | _]; [lia |].
  unfold bump, set_tables, decrease_refcount. simpl.
  rewrite !insert_insert_eq, with_refcount_twice.
  now rewrite !Z.add_sub_assoc.
Qed.

Lemma retain_n_bump Ks hnd s p c b : forall k,
  hnd_magic (contents hnd) = cros_gralloc_magic ->
  retain_n Ks (Some hnd) (bump (addr hnd) p c b k s)
  = Some (replicate (length Ks) 0, bump (addr hnd) p c b (k + Z.of_nat (length Ks)) s).
Proof.
  induction Ks as [| K Ks IH]; intros k Hm; simpl.
  - now rewrite Z.add_0_r.
  - rewrite (retain_bump K hnd s p c b k Hm). simpl.
    rewrite (IH (k + 1) Hm). simpl.
    now replace (k + 1 + Z.of_nat (length Ks)) with (k + Z.pos (Pos.of_succ_nat (length Ks)))
      by lia.
Qed.

Lemma release_n_bump n hnd s p c b : forall k,
  hnd_magic (contents hnd) = cros_gralloc_magic ->
  1 <= c -> 1 <= refcount_ b -> Z.of_nat n <= k ->
  release_n n (Some hnd) (bump (addr hnd) p c b k s)
  = Some (replicate n 0, bump (addr hnd) p c b (k - Z.of_nat n) s).
Proof.
  induction n as [| n IH]; intros k Hm Hc Hr Hk; simpl.
  - now rewrite Z.sub_0_r.
  - rewrite (release_bump hnd s p c b k Hm Hc Hr) by lia. simpl.
    rewrite (IH (k - 1) Hm Hc Hr) by lia. simpl.
    now replace (k - 1 - Z.of_nat n) with (k - Z.pos (Pos.of_succ_nat n)) by lia.
Qed.

(** Retaining a registered handle [n] times and releasing it [n] times
    gives back the very state it started from: the handle keeps its
    count and stays registered. *)
Lemma retain_release_registered Ks hnd s p c b :
  hnd_magic (contents hnd) = cros_gralloc_magic ->
  registered s (addr hnd) p c b -> 1 <= c -> 1 <= refcount_ b ->
  exists s1,
    retain_n Ks (Some hnd) s = Some (replicate (length Ks) 0, s1)
    /\ release_n (length Ks) (Some hnd) s1 = Some (replicate (length Ks) 0, s).
Proof.
  intros Hm Hreg Hc Hr.
  pose proof (retain_n_bump Ks hnd s p c b 0 Hm) as Hret.
  rewrite (bump_0 _ _ _ _ _ Hreg) in Hret. rewrite Z.add_0_l in Hret.
  eexists. split; [exact Hret |].
  rewrite (release_n_bump _ hnd s p c b _ Hm Hc Hr) by lia.
  now rewrite Z.sub_diag, (bump_0 _ _ _ _ _ Hreg).
Qed.


(** *** Retaining a handle that is not in the table *)

Lemma fresh_heap_None (s : driver) : heap s !! fresh (dom (heap s)) = None.
Proof. apply not_elem_of_dom, is_fresh. Qed.

Lemma emplace_None `{Countable K} {V} (k : K) (v : V) (m : gmap K V) :
  m !! k = None -> emplace k v m = <[k := v]> m.
Proof. intros Hk. unfold emplace. now rewrite Hk. Qed.

Lemma add_log_add_log s evs1 evs2 :
  add_log (add_log s evs1) evs2 = add_log s (evs1 ++ evs2).
Proof. unfold add_log. simpl. now rewrite app_assoc. Qed.

Lemma retain_unregistered K hnd s id :
  hnd_magic (contents hnd) = cros_gralloc_magic ->
  handles_ s !! addr hnd = None ->
  drmPrimeFDToHandle K (nth 0 (hnd_fds (contents hnd)) (-1)) = (0, id) ->
  retain K (Some hnd) s
  = let prime := Ev_drmPrimeFDToHandle (nth 0 (hnd_fds (contents hnd)) (-1)) 0 id in
    match buffers_ s !! id with
    | Some p =>
        b ← heap s !! p;
        Some (0, set_tables (add_log s [prime])
                   (<[p := increase_refcount b]> (heap s)) (buffers_ s)
                   (<[addr hnd := (p, 1)]> (handles_ s)))
    | None =>
        match drv_bo_import K (import_data_of (contents hnd)) with
        | None =>
            Some (- EFAULT,
                  add_log s [prime;
                             Ev_drv_bo_import_refused (import_data_of (contents hnd))])
        | Some b =>
            let p := fresh (dom (heap s)) in
            Some (0, set_tables (add_log s [prime; Ev_drv_bo_import b])
                       (<[p := new_cros_gralloc_buffer (plane_get (handles b) 0) b None
                                 (nth (hnd_num_planes (contents hnd))
                                    (hnd_fds (contents hnd)) (-1))
                                 (hnd_reserved_region_size (contents hnd))]> (heap s))
                       (emplace (plane_get (handles b) 0) p (buffers_ s))
                       (<[addr hnd := (p, 1)]> (handles_ s)))
        end
    end.
Proof.
  intros Hm Hh Hprime. unfold retain.
  rewrite (convert_valid _ Hm), Hh, Hprime. simpl.
  destruct (buffers_ s !! id) as [p |].
  - now rewrite (emplace_None _ _ _ Hh).
  - destruct (drv_bo_import K (import_data_of (contents hnd))) as [b |].
    + simpl. rewrite (emplace_None _ _ _ Hh).
      unfold set_tables, add_log. simpl. now rewrite <- app_assoc.
    + now rewrite add_log_add_log.
Qed.

Lemma consistent_share s p b a :
  tables_consistent s -> heap s !! p = Some b ->
  tables_consistent
    (set_tables s (<[p := increase_refcount b]> (heap s)) (buffers_ s) a).
Proof.
  intros [Hf Hr] Hp. split; simpl.
  - intros q bq Hq. destruct (decide (q = p)) as [-> | Hne].
    + rewrite lookup_insert_eq in Hq. injection Hq as <-. simpl. now apply Hf.
    + rewrite lookup_insert_ne in Hq by congruence. now apply Hf.
  - intros i q Hq. destruct (Hr i q Hq) as (bq & Hbq & Hid).
    destruct (decide (q = p)) as [-> | Hne].
    + exists (increase_refcount b). rewrite lookup_insert_eq. split; [reflexivity |].
      simpl. congruence.
    + exists bq. rewrite lookup_insert_ne by congruence. auto.
Qed.

Lemma consistent_import s p b a n l :
  tables_consistent s -> heap s !! p = None -> buffers_ s !! id_ b = None ->
  tables_consistent (mk_driver (<[p := b]> (heap s)) (<[id_ b := p]> (buffers_ s)) a n l).
Proof.
  intros [Hf Hr] Hp Hid. split; simpl.
  - intros q bq Hq. destruct (decide (q = p)) as [-> | Hne].
    + rewrite lookup_insert_eq in Hq. injection Hq as <-. apply lookup_insert_eq.
    + rewrite lookup_insert_ne in Hq by congruence.
      pose proof (Hf q bq Hq) as Hb.
      rewrite lookup_insert_ne; [exact Hb | congruence].
  - intros i q Hq. destruct (decide (i = id_ b)) as [-> | Hne].
    + rewrite lookup_insert_eq in Hq. injection Hq as <-.
      exists b. now rewrite lookup_insert_eq.
    + rewrite lookup_insert_ne in Hq by congruence.
      destruct (Hr i q Hq) as (bq & Hbq & Hi). exists bq.
      rewrite lookup_insert_ne; [auto | congruence].
Qed.

(** C2. A handle that is not in the table is resolved to the kernel
    object id of its first plane descriptor. If a Buffer is registered
    under that id, the new table entry is attached to that Buffer, whose
    refcount goes up by one, and no Buffer is created; only otherwise is
    the object imported and a fresh Buffer registered. Either way the
    tables stay consistent and no two Buffers share an id. The kernel is
    assumed to give the imported object the id it gave the descriptor. *)
Theorem retain_one_buffer_per_kernel_object K hnd s id :
  tables_consistent s ->
  hnd_magic (contents hnd) = cros_gralloc_magic ->
  handles_ s !! addr hnd = None ->
  drmPrimeFDToHandle K (nth 0 (hnd_fds (contents hnd)) (-1)) = (0, id) ->
  (forall b, drv_bo_import K (import_data_of (contents hnd)) = Some b ->
             plane_get (handles b) 0 = id) ->
  exists r s',
    retain K (Some hnd) s = Some (r, s')
    /\ tables_consistent s' /\ one_buffer_per_id s'
    /\ match buffers_ s !! id with
       | Some p =>
           r = 0
           /\ (exists b, heap s !! p = Some b
                         /\ heap s' = <[p := increase_refcount b]> (heap s))
           /\ dom (heap s') = dom (heap s)
           /\ buffers_ s' = buffers_ s
           /\ handles_ s' = <[addr hnd := (p, 1)]> (handles_ s)
       | None =>
           match drv_bo_import K (import_data_of (contents hnd)) with
           | Some b =>
               let p := fresh (dom (heap s)) in
               r = 0
               /\ heap s !! p = None
               /\ (exists buffer, id_ buffer = id /\ bo_ buffer = b
                                  /\ refcount_ buffer = 1
                                  /\ heap s' = <[p := buffer]> (heap s))
               /\ buffers_ s' = <[id := p]> (buffers_ s)
               /\ handles_ s' = <[addr hnd := (p, 1)]> (handles_ s)
           | None =>
               r = - EFAULT
               /\ s' = add_log s
                         [Ev_drmPrimeFDToHandle (nth 0 (hnd_fds (contents hnd)) (-1)) 0 id;
                          Ev_drv_bo_import_refused (import_data_of (contents hnd))]
           end
       end.
Proof.
  intros Hcons Hm Hh Hprime Hkernel.
  rewrite (retain_unregistered K hnd s id Hm Hh Hprime).
  destruct (buffers_ s !! id) as [p |] eqn:Hid.
  - destruct (proj2 Hcons id p Hid) as (b & Hp & Hb). rewrite Hp. simpl.
    eexists _, _. split; [reflexivity |].
    pose proof (consistent_share s p b (<[addr hnd := (p, 1)]> (handles_ s)) Hcons Hp)
      as Hc'.
    split; [exact Hc' |]. split; [now apply consistent_one_buffer |].
    split; [reflexivity |]. split; [eauto |]. split; [| split; reflexivity].
    simpl. rewrite dom_insert_L.
    assert (p ∈ dom (heap s)) as Hin by (apply elem_of_dom; eauto).
    now apply subseteq_union_1_L, singleton_subseteq_l.
  - destruct (drv_bo_import K (import_data_of (contents hnd))) as [b |] eqn:Himp.
    + cbv zeta. rewrite (Hkernel b eq_refl), (emplace_None _ _ _ Hid).
      eexists _, _. split; [reflexivity |].
      match goal with |- tables_consistent ?s' /\ _ =>
        assert (tables_consistent s') as Hc' end.
      { apply (consistent_import s (fresh (dom (heap s)))
                 (new_cros_gralloc_buffer id b None _ _));
          [exact Hcons | apply fresh_heap_None | exact Hid]. }
      split; [exact Hc' |]. split; [now apply consistent_one_buffer |].
      split; [reflexivity |]. split; [apply fresh_heap_None |].
      split; [| split; reflexivity].
      eexists. repeat split; reflexivity.
    + eexists _, _. split; [reflexivity |].
      split; [exact Hcons |]. split; [now apply consistent_one_buffer |]. auto.
Qed.

(** *** N retains, then N releases *)

Lemma release_n_last n hnd : forall s rs s' r s'',
  release_n n (Some hnd) s = Some (rs, s') ->
  release (Some hnd) s' = Some (r, s'') ->
  release_n (S n) (Some hnd) s = Some (rs ++ [r], s'').
Proof.
  induction n as [| n IH]; intros s rs s' r s'' Hn Hlast.
  - simpl in Hn. injection Hn as <- <-. simpl. now rewrite Hlast.
  - change (release_n (S n) (Some hnd) s)
      with ('(r0, s1) ← release (Some hnd) s;
            '(rs0, s2) ← release_n n (Some hnd) s1; Some (r0 :: rs0, s2)) in Hn.
    change (release_n (S (S n)) (Some hnd) s)
      with ('(r0, s1) ← release (Some hnd) s;
            '(rs0, s2) ← release_n (S n) (Some hnd) s1; Some (r0 :: rs0, s2)).
    destruct (release (Some hnd) s) as [[r0 s1] |]; [| discriminate]. simpl in *.
    destruct (release_n n (Some hnd) s1) as [[rs0 s2] |] eqn:Hrec; [| discriminate].
    simpl in Hn. injection Hn as <- <-.
    now rewrite (IH s1 rs0 s2 r s'' Hrec Hlast).
Qed.

Lemma decrease_increase b : decrease_refcount (increase_refcount b) = b.
Proof.
  unfold decrease_refcount, increase_refcount, with_refcount. destruct b; simpl.
  f_equal. lia.
Qed.

(** C1, amended. Take a handle that is not in the table and whose first
    retain registers it (the kernel resolves its descriptor, and imports
    the object when no Buffer has its id). After N >= 1 retains and N
    releases, every call returning 0, the handle-table entry is gone and
    both tables and the heap of Buffers are back to what they were before
    the first retain: the Buffer's refcount is the one it had, and a
    Buffer the first retain imported is destroyed (the log ends with the
    destruction of its buffer object). One more release returns
    [-EINVAL] and changes nothing. *)
Theorem retain_release_symmetry K Ks hnd s id :
  tables_consistent s -> refcounts_positive s ->
  hnd_magic (contents hnd) = cros_gralloc_magic ->
  handles_ s !! addr hnd = None ->
  drmPrimeFDToHandle K (nth 0 (hnd_fds (contents hnd)) (-1)) = (0, id) ->
  (buffers_ s !! id = None ->
   exists b, drv_bo_import K (import_data_of (contents hnd)) = Some b
             /\ plane_get (handles b) 0 = id) ->
  exists s2 s3,
    retain_n (K :: Ks) (Some hnd) s = Some (replicate (S (length Ks)) 0, s2)
    /\ release_n (S (length Ks)) (Some hnd) s2 = Some (replicate (S (length Ks)) 0, s3)
    /\ tables s3 = tables s
    /\ handles_ s3 !! addr hnd = None
    /\ match buffers_ s !! id with
       | Some _ =>
           log s3
           = log s ++ [Ev_drmPrimeFDToHandle (nth 0 (hnd_fds (contents hnd)) (-1)) 0 id]
       | None =>
           exists b,
             drv_bo_import K (import_data_of (contents hnd)) = Some b
             /\ log s3
                = log s
                  ++ Ev_drmPrimeFDToHandle (nth 0 (hnd_fds (contents hnd)) (-1)) 0 id
                     :: Ev_drv_bo_import b
                     :: destroy_events
                          (new_cros_gralloc_buffer id b None
                             (nth (hnd_num_planes (contents hnd))
                                (hnd_fds (contents hnd)) (-1))
                             (hnd_reserved_region_size (contents hnd)))
       end
    /\ release (Some hnd) s3 = Some (- EINVAL, s3).
Proof.
  intros Hcons Hpos Hm Hh Hprime Himport.
  assert (exists s1 p b1,
            retain K (Some hnd) s = Some (0, s1)
            /\ registered s1 (addr hnd) p 1 b1 /\ 1 <= refcount_ b1
            /\ exists s3,
                 release (Some hnd) s1 = Some (0, s3) /\ tables s3 = tables s
                 /\ match buffers_ s !! id with
                    | Some _ =>
                        log s3
                        = log s
                          ++ [Ev_drmPrimeFDToHandle
                                (nth 0 (hnd_fds (contents hnd)) (-1)) 0 id]
                    | None =>
                        exists b,
                          drv_bo_import K (import_data_of (contents hnd)) = Some b
                          /\ log s3
                             = log s
                               ++ Ev_drmPrimeFDToHandle
                                    (nth 0 (hnd_fds (contents hnd)) (-1)) 0 id
                                  :: Ev_drv_bo_import b
                                  :: destroy_events
                                       (new_cros_gralloc_buffer id b None
                                          (nth (hnd_num_planes (contents hnd))
                                             (hnd_fds (contents hnd)) (-1))
                                          (hnd_reserved_region_size (contents hnd)))
                    end)
    as (s1 & p & b1 & Hfirst & Hreg & Hr1 & s3 & Hlast & Htab & Hlog).
  { rewrite (retain_unregistered K hnd s id Hm Hh Hprime).
    destruct (buffers_ s !! id) as [p |] eqn:Hid.
    - destruct (proj2 Hcons id p Hid) as (b & Hp & Hb). rewrite Hp. simpl.
      pose proof (Hpos p b Hp) as Hrb.
      eexists _, p, (increase_refcount b). split; [reflexivity |].
      match goal with |- registered ?s1 _ _ _ _ /\ _ =>
        assert (registered s1 (addr hnd) p 1 (increase_refcount b)) as Hreg
          by (split; simpl; apply lookup_insert_eq) end.
      split; [exact Hreg |]. split; [simpl; lia |].
      rewrite (release_registered hnd _ p 1 _ Hm Hreg). simpl.
      destruct (Z.eqb_spec (refcount_ b + 1 - 1) 0) as [? | _]; [lia |].
      eexists. split; [reflexivity |]. split; [| reflexivity].
      unfold tables, set_tables. simpl.
      rewrite insert_insert_eq, decrease_increase, (insert_id _ _ _ Hp).
      now rewrite (delete_insert_id _ _ _ Hh).
    - destruct (Himport eq_refl) as (b & Himp & Hb). rewrite Himp. cbv zeta.
      rewrite Hb, (emplace_None _ _ _ Hid).
      set (p := fresh (dom (heap s))).
      set (b1 := new_cros_gralloc_buffer id b None
                   (nth (hnd_num_planes (contents hnd)) (hnd_fds (contents hnd)) (-1))
                   (hnd_reserved_region_size (contents hnd))).
      eexists _, p, b1. split; [reflexivity |].
      match goal with |- registered ?s1 _ _ _ _ /\ _ =>
        assert (registered s1 (addr hnd) p 1 b1) as Hreg
          by (split; simpl; apply lookup_insert_eq) end.
      split; [exact Hreg |]. split; [simpl; lia |].
      rewrite (release_registered hnd _ p 1 _ Hm Hreg). simpl.
      eexists. split; [reflexivity |]. split.
      + unfold tables, set_tables, add_log. simpl.
        rewrite (delete_insert_id _ _ _ (fresh_heap_None s)).
        rewrite (delete_insert_id _ _ _ Hid).
        now rewrite (delete_insert_id _ _ _ Hh).
      + exists b. split; [reflexivity |]. simpl. now rewrite <- app_assoc. }
  destruct Hreg as [Hreg_h Hreg_p].
  destruct (retain_release_registered Ks hnd s1 p 1 b1 Hm (conj Hreg_h Hreg_p)
              ltac:(lia) Hr1) as (s2 & Hretain & Hrelease).
  exists s2, s3.
  assert (handles_ s3 !! addr hnd = None) as Hgone.
  { unfold tables in Htab. injection Htab as _ _ ->. exact Hh. }
  split; [| split; [| split; [exact Htab | split; [exact Hgone | split; [exact Hlog |]]]]].
  - change (retain_n (K :: Ks) (Some hnd) s)
      with ('(r, s1) ← retain K (Some hnd) s;
            '(rs, s2) ← retain_n Ks (Some hnd) s1; Some (r :: rs, s2)).
    rewrite Hfirst. simpl. rewrite Hretain. reflexivity.
  - rewrite (release_n_last _ hnd _ _ _ _ _ Hrelease Hlast).
    now rewrite <- replicate_S_end.
  - now apply release_unknown.
Qed.


(** *** The support check and allocation *)

Lemma drop_scanout_clears use_flags :
  Z.land (drop_scanout use_flags) BO_USE_SCANOUT = 0.
Proof.
  unfold drop_scanout. rewrite <- Z.land_assoc.
  change (Z.land (u64 (Z.lnot BO_USE_SCANOUT)) BO_USE_SCANOUT) with 0.
  apply Z.land_0_r.
Qed.

(** Clearing the scanout flag of a 64-bit flag word clears bit 0, the
    one [BO_USE_SCANOUT] names, and keeps every other bit. *)
Lemma drop_scanout_bits use_flags n :
  0 <= use_flags < 2 ^ 64 -> 0 <= n ->
  Z.testbit (drop_scanout use_flags) n = Z.testbit use_flags n && negb (n =? 0).
Proof.
  intros Hf Hn. unfold drop_scanout, u64. rewrite Z.land_spec.
  destruct (Z.ltb_spec n 64) as [Hlt | Hge].
  - rewrite Z.mod_pow2_bits_low, Z.lnot_spec by lia. reflexivity.
  - rewrite Z.mod_pow2_bits_high, andb_false_r by lia.
    assert (Z.testbit use_flags n = false) as ->; [| reflexivity].
    destruct (Z.eq_dec use_flags 0) as [-> | Hne]; [apply Z.bits_0 |].
    apply Z.bits_above_log2; [lia |].
    assert (Z.log2 use_flags < 64); [| lia].
    apply Z.log2_lt_pow2; lia.
Qed.

(** The scanout test of [is_supported] reads bit 0. *)
Lemma scanout_bit use_flags :
  (Z.land use_flags BO_USE_SCANOUT =? 0) = negb (Z.testbit use_flags 0).
Proof.
  change BO_USE_SCANOUT with (Z.ones 1). rewrite Z.land_ones by lia.
  change (2 ^ 1) with 2. rewrite <- Z.bit0_mod.
  destruct (Z.testbit use_flags 0); reflexivity.
Qed.

(** On a flag word that has the scanout flag, clearing it takes 1 off. *)
Lemma drop_scanout_minus_one use_flags :
  0 <= use_flags < 2 ^ 64 -> Z.testbit use_flags 0 = true ->
  drop_scanout use_flags = use_flags - 1.
Proof.
  intros Hrange Hbit. apply Z.bits_inj'. intros n Hn.
  rewrite drop_scanout_bits by assumption.
  rewrite (Z.sub_nocarry_ldiff use_flags 1).
  - rewrite Z.ldiff_spec. reflexivity.
  - apply Z.bits_inj'. intros m Hm. rewrite Z.ldiff_spec, Z.bits_0.
    destruct (Z.eq_dec m 0) as [-> | Hne]; [now rewrite Hbit |].
    now rewrite (Z.bits_above_log2 1 m) by (simpl; lia).
Qed.

(** The only way out of [allocate] with a handle is the registration at
    its end: the status is 0 and the handle carries the usage flags of
    the descriptor as it was passed in. *)
Lemma build_handle_fields K d b fd id hnd :
  build_handle K d b fd id = Some hnd ->
  hnd_use_flags hnd = d_use_flags d
  /\ hnd_magic hnd = cros_gralloc_magic
  /\ hnd_num_planes hnd = meta_num_planes (meta b)
  /\ hnd_fds hnd
     = map (drv_bo_get_plane_fd K b) (seq 0 (meta_num_planes (meta b))) ++ [fd]
  /\ hnd_reserved_region_size hnd = d_reserved_region_size d
  /\ hnd_id hnd = id.
Proof.
  unfold build_handle.
  destruct (planes_of _ _ !! 0%nat) as [stride |]; [| discriminate]. simpl.
  destruct (u32 _ =? 0); [discriminate |].
  intros [= <-]. repeat split.
Qed.

(** What [register_allocation] returns when it returns. *)
Lemma register_allocation_Some K d b fd s r h s' :
  register_allocation K d b fd s = Some (r, h, s') ->
  exists a hnd,
    malloc K = Some a
    /\ build_handle K d b fd (next_buffer_id s) = Some hnd
    /\ r = 0 /\ h = Some (mk_ref a hnd)
    /\ s' = mk_driver
              (<[fresh (dom (heap s))
                 := new_cros_gralloc_buffer (plane_get (handles b) 0) b (Some a)
                      (nth (hnd_num_planes hnd) (hnd_fds hnd) (-1))
                      (hnd_reserved_region_size hnd)]> (heap s))
              (emplace (plane_get (handles b) 0) (fresh (dom (heap s))) (buffers_ s))
              (emplace a (fresh (dom (heap s)), 1) (handles_ s))
              (u32 (next_buffer_id s + 1)) (log s).
Proof.
  unfold register_allocation.
  destruct (malloc K) as [a |]; [| discriminate]. simpl.
  destruct (build_handle K d b fd (next_buffer_id s)) as [hnd |]; [| discriminate].
  simpl. intros [= <- <- <-]. exists a, hnd. auto.
Qed.

Lemma allocate_handle K d s r h s' :
  allocate K d s = Some (r, Some h, s') ->
  r = 0
  /\ hnd_use_flags (contents h) = d_use_flags d
  /\ hnd_magic (contents h) = cros_gralloc_magic
  /\ malloc K = Some (addr h).
Proof.
  assert (forall b fd s0, register_allocation K d b fd s0 = Some (r, Some h, s') ->
            r = 0 /\ hnd_use_flags (contents h) = d_use_flags d
            /\ hnd_magic (contents h) = cros_gralloc_magic
            /\ malloc K = Some (addr h)) as Hreg.
  { intros b fd s0 H.
    apply register_allocation_Some in H as (a & hnd & Ha & Hb & -> & [= ->] & _).
    apply build_handle_fields in Hb as (? & ? & _). auto. }
  unfold allocate.
  destruct (create_bo K d) as [b |]; [| discriminate].
  destruct (negb (drv_num_buffers_per_bo b =? 1)); [discriminate |].
  destruct (0 <? d_reserved_region_size d).
  - destruct (create_reserved_region K (d_name d) (d_reserved_region_size d))
      as [fd evs].
    destruct (fd <? 0); [discriminate |]. apply Hreg.
  - apply Hreg.
Qed.

(** What the support check answers in general. *)
Lemma is_supported_answer d :
  let resolved := drv_resolve_format (d_drm_format d) (d_use_flags d) in
  fst (fst (is_supported d))
  = bool_decide (is_Some (drv_get_combination resolved (d_use_flags d)))
    || (negb (Z.land (d_use_flags d) BO_USE_SCANOUT =? 0)
        && bool_decide (is_Some (drv_get_combination resolved
                                   (drop_scanout (d_use_flags d))))).
Proof.
  unfold is_supported. simpl.
  destruct (bool_decide (is_Some (drv_get_combination _ (d_use_flags d)))); simpl;
    [reflexivity |].
  now destruct (negb (Z.land (d_use_flags d) BO_USE_SCANOUT =? 0)).
Qed.

(** C9. When the registry has no entry for the resolved format with the
    usage flags as given, the scanout flag is set, and the registry has
    an entry without it: the support check clears the scanout flag in
    the descriptor, asks the registry once more (two queries in all, the
    second with the flag cleared) and reports support. The flags it
    leaves in the descriptor are the ones given with bit 0, the scanout
    flag, cleared and every other bit as it was, which is the word given
    minus 1; every handle [allocate] then builds from that descriptor
    carries exactly these flags. The flags are a 64-bit word. *)
Theorem scanout_fallback (d : cros_gralloc_buffer_descriptor) :
  0 <= d_use_flags d < 2 ^ 64 ->
  drv_get_combination (drv_resolve_format (d_drm_format d) (d_use_flags d))
    (d_use_flags d) = None ->
  Z.land (d_use_flags d) BO_USE_SCANOUT <> 0 ->
  is_Some (drv_get_combination (drv_resolve_format (d_drm_format d) (d_use_flags d))
             (drop_scanout (d_use_flags d))) ->
  is_supported d
  = (true, set_use_flags d (drop_scanout (d_use_flags d)),
     [(drv_resolve_format (d_drm_format d) (d_use_flags d), d_use_flags d);
      (drv_resolve_format (d_drm_format d) (d_use_flags d),
       drop_scanout (d_use_flags d))])
  /\ Z.land (d_use_flags (set_use_flags d (drop_scanout (d_use_flags d))))
       BO_USE_SCANOUT = 0
  /\ (forall n, 0 <= n ->
        Z.testbit (d_use_flags (set_use_flags d (drop_scanout (d_use_flags d)))) n
        = Z.testbit (d_use_flags d) n && negb (n =? 0))
  /\ d_use_flags (set_use_flags d (drop_scanout (d_use_flags d))) = d_use_flags d - 1
  /\ forall K s r h s',
       allocate K (set_use_flags d (drop_scanout (d_use_flags d))) s
       = Some (r, Some h, s') ->
       r = 0
       /\ hnd_use_flags (contents h) = drop_scanout (d_use_flags d)
       /\ Z.land (hnd_use_flags (contents h)) BO_USE_SCANOUT = 0
       /\ (forall n, 0 <= n ->
             Z.testbit (hnd_use_flags (contents h)) n
             = Z.testbit (d_use_flags d) n && negb (n =? 0))
       /\ hnd_use_flags (contents h) = d_use_flags d - 1.
Proof.
  intros Hrange Hnone Hscan Hsome.
  assert (drop_scanout (d_use_flags d) = d_use_flags d - 1) as Hminus.
  { apply drop_scanout_minus_one; [exact Hrange |].
    pose proof (scanout_bit (d_use_flags d)) as Hbit.
    destruct (Z.eqb_spec (Z.land (d_use_flags d) BO_USE_SCANOUT) 0) as [? | _];
      [contradiction |].
    now destruct (Z.testbit (d_use_flags d) 0). }
  split; [| split; [| split; [| split]]].
  - unfold is_supported. rewrite Hnone. simpl.
    destruct (Z.eqb_spec (Z.land (d_use_flags d) BO_USE_SCANOUT) 0) as [? | _];
      [contradiction |].
    simpl. rewrite (bool_decide_eq_true_2 _ Hsome). reflexivity.
  - simpl. apply drop_scanout_clears.
  - intros n Hn. simpl. now apply drop_scanout_bits.
  - exact Hminus.
  - intros K s r h s' Halloc.
    apply allocate_handle in Halloc as (-> & Hflags & _). simpl in Hflags.
    split; [reflexivity |]. split; [exact Hflags |].
    rewrite Hflags. split; [apply drop_scanout_clears |].
    split; [| exact Hminus].
    intros n Hn. now apply drop_scanout_bits.
Qed.

Lemma allocate_not_one_buffer K d s b :
  create_bo K d = Some b ->
  drv_num_buffers_per_bo b <> 1 ->
  allocate K d s
  = Some (- EINVAL, None, add_log s [Ev_drv_bo_create b; Ev_drv_bo_destroy b]).
Proof.
  intros Hb Hn. unfold allocate. rewrite Hb.
  destruct (Z.eqb_spec (drv_num_buffers_per_bo b) 1) as [? | _]; [contradiction |].
  simpl. now rewrite add_log_add_log.
Qed.

(** C10. When the buffer object created for an allocation reports more
    than one kernel buffer behind it, [allocate] destroys the object and
    returns [-EINVAL]: no handle is handed out, the heap of Buffers and
    both tables are untouched, and the log pairs the creation with the
    destruction. *)
Theorem allocate_rejects_multi_buffer K d s b :
  create_bo K d = Some b ->
  1 < drv_num_buffers_per_bo b ->
  exists s',
    allocate K d s = Some (- EINVAL, None, s')
    /\ tables s' = tables s
    /\ next_buffer_id s' = next_buffer_id s
    /\ log s' = log s ++ [Ev_drv_bo_create b; Ev_drv_bo_destroy b]
    /\ live_bos [Ev_drv_bo_create b; Ev_drv_bo_destroy b] 0 = 0%nat.
Proof.
  intros Hb Hn. eexists. split; [apply allocate_not_one_buffer; [exact Hb | lia] |].
  repeat split.
Qed.

(** When the reserved region is created and then cannot be sized,
    [create_reserved_region] returns the error with the descriptor still
    open, and [allocate] destroys the buffer object only. *)
Lemma allocate_ftruncate_failure K d s b :
  create_bo K d = Some b ->
  drv_num_buffers_per_bo b = 1 ->
  0 < d_reserved_region_size d ->
  memfd_create K (d_name d ++ " reserved region")%string <> -1 ->
  ftruncate K (memfd_create K (d_name d ++ " reserved region")%string)
    (d_reserved_region_size d) <> 0 ->
  let fd := memfd_create K (d_name d ++ " reserved region")%string in
  allocate K d s
  = Some (- Z.pos (errno K), None,
          add_log s [Ev_drv_bo_create b; Ev_memfd_create fd;
                     Ev_ftruncate fd (d_reserved_region_size d)
                       (ftruncate K fd (d_reserved_region_size d));
                     Ev_drv_bo_destroy b])
  /\ open_fds [Ev_drv_bo_create b; Ev_memfd_create fd;
               Ev_ftruncate fd (d_reserved_region_size d)
                 (ftruncate K fd (d_reserved_region_size d));
               Ev_drv_bo_destroy b] [] = [fd].
Proof.
  intros Hb Hn Hsize Hfd Htr fd. split; [| reflexivity].
  unfold allocate. rewrite Hb, Hn. simpl.
  destruct (Z.ltb_spec 0 (d_reserved_region_size d)) as [_ | ?]; [| lia].
  unfold create_reserved_region. fold fd.
  destruct (Z.eqb_spec fd (-1)) as [? | _]; [contradiction |].
  destruct (Z.eqb_spec (ftruncate K fd (d_reserved_region_size d)) 0) as [? | _];
    [contradiction |].
  simpl. rewrite !add_log_add_log. reflexivity.
Qed.


(** *** The consistency of the tables is kept by every operation *)

Lemma register_allocation_consistent K d b fd s r h s' :
  tables_consistent s ->
  buffers_ s !! plane_get (handles b) 0 = None ->
  register_allocation K d b fd s = Some (r, h, s') ->
  tables_consistent s'.
Proof.
  intros Hcons Hid H.
  apply register_allocation_Some in H as (a & hnd & _ & _ & _ & _ & ->).
  rewrite (emplace_None _ _ _ Hid).
  apply (consistent_import s (fresh (dom (heap s)))
           (new_cros_gralloc_buffer (plane_get (handles b) 0) b (Some a) _ _));
    [exact Hcons | apply fresh_heap_None | exact Hid].
Qed.

(** [allocate] keeps the tables consistent when the kernel gives the new
    object a handle that no Buffer is registered under. *)
Lemma allocate_consistent K d s r h s' :
  tables_consistent s ->
  (forall b, create_bo K d = Some b -> buffers_ s !! plane_get (handles b) 0 = None) ->
  allocate K d s = Some (r, h, s') ->
  tables_consistent s'.
Proof.
  intros Hcons Hfresh. unfold allocate.
  destruct (create_bo K d) as [b |]; [| now intros [= <- <- <-]].
  specialize (Hfresh b eq_refl).
  destruct (negb (drv_num_buffers_per_bo b =? 1)); [now intros [= <- <- <-] |].
  destruct (0 <? d_reserved_region_size d).
  - destruct (create_reserved_region K (d_name d) (d_reserved_region_size d))
      as [fd evs].
    destruct (fd <? 0); [now intros [= <- <- <-] |].
    apply register_allocation_consistent; [exact Hcons | exact Hfresh].
  - apply register_allocation_consistent; [exact Hcons | exact Hfresh].
Qed.

(** [retain] keeps the tables consistent on every path, provided an
    object it imports gets a handle no Buffer is registered under. *)
Lemma retain_consistent K handle s r s' :
  tables_consistent s ->
  (forall hnd b, cros_gralloc_convert_handle handle = Some hnd ->
                 drv_bo_import K (import_data_of (contents hnd)) = Some b ->
                 buffers_ s !! plane_get (handles b) 0 = None) ->
  retain K handle s = Some (r, s') ->
  tables_consistent s'.
Proof.
  intros Hcons Hkernel. unfold retain.
  destruct (cros_gralloc_convert_handle handle) as [hnd |]; [| now intros [= <- <-]].
  specialize (Hkernel hnd).
  destruct (handles_ s !! addr hnd) as [[p c] |].
  - destruct (heap s !! p) as [b |] eqn:Hp; [| discriminate]. simpl.
    intros [= <- <-]. now apply consistent_share.
  - cbv zeta.
    destruct (drmPrimeFDToHandle K (nth 0 (hnd_fds (contents hnd)) (-1))) as [ret id].
    destruct (negb (ret =? 0)); [intros [= <- <-]; exact Hcons |].
    simpl.
    destruct (buffers_ s !! id) as [p |].
    + destruct (heap s !! p) as [b |] eqn:Hp; [| discriminate]. simpl.
      intros [= <- <-].
      now apply (consistent_share (add_log s _) p b).
    + destruct (drv_bo_import K (import_data_of (contents hnd))) as [b |];
        [| intros [= <- <-]; exact Hcons].
      specialize (Hkernel b eq_refl eq_refl).
      intros [= <- <-]. rewrite (emplace_None _ _ _ Hkernel).
      apply (consistent_import s (fresh (dom (heap s)))
               (new_cros_gralloc_buffer (plane_get (handles b) 0) b None _ _));
        [exact Hcons | apply fresh_heap_None | exact Hkernel].
Qed.

Lemma release_consistent handle s r s' :
  tables_consistent s -> release handle s = Some (r, s') -> tables_consistent s'.
Proof.
  intros Hcons. unfold release.
  destruct (cros_gralloc_convert_handle handle) as [hnd |]; [| now intros [= <- <-]].
  destruct (handles_ s !! addr hnd) as [[p c] |]; [| now intros [= <- <-]].
  destruct (heap s !! p) as [b |] eqn:Hp; [| discriminate]. simpl.
  destruct Hcons as [Hf Hr].
  destruct (refcount_ b - 1 =? 0); intros [= <- <-]; split; simpl.
  - intros q bq Hq. destruct (decide (q = p)) as [-> | Hne].
    + rewrite lookup_delete_eq in Hq. discriminate.
    + rewrite lookup_delete_ne in Hq by congruence.
      rewrite lookup_delete_ne; [now apply Hf |].
      intros Hid. apply Hf in Hp, Hq. rewrite Hid in Hp. congruence.
  - intros i q Hq. destruct (decide (i = id_ b)) as [-> | Hne].
    + rewrite lookup_delete_eq in Hq. discriminate.
    + rewrite lookup_delete_ne in Hq by congruence.
      destruct (Hr i q Hq) as (bq & Hbq & Hi). exists bq.
      rewrite lookup_delete_ne; [auto |].
      intros ->. congruence.
  - intros q bq Hq. destruct (decide (q = p)) as [-> | Hne].
    + rewrite lookup_insert_eq in Hq. injection Hq as <-. simpl. now apply Hf.
    + rewrite lookup_insert_ne in Hq by congruence. now apply Hf.
  - intros i q Hq. destruct (Hr i q Hq) as (bq & Hbq & Hi).
    destruct (decide (q = p)) as [-> | Hne].
    + exists (decrease_refcount b). rewrite lookup_insert_eq. split; [reflexivity |].
      simpl. congruence.
    + exists bq. rewrite lookup_insert_ne by congruence. auto.
Qed.


(** *** Every live Buffer stays referenced *)

Lemma refcounts_insert s p b a bs n l :
  refcounts_positive s -> 1 <= refcount_ b ->
  refcounts_positive (mk_driver (<[p := b]> (heap s)) bs a n l).
Proof.
  intros Hpos Hb q bq Hq. simpl in Hq. destruct (decide (q = p)) as [-> | Hne].
  - rewrite lookup_insert_eq in Hq. now injection Hq as <-.
  - rewrite lookup_insert_ne in Hq by congruence. now apply (Hpos q).
Qed.

Lemma allocate_refcounts K d s r h s' :
  refcounts_positive s -> allocate K d s = Some (r, h, s') -> refcounts_positive s'.
Proof.
  intros Hpos. unfold allocate.
  destruct (create_bo K d) as [b |]; [| now intros [= <- <- <-]].
  destruct (negb (drv_num_buffers_per_bo b =? 1)); [now intros [= <- <- <-] |].
  destruct (0 <? d_reserved_region_size d).
  - destruct (create_reserved_region K (d_name d) (d_reserved_region_size d))
      as [fd evs].
    destruct (fd <? 0); [now intros [= <- <- <-] |].
    intros H. apply register_allocation_Some in H as (a & hnd & _ & _ & _ & _ & ->).
    apply (refcounts_insert s); [exact Hpos | simpl; lia].
  - intros H. apply register_allocation_Some in H as (a & hnd & _ & _ & _ & _ & ->).
    apply (refcounts_insert s); [exact Hpos | simpl; lia].
Qed.

Lemma retain_refcounts K handle s r s' :
  refcounts_positive s -> retain K handle s = Some (r, s') -> refcounts_positive s'.
Proof.
  intros Hpos. unfold retain.
  destruct (cros_gralloc_convert_handle handle) as [hnd |]; [| now intros [= <- <-]].
  destruct (handles_ s !! addr hnd) as [[p c] |].
  - destruct (heap s !! p) as [b |] eqn:Hp; [| discriminate]. simpl.
    intros [= <- <-]. apply (refcounts_insert s); [exact Hpos |].
    pose proof (Hpos p b Hp). simpl. lia.
  - cbv zeta.
    destruct (drmPrimeFDToHandle K (nth 0 (hnd_fds (contents hnd)) (-1))) as [ret id].
    destruct (negb (ret =? 0)); [intros [= <- <-]; exact Hpos |].
    simpl.
    destruct (buffers_ s !! id) as [p |].
    + destruct (heap s !! p) as [b |] eqn:Hp; [| discriminate]. simpl.
      intros [= <- <-]. apply (refcounts_insert s); [exact Hpos |].
      pose proof (Hpos p b Hp). simpl. lia.
    + destruct (drv_bo_import K (import_data_of (contents hnd))) as [b |];
        [| intros [= <- <-]; exact Hpos].
      intros [= <- <-]. apply (refcounts_insert s); [exact Hpos | simpl; lia].
Qed.

Lemma release_refcounts handle s r s' :
  refcounts_positive s -> release handle s = Some (r, s') -> refcounts_positive s'.
Proof.
  intros Hpos. unfold release.
  destruct (cros_gralloc_convert_handle handle) as [hnd |]; [| now intros [= <- <-]].
  destruct (handles_ s !! addr hnd) as [[p c] |]; [| now intros [= <- <-]].
  destruct (heap s !! p) as [b |] eqn:Hp; [| discriminate]. simpl.
  pose proof (Hpos p b Hp) as Hb.
  destruct (Z.eqb_spec (refcount_ b - 1) 0) as [Hz | Hnz]; intros [= <- <-].
  - intros q bq Hq. simpl in Hq. destruct (decide (q = p)) as [-> | Hne].
    + rewrite lookup_delete_eq in Hq. discriminate.
    + rewrite lookup_delete_ne in Hq by congruence. now apply (Hpos q).
  - apply (refcounts_insert s); [exact Hpos | simpl; lia].
Qed.


End Driver.

End Gralloc.

(** ** Concrete runs of the lifecycle manager *)

Module GrallocRuns.

Import Gralloc.

(** The backend's resolution, a registry that has every combination but
    those with the scanout flag, and the count of distinct kernel handles
    among the planes of a buffer object. *)
Definition resolve (format use_flags : Z) : Z :=
  I915.i915_resolve_format true Helpers.no_private_resolve format use_flags.

Definition registry_without_scanout (format use_flags : Z) : option format_metadata :=
  if Z.land use_flags BO_USE_SCANOUT =? 0
  then Some (mk_format_metadata 1 I915_TILING_NONE DRM_FORMAT_MOD_LINEAR)
  else None.

Definition distinct_handles (b : bo) : Z :=
  Z.of_nat (length (remove_dups (planes_of (meta_num_planes (meta b)) (handles b)))).

(** A linear XRGB8888 buffer object of 64 x 8 behind kernel handle 5,
    and one whose two planes sit on handles 5 and 6. *)
Definition xrgb_bo : bo :=
  match I915Runs.layout Helpers.linear_registry
          (I915Runs.request 64 8 DRM_FORMAT_XRGB8888) 64 8 DRM_FORMAT_XRGB8888 0 with
  | Some (_, b) => set_handles b (vinsert 0%fin 5 (handles b))
  | None => I915Runs.request 64 8 DRM_FORMAT_XRGB8888
  end.

Definition two_buffer_bo : bo :=
  set_handles (I915Runs.request 64 8 DRM_FORMAT_NV12)
    (vinsert 1%fin 6 (vinsert 0%fin 5 plane_zero)).

(** A kernel where everything succeeds: objects are created and imported
    as [xrgb_bo], a pixel takes 4 bytes, descriptors resolve to handle
    5, the reserved region is descriptor 7, the new handle is placed at
    address 100. *)
Definition kernel_ok : kernel :=
  mk_kernel (fun _ _ _ _ => Some xrgb_bo) (fun _ _ _ _ => Some xrgb_bo)
    (fun _ plane => 10 + Z.of_nat plane) (fun _ => Some xrgb_bo) (fun _ _ => 4)
    (fun _ => (0, 5)) (fun _ => 7) (fun _ _ => 0) (Some 100%positive) 28.

(** The same kernel, but [ftruncate] fails with [ENOSPC]. *)
Definition kernel_ftruncate_fails : kernel :=
  mk_kernel (fun _ _ _ _ => Some xrgb_bo) (fun _ _ _ _ => Some xrgb_bo)
    (fun _ plane => 10 + Z.of_nat plane) (fun _ => Some xrgb_bo) (fun _ _ => 4)
    (fun _ => (0, 5)) (fun _ => 7) (fun _ _ => -1) (Some 100%positive) 28.

(** The same kernel, but the factory returns the two-buffer object. *)
Definition kernel_two_buffers : kernel :=
  mk_kernel (fun _ _ _ _ => Some two_buffer_bo) (fun _ _ _ _ => Some two_buffer_bo)
    (fun _ plane => 10 + Z.of_nat plane) (fun _ => Some xrgb_bo) (fun _ _ => 4)
    (fun _ => (0, 5)) (fun _ => 7) (fun _ _ => 0) (Some 100%positive) 28.

Definition plain_request : cros_gralloc_buffer_descriptor :=
  mk_descriptor 64 8 1 0 DRM_FORMAT_XRGB8888 0 0 "buffer" 0.

Definition reserved_request : cros_gralloc_buffer_descriptor :=
  mk_descriptor 64 8 1 0 DRM_FORMAT_XRGB8888 0 4096 "buffer" 0.

(** A request for scanout, linear layout and camera reads together
    (flags 137), and a registry whose only entry is the one for linear
    layout and camera reads (flags 136). *)
Definition scanout_camera_request : cros_gralloc_buffer_descriptor :=
  mk_descriptor 64 8 1 0 DRM_FORMAT_XRGB8888
    (Z.lor BO_USE_SCANOUT (Z.lor BO_USE_LINEAR BO_USE_CAMERA_READ)) 0 "buffer" 0.

Definition registry_camera_linear (format use_flags : Z) : option format_metadata :=
  if (format =? DRM_FORMAT_XRGB8888)
     && (use_flags =? Z.lor BO_USE_LINEAR BO_USE_CAMERA_READ)
  then Some (mk_format_metadata 1 I915_TILING_NONE DRM_FORMAT_MOD_LINEAR)
  else None.

Definition run_allocate (K : kernel) (d : cros_gralloc_buffer_descriptor) (s : driver)
  : option (Z * buffer_handle_t * driver) :=
  allocate true resolve distinct_handles K d s.

(** A handle received from another process, stored at address 200. *)
Definition imported_handle : handle_ref :=
  mk_ref 200
    (mk_handle [33; -1] [256] [0] [4096] 1 64 8 DRM_FORMAT_XRGB8888 0 0 64
       cros_gralloc_magic 0 1 0 4096 "buffer").


(** The driver after one successful allocation: one Buffer (id 5) and
    the handle at address 100, both with count 1. *)
Definition allocated : driver :=
  match run_allocate kernel_ok plain_request empty_driver with
  | Some (_, _, s) => s
  | None => empty_driver
  end.

Definition allocated_handle : buffer_handle_t :=
  match run_allocate kernel_ok plain_request empty_driver with
  | Some (_, handle, _) => handle
  | None => None
  end.

Lemma allocated_consistent : tables_consistent allocated.
Proof.
  apply (allocate_consistent true resolve distinct_handles kernel_ok plain_request
           empty_driver 0 allocated_handle allocated).
  - apply empty_driver_consistent.
  - intros b _. apply lookup_empty.
  - reflexivity.
Qed.

(** *** C1 *)

Lemma retain_release_symmetry_witness :
  exists s2 s3,
    retain_n [kernel_ok; kernel_ok; kernel_ok] (Some imported_handle) empty_driver
    = Some ([0; 0; 0], s2)
    /\ release_n 3 (Some imported_handle) s2 = Some ([0; 0; 0], s3)
    /\ tables s3 = tables empty_driver
    /\ handles_ s3 !! addr imported_handle = None
    /\ release (Some imported_handle) s3 = Some (- EINVAL, s3).
Proof.
  destruct (retain_release_symmetry kernel_ok [kernel_ok; kernel_ok] imported_handle
              empty_driver 5)
    as (s2 & s3 & Hretain & Hrelease & Htables & Hgone & _ & Hagain).
  - apply empty_driver_consistent.
  - apply empty_driver_refcounts.
  - reflexivity.
  - apply lookup_empty.
  - reflexivity.
  - intros _. exists xrgb_bo. split; reflexivity.
  - exists s2, s3. auto.
Defined.

(** A handle that [allocate] registered, retained once and released
    once: its entry is still there with count 1, its Buffer is alive with
    refcount 1, and one more release returns 0 and removes both. *)
Lemma allocated_handle_stays_registered :
  exists s1 s2 s3 p,
    retain kernel_ok allocated_handle allocated = Some (0, s1)
    /\ release allocated_handle s1 = Some (0, s2)
    /\ handles_ s2 !! 100%positive = Some (p, 1)
    /\ refcount_ <$> heap s2 !! p = Some 1
    /\ release allocated_handle s2 = Some (0, s3)
    /\ release allocated_handle s2 <> Some (- EINVAL, s2)
    /\ handles_ s3 !! 100%positive = None.
Proof.
  eexists _, _, _, _.
  split; [vm_compute; reflexivity |].
  split; [vm_compute; reflexivity |].
  split; [vm_compute; reflexivity |].
  split; [vm_compute; reflexivity |].
  split; [vm_compute; reflexivity |].
  split; [vm_compute; discriminate | vm_compute; reflexivity].
Qed.

(** *** C2 *)

Lemma retain_one_buffer_witness :
  exists s',
    retain kernel_ok (Some imported_handle) allocated = Some (0, s')
    /\ one_buffer_per_id s'
    /\ dom (heap s') = dom (heap allocated)
    /\ buffers_ s' = buffers_ allocated
    /\ handles_ s' !! addr imported_handle = Some (1%positive, 1)
    /\ refcount_ <$> heap s' !! 1%positive = Some 2.
Proof.
  destruct (retain_one_buffer_per_kernel_object kernel_ok imported_handle allocated 5)
    as (r & s' & Hret & _ & Hone & Hcase).
  - apply allocated_consistent.
  - reflexivity.
  - reflexivity.
  - reflexivity.
  - intros b [= <-]. reflexivity.
  - change (buffers_ allocated !! 5) with (Some 1%positive) in Hcase.
    destruct Hcase as (-> & (b & Hb & Hheap) & Hdom & Hbufs & Hhandles).
    exists s'. split; [exact Hret |]. split; [exact Hone |].
    split; [exact Hdom |]. split; [exact Hbufs |]. split.
    + rewrite Hhandles. apply lookup_insert_eq.
    + rewrite Hheap, lookup_insert_eq. simpl.
      assert (heap allocated !! 1%positive
              = Some (new_cros_gralloc_buffer 5 xrgb_bo (Some 100%positive) (-1) 0))
        as Hb' by (vm_compute; reflexivity).
      rewrite Hb' in Hb. injection Hb as <-. reflexivity.
Defined.

(** *** C3 *)

(** C3, at the failing input. The reserved region is created as
    descriptor 7 and [ftruncate] fails: [allocate] returns [-ENOSPC]
    after destroying the buffer object, and descriptor 7 is never closed. *)
Lemma reserved_region_descriptor_leaks :
  exists s',
    run_allocate kernel_ftruncate_fails reserved_request empty_driver
    = Some (-28, None, s')
    /\ log s'
       = [Ev_drv_bo_create xrgb_bo; Ev_memfd_create 7; Ev_ftruncate 7 4096 (-1);
          Ev_drv_bo_destroy xrgb_bo]
    /\ live_bos (log s') 0 = 0%nat
    /\ open_fds (log s') [] = [7].
Proof.
  eexists. split; [vm_compute; reflexivity |].
  split; [vm_compute; reflexivity |]. split; vm_compute; reflexivity.
Qed.

(** *** C9 *)

Lemma scanout_fallback_witness :
  d_use_flags scanout_camera_request = 137
  /\ is_supported resolve registry_camera_linear scanout_camera_request
     = (true, set_use_flags scanout_camera_request 136,
        [(DRM_FORMAT_XRGB8888, 137); (DRM_FORMAT_XRGB8888, 136)])
  /\ exists h s',
       run_allocate kernel_ok (set_use_flags scanout_camera_request 136) empty_driver
       = Some (0, Some h, s')
       /\ hnd_use_flags (contents h) = 136.
Proof.
  split; [reflexivity |].
  destruct (scanout_fallback true resolve registry_camera_linear distinct_handles
              scanout_camera_request) as (Hsup & _ & _ & _ & Halloc).
  - change (d_use_flags scanout_camera_request) with 137. lia.
  - reflexivity.
  - discriminate.
  - vm_compute. eauto.
  - split; [exact Hsup |].
    destruct (run_allocate kernel_ok (set_use_flags scanout_camera_request 136)
                empty_driver)
      as [[[r [h |]] s'] |] eqn:Hrun; try (vm_compute in Hrun; discriminate).
    destruct (Halloc kernel_ok empty_driver r h s' Hrun) as (-> & Hflags & _).
    exists h, s'. split; [reflexivity | exact Hflags].
Defined.

(** *** C10 *)

Lemma allocate_rejects_multi_buffer_witness :
  exists s',
    run_allocate kernel_two_buffers plain_request empty_driver
    = Some (- EINVAL, None, s')
    /\ tables s' = tables empty_driver
    /\ next_buffer_id s' = next_buffer_id empty_driver
    /\ log s' = log empty_driver
               ++ [Ev_drv_bo_create two_buffer_bo; Ev_drv_bo_destroy two_buffer_bo]
    /\ live_bos [Ev_drv_bo_create two_buffer_bo; Ev_drv_bo_destroy two_buffer_bo] 0
       = 0%nat.
Proof.
  apply (allocate_rejects_multi_buffer true resolve distinct_handles kernel_two_buffers
           plain_request empty_driver two_buffer_bo).
  - reflexivity.
  - reflexivity.
Defined.

End GrallocRuns.

(** ** i915.c: device identification and the combination registry *)

Module I915Device.

Import I915Kernel.

(** More constants of [drv.h], [i915_drm.h] and [drm_fourcc.h], with
    the values those headers give them. *)
Definition BO_USE_RENDERING : Z := Eval cbv in Z.shiftl 1 2.
Definition BO_USE_TEXTURE : Z := Eval cbv in Z.shiftl 1 5.
Definition BO_USE_PROTECTED : Z := Eval cbv in Z.shiftl 1 8.
Definition BO_USE_SW_READ_OFTEN : Z := Eval cbv in Z.shiftl 1 9.
Definition BO_USE_SW_READ_RARELY : Z := Eval cbv in Z.shiftl 1 10.
Definition BO_USE_SW_WRITE_OFTEN : Z := Eval cbv in Z.shiftl 1 11.
Definition BO_USE_SW_WRITE_RARELY : Z := Eval cbv in Z.shiftl 1 12.
Definition BO_USE_HW_VIDEO_DECODER : Z := Eval cbv in Z.shiftl 1 13.
Definition BO_USE_RENDERSCRIPT : Z := Eval cbv in Z.shiftl 1 16.

Definition DRM_FORMAT_ABGR2101010 : Z := Eval cbv in fourcc_code "A" "B" "3" "0".
Definition DRM_FORMAT_ARGB2101010 : Z := Eval cbv in fourcc_code "A" "R" "3" "0".
Definition DRM_FORMAT_ARGB8888 : Z := Eval cbv in fourcc_code "A" "R" "2" "4".
Definition DRM_FORMAT_RGB565 : Z := Eval cbv in fourcc_code "R" "G" "1" "6".
Definition DRM_FORMAT_XBGR2101010 : Z := Eval cbv in fourcc_code "X" "B" "3" "0".
Definition DRM_FORMAT_XRGB2101010 : Z := Eval cbv in fourcc_code "X" "R" "3" "0".
Definition DRM_FORMAT_ABGR16161616F : Z := Eval cbv in fourcc_code "A" "B" "4" "H".
Definition DRM_FORMAT_P010 : Z := Eval cbv in fourcc_code "P" "0" "1" "0".
Definition DRM_FORMAT_YVU420 : Z := Eval cbv in fourcc_code "Y" "V" "1" "2".
Definition DRM_FORMAT_YUYV : Z := Eval cbv in fourcc_code "Y" "U" "Y" "V".
Definition DRM_FORMAT_BGR888 : Z := Eval cbv in fourcc_code "B" "G" "2" "4".
Definition DRM_FORMAT_RGB888 : Z := Eval cbv in fourcc_code "R" "G" "2" "4".

(** The three tables of [i915_info_from_device_id], lines 60-84. *)
Definition gen9_ids : list Z :=
  [0x1902; 0x1906; 0x190A; 0x190B; 0x190E; 0x1912; 0x1913; 0x1915; 0x1916; 0x1917;
   0x191A; 0x191B; 0x191D; 0x191E; 0x1921; 0x1923; 0x1926; 0x1927; 0x192A; 0x192B;
   0x192D; 0x1932; 0x193A; 0x193B; 0x193D; 0x0A84; 0x1A84; 0x1A85; 0x5A84; 0x5A85;
   0x3184; 0x3185; 0x5902; 0x5906; 0x590A; 0x5908; 0x590B; 0x590E; 0x5913; 0x5915;
   0x5917; 0x5912; 0x5916; 0x591A; 0x591B; 0x591D; 0x591E; 0x5921; 0x5923; 0x5926;
   0x5927; 0x593B; 0x591C; 0x87C0; 0x87CA; 0x3E90; 0x3E93; 0x3E99; 0x3E9C; 0x3E91;
   0x3E92; 0x3E96; 0x3E98; 0x3E9A; 0x3E9B; 0x3E94; 0x3EA9; 0x3EA5; 0x3EA6; 0x3EA7;
   0x3EA8; 0x3EA1; 0x3EA4; 0x3EA0; 0x3EA3; 0x3EA2; 0x9B21; 0x9BA0; 0x9BA2; 0x9BA4;
   0x9BA5; 0x9BA8; 0x9BAA; 0x9BAB; 0x9BAC; 0x9B41; 0x9BC0; 0x9BC2; 0x9BC4; 0x9BC5;
   0x9BC6; 0x9BC8; 0x9BCA; 0x9BCB; 0x9BCC; 0x9BE6; 0x9BF6].

Definition gen12_ids : list Z :=
  [0x4C8A; 0x4C8B; 0x4C8C; 0x4C90; 0x4C9A; 0x4680; 0x4681; 0x4682; 0x4683; 0x4688;
   0x4689; 0x4690; 0x4691; 0x4692; 0x4693; 0x4698; 0x4699; 0x4626; 0x4628; 0x462A;
   0x46A0; 0x46A1; 0x46A2; 0x46A3; 0x46A6; 0x46A8; 0x46AA; 0x46B0; 0x46B1; 0x46B2;
   0x46B3; 0x46C0; 0x46C1; 0x46C2; 0x46C3; 0x9A40; 0x9A49; 0x9A59; 0x9A60; 0x9A68;
   0x9A70; 0x9A78; 0x9AC0; 0x9AC9; 0x9AD9; 0x9AF8; 0x4905; 0x4906; 0x4907; 0x4908].

Definition adlp_ids : list Z :=
  [0x46A0; 0x46A1; 0x46A2; 0x46A3; 0x46A6; 0x46A8; 0x46AA; 0x462A; 0x4626; 0x4628;
   0x46B0; 0x46B1; 0x46B2; 0x46B3; 0x46C0; 0x46C1; 0x46C2; 0x46C3; 0x46D0; 0x46D1;
   0x46D2].

(** [i915_info_from_device_id], lines 58-109. The tables hold
    [uint16_t] and [device_id] is an [int]: the comparison is on the
    integers themselves. *)
Definition i915_info_from_device_id (i915 : i915_device) : i915_device :=
  let matches (ids : list Z) := existsb (fun id => id =? device_id i915) ids in
  if matches gen9_ids then
    mk_i915_device 9 (has_llc i915) (device_id i915) false
  else if matches adlp_ids then
    mk_i915_device 12 (has_llc i915) (device_id i915) true
  else if matches gen12_ids then
    mk_i915_device 12 (has_llc i915) (device_id i915) false
  else mk_i915_device 12 (has_llc i915) (device_id i915) false.

(** [unset_flags], lines 111-115, on [uint64_t]. *)
Definition unset_flags (current_flags mask : Z) : Z :=
  Z.land current_flags (u64 (Z.lnot mask)).

Definition HYPERTYPE_NONE : Z := 0.
Definition HYPERTYPE_ANY : Z := 1.
Definition HYPERTYPE_TYPE_ACRN : Z := 2.
Definition HYPERTYPE_TYPE_KVM : Z := 4.

(** What the [cpuid] instruction answers: leaf 1 if the processor has it
    ([__get_cpuid] returns 0 otherwise), and the hypervisor leaf
    0x40000000; each answer is [(eax, ebx, ecx, edx)]. *)
Record cpuid_answers := mk_cpuid {
  cpuid_leaf1 : option (Z * Z * Z * Z);
  cpuid_hypervisor : Z * Z * Z * Z
}.

(** The four bytes of a [uint32_t] in memory, lowest first (x86). *)
Definition bytes_of_u32 (w : Z) : list Z :=
  [Z.land w 255; Z.land (Z.shiftr w 8) 255; Z.land (Z.shiftr w 16) 255;
   Z.land (Z.shiftr w 24) 255].

Definition c_string (s : string) : list Z :=
  map (fun c => Z.of_nat (nat_of_ascii c)) (list_ascii_of_string s).

(** [strncmp (s1, s2, n) == 0] on NUL-terminated strings; past the end
    of a list stands the terminator. *)
Fixpoint strncmp_eq (n : nat) (s1 s2 : list Z) : bool :=
  match n with
  | O => true
  | S n' =>
      let c1 := hd 0 s1 in
      let c2 := hd 0 s2 in
      if c1 =? c2 then (if c1 =? 0 then true else strncmp_eq n' (tl s1) (tl s2))
      else false
  end.

(** [vm_type], lines 126-151. [sig.text] is the twelve bytes of
    [ebx], [ecx], [edx] followed by the zero the initialiser left. *)
Definition vm_type (cpu : cpuid_answers) : Z :=
  match cpuid_leaf1 cpu with
  | None => HYPERTYPE_NONE
  | Some (_, _, ecx, _) =>
      if Z.land (Z.shiftr ecx 31) 1 =? 1 then
        let '(_, ebx, ecx, edx) := cpuid_hypervisor cpu in
        let text := bytes_of_u32 ebx ++ bytes_of_u32 ecx ++ bytes_of_u32 edx ++ [0] in
        let type := Z.lor HYPERTYPE_NONE HYPERTYPE_ANY in
        if strncmp_eq 12 text (c_string "ACRNACRNACRN") then
          Z.lor type HYPERTYPE_TYPE_ACRN
        else if strncmp_eq 9 text (c_string "KVMKVMKVM")
                || strncmp_eq 12 text (c_string "EVMMEVMMEVMM") then
          Z.lor type HYPERTYPE_TYPE_KVM
        else type
      else HYPERTYPE_NONE
  end.

(** The calls [i915_add_combinations] makes on the registry of [drv.c]. *)
Inductive registry_call :=
| drv_add_combinations (formats : list Z) (metadata : format_metadata) (use_flags : Z)
| drv_add_combination (format : Z) (metadata : format_metadata) (use_flags : Z)
| drv_modify_combination (format : Z) (metadata : format_metadata) (use_flags : Z)
| drv_modify_linear_combinations
| i915_private_add_combinations.

Definition scanout_render_formats : list Z :=
  [DRM_FORMAT_ABGR2101010; DRM_FORMAT_ABGR8888; DRM_FORMAT_ARGB2101010;
   DRM_FORMAT_ARGB8888; DRM_FORMAT_RGB565; DRM_FORMAT_XBGR2101010;
   DRM_FORMAT_XBGR8888; DRM_FORMAT_XRGB2101010; DRM_FORMAT_XRGB8888].

Definition render_formats : list Z := [DRM_FORMAT_ABGR16161616F].

Section Registry.

(** Build configuration. *)
Variable USE_GRALLOC1 : bool.
Variable I915_SCANOUT_Y_TILED : bool.
(** The usage masks of [drv_priv.h] and the topology tags of [drv.h],
    not among the sources. *)
Variable BO_USE_RENDER_MASK : Z.
Variable BO_USE_TEXTURE_MASK : Z.
Variable BO_USE_SW_MASK : Z.
Variable TWO_GPU_IGPU_DGPU : Z.
Variable THREE_GPU_IGPU_VIRTIO_DGPU : Z.
(** [i915_private_init] of [i915_private.c], not among the sources: the
    cursor size it stores. *)
Variable i915_private_init : Z * Z.

Definition texture_only_formats : list Z :=
  [DRM_FORMAT_R8; DRM_FORMAT_NV12; DRM_FORMAT_P010; DRM_FORMAT_YVU420;
   DRM_FORMAT_YVU420_ANDROID] ++ (if USE_GRALLOC1 then [DRM_FORMAT_YUYV] else []).

Definition linear_mask : Z :=
  Z.lor BO_USE_RENDERSCRIPT
    (Z.lor BO_USE_LINEAR
       (Z.lor BO_USE_PROTECTED (Z.lor BO_USE_SW_READ_OFTEN BO_USE_SW_WRITE_OFTEN))).

Definition camera_flags : Z := Z.lor BO_USE_CAMERA_READ BO_USE_CAMERA_WRITE.

Definition linear_metadata : format_metadata :=
  mk_format_metadata 1 I915_TILING_NONE DRM_FORMAT_MOD_LINEAR.
Definition x_tiled_metadata : format_metadata :=
  mk_format_metadata 2 I915_TILING_X I915_FORMAT_MOD_X_TILED.
Definition y_tiled_metadata : format_metadata :=
  mk_format_metadata 3 I915_TILING_Y I915_FORMAT_MOD_Y_TILED.

(** The usage masks of the three tiling families as
    [i915_add_combinations] derives them one from the other:
    [(render, scanout_and_render)] for the linear, the X-tiled and the
    Y-tiled entries. *)
Definition linear_masks : Z * Z :=
  (if USE_GRALLOC1
   then Z.land BO_USE_RENDER_MASK (u64 (Z.lnot (Z.lor BO_USE_RENDERING BO_USE_TEXTURE)))
   else BO_USE_RENDER_MASK,
   Z.lor BO_USE_RENDER_MASK BO_USE_SCANOUT).

Definition x_tiled_masks (is_kvm is_adlp : bool) : Z * Z :=
  let '(render, scanout_and_render) := linear_masks in
  let render := unset_flags render (Z.lor linear_mask camera_flags) in
  let scanout_and_render :=
    unset_flags scanout_and_render (Z.lor linear_mask camera_flags) in
  (render,
   if is_kvm && is_adlp then unset_flags scanout_and_render BO_USE_SCANOUT
   else scanout_and_render).

Definition y_tiled_masks (is_kvm is_adlp : bool) (gpu_grp_type : Z) : Z * Z :=
  let '(render, scanout_and_render) := x_tiled_masks is_kvm is_adlp in
  let scanout_and_render :=
    unset_flags scanout_and_render
      (Z.lor BO_USE_SW_READ_RARELY BO_USE_SW_WRITE_RARELY) in
  (render,
   if (gpu_grp_type =? TWO_GPU_IGPU_DGPU) || (gpu_grp_type =? THREE_GPU_IGPU_VIRTIO_DGPU)
   then unset_flags scanout_and_render BO_USE_SCANOUT
   else scanout_and_render).

(** [i915_add_combinations], lines 153-255: the return code and the
    registry calls in order. [cpu] answers the [cpuid] of [vm_type]. *)
Definition i915_add_combinations (cpu : cpuid_answers) (gpu_grp_type : Z)
    (i915 : i915_device) : Z * list registry_call :=
  let is_kvm := negb (Z.land (vm_type cpu) HYPERTYPE_TYPE_KVM =? 0) in
  let texture_only := BO_USE_TEXTURE_MASK in
  (0,
   [drv_add_combinations scanout_render_formats linear_metadata (snd linear_masks);
    drv_add_combinations render_formats linear_metadata (fst linear_masks);
    drv_add_combinations texture_only_formats linear_metadata texture_only;
    drv_modify_linear_combinations;
    drv_modify_combination DRM_FORMAT_YVU420 linear_metadata BO_USE_HW_VIDEO_ENCODER;
    drv_modify_combination DRM_FORMAT_NV12 linear_metadata
      (Z.lor BO_USE_HW_VIDEO_ENCODER
         (Z.lor BO_USE_HW_VIDEO_DECODER
            (Z.lor BO_USE_CAMERA_READ (Z.lor BO_USE_CAMERA_WRITE BO_USE_SCANOUT))));
    drv_add_combination DRM_FORMAT_BGR888 linear_metadata BO_USE_SW_MASK]
   ++ (if USE_GRALLOC1
       then [drv_modify_combination DRM_FORMAT_ABGR2101010 linear_metadata BO_USE_SW_MASK;
             drv_add_combination DRM_FORMAT_RGB888 linear_metadata BO_USE_SW_MASK]
       else [])
   ++ [drv_modify_combination DRM_FORMAT_R8 linear_metadata camera_flags;
       drv_add_combinations render_formats x_tiled_metadata
         (fst (x_tiled_masks is_kvm (is_adlp i915)));
       drv_add_combinations scanout_render_formats x_tiled_metadata
         (snd (x_tiled_masks is_kvm (is_adlp i915)));
       drv_add_combination DRM_FORMAT_NV12 y_tiled_metadata
         (if I915_SCANOUT_Y_TILED
          then Z.lor BO_USE_TEXTURE (Z.lor BO_USE_HW_VIDEO_DECODER BO_USE_SCANOUT)
          else Z.lor BO_USE_TEXTURE BO_USE_HW_VIDEO_DECODER);
       drv_add_combination DRM_FORMAT_P010 y_tiled_metadata
         (Z.lor BO_USE_TEXTURE BO_USE_HW_VIDEO_DECODER);
       drv_add_combinations render_formats y_tiled_metadata
         (fst (y_tiled_masks is_kvm (is_adlp i915) gpu_grp_type));
       drv_add_combinations scanout_render_formats y_tiled_metadata
         (snd (y_tiled_masks is_kvm (is_adlp i915) gpu_grp_type))]
   ++ (if USE_GRALLOC1 then [i915_private_add_combinations] else [])).

(** What the kernel answers to the two [DRM_IOCTL_I915_GETPARAM] of
    [i915_init], each [(ret, value)], and whether [calloc] succeeds. *)
Record init_answers := mk_init_answers {
  calloc_ok : bool;
  param_chipset_id : Z * Z;
  param_has_llc : Z * Z
}.

Inductive alloc_event :=
| Ev_calloc
| Ev_free.

(** [drv->priv] after a successful [i915_init]: the device and, in
    [USE_GRALLOC1] builds, the cursor size [i915_private_init] stored. *)
Record i915_priv := mk_priv {
  priv_device : i915_device;
  priv_cursor : option (Z * Z)
}.

(** [i915_init], lines 310-350: the return code, [drv->priv], the
    allocations made and freed, and the registry calls. *)
Definition i915_init (A : init_answers) (cpu : cpuid_answers) (gpu_grp_type : Z)
  : Z * option i915_priv * list alloc_event * list registry_call :=
  if negb (calloc_ok A) then (- ENOMEM, None, [], [])
  else
    let i915 := mk_i915_device 0 0 0 false in
    let '(ret, value) := param_chipset_id A in
    if negb (ret =? 0) then (- EINVAL, None, [Ev_calloc; Ev_free], [])
    else
      let i915 := mk_i915_device (gen i915) (has_llc i915) value (is_adlp i915) in
      let i915 := i915_info_from_device_id i915 in
      let '(ret, value) := param_has_llc A in
      if negb (ret =? 0) then (- EINVAL, None, [Ev_calloc; Ev_free], [])
      else
        let i915 := mk_i915_device (gen i915) value (device_id i915) (is_adlp i915) in
        let cursor := if USE_GRALLOC1 then Some i915_private_init else None in
        let '(ret, calls) := i915_add_combinations cpu gpu_grp_type i915 in
        (ret, Some (mk_priv i915 cursor), [Ev_calloc], calls).

(** [i915_close], lines 517-521. *)
Definition i915_close (priv : option i915_priv)
  : option i915_priv * list alloc_event :=
  (None, match priv with Some _ => [Ev_free] | None => [] end).

End Registry.


(** *** Properties of the device identification and of the registry *)

Lemma existsb_eqb_In (x : Z) (l : list Z) :
  existsb (fun id => id =? x) l = true <-> In x l.
Proof.
  rewrite existsb_exists. split.
  - intros (y & Hy & Heq). apply Z.eqb_eq in Heq. now subst.
  - intros H. exists x. split; [exact H | apply Z.eqb_refl].
Qed.

Lemma gen9_adlp_disjoint (x : Z) : In x gen9_ids -> In x adlp_ids -> False.
Proof.
  intros H9 Ha.
  assert (Hall : forallb (fun a => negb (existsb (fun id => id =? a) gen9_ids)) adlp_ids
                 = true) by (vm_compute; reflexivity).
  rewrite forallb_forall in Hall. specialize (Hall x Ha).
  apply negb_true_iff in Hall.
  apply existsb_eqb_In in H9. congruence.
Qed.

(** X1. [i915_info_from_device_id] classifies a device by its id alone:
    generation 9 exactly for the ids of the gen9 table and generation 12
    for every other id, known or not; the ADL-P mark exactly for the ids
    of the ADL-P table (none of which is a gen9 id); [has_llc] and the id
    are left as they were, and whatever [gen] and [is_adlp] held before
    is overwritten. *)
Theorem i915_info_from_device_id_classifies (i915 : i915_device) :
  let r := i915_info_from_device_id i915 in
  (gen r = 9 <-> In (device_id i915) gen9_ids) /\
  (gen r = 12 <-> ~ In (device_id i915) gen9_ids) /\
  (is_adlp r = true <-> In (device_id i915) adlp_ids) /\
  has_llc r = has_llc i915 /\
  device_id r = device_id i915 /\
  r = i915_info_from_device_id
        (mk_i915_device 0 (has_llc i915) (device_id i915) false).
Proof.
  cbv zeta. unfold i915_info_from_device_id. cbn [device_id has_llc].
  destruct (existsb _ gen9_ids) eqn:H9.
  - apply existsb_eqb_In in H9. cbn [gen is_adlp has_llc device_id].
    split; [tauto|]. split; [split; [discriminate | tauto]|].
    split; [|now repeat split].
    split; [discriminate|].
    intros Ha. exfalso. eapply gen9_adlp_disjoint; eauto.
  - assert (N9 : ~ In (device_id i915) gen9_ids).
    { intros H. apply existsb_eqb_In in H. congruence. }
    destruct (existsb _ adlp_ids) eqn:Ha.
    + apply existsb_eqb_In in Ha. cbn [gen is_adlp has_llc device_id].
      split; [split; [discriminate | tauto]|]. split; [tauto|].
      split; [tauto|]. now repeat split.
    + assert (Na : ~ In (device_id i915) adlp_ids).
      { intros H. apply existsb_eqb_In in H. congruence. }
      destruct (existsb _ gen12_ids); cbn [gen is_adlp has_llc device_id];
        (split; [split; [discriminate | tauto]|]; split; [tauto|];
         split; [split; [discriminate | tauto]|]; now repeat split).
Qed.

Lemma u64_lnot_testbit (m n : Z) :
  0 <= n -> Z.testbit (u64 (Z.lnot m)) n = negb (Z.testbit m n) && (n <? 64).
Proof.
  intros Hn. unfold u64.
  destruct (n <? 64) eqn:E.
  - apply Z.ltb_lt in E. rewrite Z.mod_pow2_bits_low by lia.
    rewrite Z.lnot_spec by lia. now rewrite andb_true_r.
  - apply Z.ltb_ge in E. rewrite Z.mod_pow2_bits_high by lia.
    now rewrite andb_false_r.
Qed.

Lemma unset_flags_clears (f m : Z) : Z.land (unset_flags f m) m = 0.
Proof.
  unfold unset_flags. apply Z.bits_inj'. intros n Hn.
  rewrite !Z.land_spec, u64_lnot_testbit, Z.bits_0 by lia.
  destruct (Z.testbit f n), (Z.testbit m n), (n <? 64); reflexivity.
Qed.

Lemma unset_flags_still_clear (f m x : Z) :
  Z.land f x = 0 -> Z.land (unset_flags f m) x = 0.
Proof.
  intros H. unfold unset_flags.
  rewrite <- Z.land_assoc, (Z.land_comm (u64 _) x), Z.land_assoc, H.
  apply Z.land_0_l.
Qed.

Lemma land_lor_clear (f a b : Z) :
  Z.land f (Z.lor a b) = 0 <-> Z.land f a = 0 /\ Z.land f b = 0.
Proof.
  rewrite Z.land_lor_distr_r. apply Z.lor_eq_0_iff.
Qed.

(** X2. [unset_flags] on 64-bit flag words clears exactly the bits of
    the mask: bit [n] of the result is set iff it was set in the flags
    and is not in the mask; the result is again a 64-bit word and never
    exceeds the flags it came from. *)
Theorem unset_flags_bits (current_flags mask : Z) :
  0 <= current_flags < 2 ^ 64 ->
  (forall n, 0 <= n ->
     Z.testbit (unset_flags current_flags mask) n
     = Z.testbit current_flags n && negb (Z.testbit mask n)) /\
  0 <= unset_flags current_flags mask <= current_flags.
Proof.
  intros Hf.
  assert (Hbits : forall n, 0 <= n ->
     Z.testbit (unset_flags current_flags mask) n
     = Z.testbit current_flags n && negb (Z.testbit mask n)).
  { intros n Hn. unfold unset_flags.
    rewrite Z.land_spec, u64_lnot_testbit by lia.
    destruct (n <? 64) eqn:E; [now rewrite andb_true_r|].
    apply Z.ltb_ge in E.
    assert (Z.testbit current_flags n = false) as ->; [|reflexivity].
    destruct (Z.eq_dec current_flags 0) as [->|Hne]; [apply Z.bits_0|].
    apply Z.bits_above_log2; [lia|].
    assert (Z.log2 current_flags < 64); [|lia].
    apply Z.log2_lt_pow2; lia. }
  split; [exact Hbits|].
  unfold unset_flags. split.
  - apply Z.land_nonneg. lia.
  - assert (Hsub : Z.land current_flags (u64 (Z.lnot mask))
                   = current_flags - Z.land current_flags (Z.lnot (u64 (Z.lnot mask)))).
    { rewrite <- Z.ldiff_land.
      assert (Z.ldiff current_flags (Z.ldiff current_flags (u64 (Z.lnot mask)))
              = Z.land current_flags (u64 (Z.lnot mask))) as <-.
      { apply Z.bits_inj'. intros n Hn.
        rewrite !Z.ldiff_spec, Z.land_spec.
        destruct (Z.testbit current_flags n), (Z.testbit (u64 (Z.lnot mask)) n);
          reflexivity. }
      rewrite Z.sub_nocarry_ldiff.
      - reflexivity.
      - apply Z.bits_inj'. intros n Hn.
        rewrite !Z.ldiff_spec, Z.bits_0.
        destruct (Z.testbit current_flags n), (Z.testbit (u64 (Z.lnot mask)) n);
          reflexivity. }
    rewrite Hsub.
    assert (0 <= Z.land current_flags (Z.lnot (u64 (Z.lnot mask)))).
    { apply Z.land_nonneg. lia. }
    lia.
Qed.

Lemma unset_flags_bits_witness :
  unset_flags 0x4A9 0x88 = 0x421 /\
  (forall n, 0 <= n ->
     Z.testbit (unset_flags 0x4A9 0x88) n = Z.testbit 0x4A9 n && negb (Z.testbit 0x88 n)) /\
  0 <= unset_flags 0x4A9 0x88 <= 0x4A9.
Proof.
  split; [reflexivity|].
  apply (unset_flags_bits 0x4A9 0x88). vm_compute. split; [discriminate | reflexivity].
Defined.

(** X3. [vm_type] answers one of four values: [HYPERTYPE_NONE] whenever
    [cpuid] leaf 1 is missing or its hypervisor bit (bit 31 of [ecx]) is
    clear, and otherwise [HYPERTYPE_ANY] alone or together with exactly
    one of the ACRN and KVM marks, never both. *)
Theorem vm_type_values (cpu : cpuid_answers) :
  (vm_type cpu = 0 \/ vm_type cpu = 1 \/ vm_type cpu = 3 \/ vm_type cpu = 5) /\
  (vm_type cpu = 0 <->
   match cpuid_leaf1 cpu with
   | None => True
   | Some (_, _, ecx, _) => Z.testbit ecx 31 = false
   end).
Proof.
  unfold vm_type.
  destruct (cpuid_leaf1 cpu) as [[[[a b] c] d]|]; [|split; [now left | tauto]].
  assert (Hbit : Z.land (Z.shiftr c 31) 1 = if Z.testbit c 31 then 1 else 0).
  { change 1 with (Z.ones 1) at 1. rewrite Z.land_ones by lia.
    change (2 ^ 1) with 2. rewrite <- Z.bit0_mod, Z.shiftr_spec by lia.
    replace (0 + 31) with 31 by lia. reflexivity. }
  rewrite Hbit.
  destruct (Z.testbit c 31); cbn [Z.eqb]; [|split; [now left | tauto]].
  destruct (cpuid_hypervisor cpu) as [[[a' b'] c'] d'].
  destruct (strncmp_eq 12 _ (c_string "ACRNACRNACRN")).
  - split; [right; right; now left | split; discriminate].
  - destruct (strncmp_eq 9 _ _ || strncmp_eq 12 _ _).
    + split; [now repeat right | split; discriminate].
    + split; [right; now left | split; discriminate].
Qed.

(** X4. The KVM signature is recognised from its first nine bytes only:
    when the hypervisor bit is set and the hypervisor leaf spells
    KVMKVMKVM in [ebx], [ecx] and the low byte of [edx], [vm_type]
    answers ANY|KVM whatever the three remaining bytes of [edx] are. *)
Theorem vm_type_kvm_prefix (cpu : cpuid_answers) (a b c d a' d' : Z) :
  cpuid_leaf1 cpu = Some (a, b, c, d) ->
  Z.testbit c 31 = true ->
  cpuid_hypervisor cpu = (a', 0x4B4D564B, 0x564B4D56, d') ->
  Z.land d' 255 = 0x4D ->
  vm_type cpu = Z.lor HYPERTYPE_ANY HYPERTYPE_TYPE_KVM.
Proof.
  intros H1 Hc Hh Hd. unfold vm_type. rewrite H1, Hh.
  assert (Hbit : Z.land (Z.shiftr c 31) 1 = 1).
  { change 1 with (Z.ones 1) at 1. rewrite Z.land_ones by lia.
    change (2 ^ 1) with 2. rewrite <- Z.bit0_mod, Z.shiftr_spec by lia.
    replace (0 + 31) with 31 by lia. now rewrite Hc. }
  rewrite Hbit. cbn [Z.eqb Pos.eqb].
  unfold bytes_of_u32. rewrite !Hd.
  reflexivity.
Qed.

Lemma vm_type_kvm_prefix_witness :
  vm_type (mk_cpuid (Some (0, 0, 0x80000000, 0)) (0, 0x4B4D564B, 0x564B4D56, 0x4D)) = 5.
Proof.
  apply (vm_type_kvm_prefix _ 0 0 0x80000000 0 0 0x4D); reflexivity.
Defined.

Section RegistryFacts.

Variable USE_GRALLOC1 : bool.
Variable I915_SCANOUT_Y_TILED : bool.
Variable BO_USE_RENDER_MASK : Z.
Variable BO_USE_TEXTURE_MASK : Z.
Variable BO_USE_SW_MASK : Z.
Variable TWO_GPU_IGPU_DGPU : Z.
Variable THREE_GPU_IGPU_VIRTIO_DGPU : Z.
Variable i915_private_init : Z * Z.

(** The usage flags of a registry call that adds tiled combinations. *)
Definition tiled_flags (c : registry_call) : option Z :=
  match c with
  | drv_add_combinations _ metadata use_flags
  | drv_add_combination _ metadata use_flags =>
      if fm_tiling metadata =? I915_TILING_NONE then None else Some use_flags
  | _ => None
  end.

Local Arguments x_tiled_masks : simpl never.
Local Arguments y_tiled_masks : simpl never.
Local Arguments linear_masks : simpl never.

Lemma x_tiled_masks_clear (is_kvm is_adlp : bool) :
  let m := x_tiled_masks USE_GRALLOC1 BO_USE_RENDER_MASK is_kvm is_adlp in
  Z.land (fst m) (Z.lor linear_mask camera_flags) = 0 /\
  Z.land (snd m) (Z.lor linear_mask camera_flags) = 0.
Proof.
  unfold x_tiled_masks, linear_masks. cbn [fst snd]. split.
  - apply unset_flags_clears.
  - destruct (is_kvm && is_adlp).
    + apply unset_flags_still_clear, unset_flags_clears.
    + apply unset_flags_clears.
Qed.

Lemma y_tiled_masks_clear (is_kvm is_adlp : bool) (gpu_grp_type : Z) :
  let m := y_tiled_masks USE_GRALLOC1 BO_USE_RENDER_MASK TWO_GPU_IGPU_DGPU
             THREE_GPU_IGPU_VIRTIO_DGPU is_kvm is_adlp gpu_grp_type in
  Z.land (fst m) (Z.lor linear_mask camera_flags) = 0 /\
  Z.land (snd m) (Z.lor linear_mask camera_flags) = 0.
Proof.
  destruct (x_tiled_masks_clear is_kvm is_adlp) as [Hr Hs].
  unfold y_tiled_masks.
  destruct (x_tiled_masks _ _ _ _) as [render sar]. cbn [fst snd] in *.
  split; [exact Hr|].
  destruct (_ || _); repeat apply unset_flags_still_clear; exact Hs.
Qed.

(** X5. No tiled combination that [i915_add_combinations] registers
    carries a linear-only usage (renderscript, linear, protected,
    frequent software read or write) or a camera usage, whatever the
    usage masks of the build, the hypervisor, the device and the GPU
    topology are. *)
Theorem i915_add_combinations_tiled_flags (cpu : cpuid_answers) (gpu_grp_type : Z)
    (i915 : i915_device) :
  fst (i915_add_combinations USE_GRALLOC1 I915_SCANOUT_Y_TILED BO_USE_RENDER_MASK
         BO_USE_TEXTURE_MASK BO_USE_SW_MASK TWO_GPU_IGPU_DGPU
         THREE_GPU_IGPU_VIRTIO_DGPU cpu gpu_grp_type i915) = 0 /\
  Forall (fun c => forall f, tiled_flags c = Some f ->
                   Z.land f (Z.lor linear_mask camera_flags) = 0)
    (snd (i915_add_combinations USE_GRALLOC1 I915_SCANOUT_Y_TILED BO_USE_RENDER_MASK
            BO_USE_TEXTURE_MASK BO_USE_SW_MASK TWO_GPU_IGPU_DGPU
            THREE_GPU_IGPU_VIRTIO_DGPU cpu gpu_grp_type i915)).
Proof.
  split; [reflexivity|].
  unfold i915_add_combinations. cbn [snd].
  set (is_kvm := negb _).
  destruct (x_tiled_masks_clear is_kvm (is_adlp i915)) as [Hxr Hxs].
  destruct (y_tiled_masks_clear is_kvm (is_adlp i915) gpu_grp_type) as [Hyr Hys].
  cbv zeta in Hxr, Hxs, Hyr, Hys.
  clearbody is_kvm.
  destruct USE_GRALLOC1, I915_SCANOUT_Y_TILED; cbn [app];
    repeat (apply Forall_cons_2);
    try apply Forall_nil_2;
    intros f Hf; simpl in Hf; try discriminate;
    injection Hf as <-; try assumption; reflexivity.
Qed.

End RegistryFacts.


Lemma unset_flags_testbit_low (f m n : Z) :
  0 <= n < 64 ->
  Z.testbit (unset_flags f m) n = Z.testbit f n && negb (Z.testbit m n).
Proof.
  intros Hn. unfold unset_flags.
  rewrite Z.land_spec, u64_lnot_testbit by lia.
  assert ((n <? 64) = true) as -> by (apply Z.ltb_lt; lia).
  now rewrite andb_true_r.
Qed.

Lemma i915_info_from_device_id_eq (i915 : i915_device) :
  device_id (i915_info_from_device_id i915) = device_id i915 /\
  has_llc (i915_info_from_device_id i915) = has_llc i915.
Proof.
  unfold i915_info_from_device_id. cbv zeta.
  destruct (existsb _ gen9_ids); [now split|].
  destruct (existsb _ adlp_ids); [now split|].
  destruct (existsb _ gen12_ids); now split.
Qed.

Section ScanoutFacts.

Variable USE_GRALLOC1 : bool.
Variable I915_SCANOUT_Y_TILED : bool.
Variable BO_USE_RENDER_MASK : Z.
Variable BO_USE_TEXTURE_MASK : Z.
Variable BO_USE_SW_MASK : Z.
Variable TWO_GPU_IGPU_DGPU : Z.
Variable THREE_GPU_IGPU_VIRTIO_DGPU : Z.

Local Arguments x_tiled_masks : simpl never.
Local Arguments y_tiled_masks : simpl never.
Local Arguments linear_masks : simpl never.

Lemma linear_masks_scanout :
  Z.testbit (snd (linear_masks USE_GRALLOC1 BO_USE_RENDER_MASK)) 0 = true.
Proof.
  unfold linear_masks. cbn [snd]. rewrite Z.lor_spec.
  change (Z.testbit BO_USE_SCANOUT 0) with true. apply orb_true_r.
Qed.

Lemma x_tiled_masks_scanout (is_kvm is_adlp : bool) :
  Z.testbit (snd (x_tiled_masks USE_GRALLOC1 BO_USE_RENDER_MASK is_kvm is_adlp)) 0
  = negb (is_kvm && is_adlp).
Proof.
  pose proof linear_masks_scanout as Hl.
  unfold x_tiled_masks. destruct (linear_masks _ _) as [render sar].
  cbn [snd] in *.
  destruct (is_kvm && is_adlp); rewrite !unset_flags_testbit_low, Hl by lia;
    reflexivity.
Qed.

Lemma y_tiled_masks_scanout (is_kvm is_adlp : bool) (gpu_grp_type : Z) :
  Z.testbit (snd (y_tiled_masks USE_GRALLOC1 BO_USE_RENDER_MASK TWO_GPU_IGPU_DGPU
                    THREE_GPU_IGPU_VIRTIO_DGPU is_kvm is_adlp gpu_grp_type)) 0
  = negb (is_kvm && is_adlp)
    && negb ((gpu_grp_type =? TWO_GPU_IGPU_DGPU)
             || (gpu_grp_type =? THREE_GPU_IGPU_VIRTIO_DGPU)).
Proof.
  pose proof (x_tiled_masks_scanout is_kvm is_adlp) as Hx.
  unfold y_tiled_masks. destruct (x_tiled_masks _ _ _ _) as [render sar].
  cbn [snd] in *.
  destruct (_ || _); rewrite !unset_flags_testbit_low, Hx by lia;
    cbn; now rewrite ?andb_true_r, ?andb_false_r.
Qed.

(** X6. Which entries for the scanout-and-render formats offer
    [BO_USE_SCANOUT] (bit 0 of the usage flags): the linear entry
    always; the X-tiled entry unless the guest runs under KVM on an
    ADL-P device; the Y-tiled entry unless that holds or the GPU
    topology has a discrete GPU. *)
Theorem i915_add_combinations_scanout (cpu : cpuid_answers) (gpu_grp_type : Z)
    (i915 : i915_device) (metadata : format_metadata) (use_flags : Z) :
  In (drv_add_combinations scanout_render_formats metadata use_flags)
     (snd (i915_add_combinations USE_GRALLOC1 I915_SCANOUT_Y_TILED BO_USE_RENDER_MASK
             BO_USE_TEXTURE_MASK BO_USE_SW_MASK TWO_GPU_IGPU_DGPU
             THREE_GPU_IGPU_VIRTIO_DGPU cpu gpu_grp_type i915)) ->
  let is_kvm := negb (Z.land (vm_type cpu) HYPERTYPE_TYPE_KVM =? 0) in
  let dgpu := (gpu_grp_type =? TWO_GPU_IGPU_DGPU)
              || (gpu_grp_type =? THREE_GPU_IGPU_VIRTIO_DGPU) in
  Z.testbit use_flags 0 =
  if fm_tiling metadata =? I915_TILING_NONE then true
  else if fm_tiling metadata =? I915_TILING_X then negb (is_kvm && is_adlp i915)
  else negb (is_kvm && is_adlp i915) && negb dgpu.
Proof.
  intros H is_kvm dgpu. subst dgpu.
  unfold i915_add_combinations in H. cbn [snd] in H. fold is_kvm in H.
  pose proof linear_masks_scanout as Hl.
  pose proof (x_tiled_masks_scanout is_kvm (is_adlp i915)) as Hx.
  pose proof (y_tiled_masks_scanout is_kvm (is_adlp i915) gpu_grp_type) as Hy.
  clearbody is_kvm.
  destruct USE_GRALLOC1, I915_SCANOUT_Y_TILED; simpl in H;
    repeat (destruct H as [H|H]; [try discriminate H|]); try contradiction;
    try (injection H as <- <-; first [exact Hl | exact Hx | exact Hy]).
Qed.

Definition outstanding (events : list alloc_event) : Z :=
  fold_left (fun n e => match e with Ev_calloc => n + 1 | Ev_free => n - 1 end) events 0.

(** X7. [i915_init] succeeds exactly when [calloc] and both GETPARAM
    queries succeed; it answers -ENOMEM exactly when [calloc] fails and
    -EINVAL when a query fails. On failure the driver keeps no private
    data, nothing is registered and the device record has been freed; on
    success the private data holds the kernel's chipset id and LLC
    answer with the generation derived from the id, one allocation is
    outstanding, and [i915_close] releases it. *)
Theorem i915_init_result (i915_private_init : Z * Z) (A : init_answers)
    (cpu : cpuid_answers) (gpu_grp_type : Z) :
  let '(ret, priv, events, calls) :=
    i915_init USE_GRALLOC1 I915_SCANOUT_Y_TILED BO_USE_RENDER_MASK BO_USE_TEXTURE_MASK
      BO_USE_SW_MASK TWO_GPU_IGPU_DGPU THREE_GPU_IGPU_VIRTIO_DGPU i915_private_init
      A cpu gpu_grp_type in
  (ret = 0 <-> calloc_ok A = true /\ fst (param_chipset_id A) = 0
               /\ fst (param_has_llc A) = 0) /\
  (ret = - ENOMEM <-> calloc_ok A = false) /\
  (ret = 0 \/ ret = - ENOMEM \/ ret = - EINVAL) /\
  (ret <> 0 -> priv = None /\ calls = [] /\ outstanding events = 0) /\
  (ret = 0 ->
   exists p, priv = Some p /\
     device_id (priv_device p) = snd (param_chipset_id A) /\
     has_llc (priv_device p) = snd (param_has_llc A) /\
     gen (priv_device p)
     = gen (i915_info_from_device_id
              (mk_i915_device 0 0 (snd (param_chipset_id A)) false)) /\
     outstanding events = 1 /\
     outstanding (events ++ snd (i915_close priv)) = 0).
Proof.
  unfold i915_init.
  destruct (calloc_ok A); cbn [negb].
  2:{ repeat split; try discriminate; try tauto; try (now right; left);
      intros; try discriminate; intuition discriminate. }
  destruct (param_chipset_id A) as [r1 v1]. cbn [fst snd].
  destruct (r1 =? 0) eqn:E1; cbn [negb].
  2:{ apply Z.eqb_neq in E1.
      repeat split; try discriminate; try tauto; try (now right; right);
      intros; try discriminate; intuition discriminate. }
  apply Z.eqb_eq in E1. subst r1.
  destruct (param_has_llc A) as [r2 v2]. cbn [fst snd].
  destruct (r2 =? 0) eqn:E2; cbn [negb].
  2:{ apply Z.eqb_neq in E2.
      repeat split; try discriminate; try tauto; try (now right; right);
      intros; try discriminate; intuition discriminate. }
  apply Z.eqb_eq in E2. subst r2.
  unfold i915_add_combinations.
  repeat split; try discriminate; try tauto; try (now left).
  intros _. eexists. split; [reflexivity|].
  cbn [priv_device device_id has_llc gen is_adlp].
  pose proof (i915_info_from_device_id_eq (mk_i915_device 0 0 v1 false)) as (Hid & _).
  cbn [device_id] in Hid. rewrite Hid. now repeat split.
Qed.

End ScanoutFacts.

End I915Device.

(** ** i915.c: import, mapping and cache maintenance *)

Module I915Map.

Import I915Kernel I915Device.

Definition I915_MMAP_WC : Z := 1.
Definition I915_GEM_DOMAIN_CPU : Z := 1.
Definition I915_GEM_DOMAIN_GTT : Z := 64.
Definition BO_MAP_WRITE : Z := Eval cbv in Z.shiftl 1 1.
(** [MAP_FAILED], the pointer of value -1, as a [uintptr_t]. *)
Definition MAP_FAILED : Z := Eval cbv in 2 ^ 64 - 1.

(** [struct vma] with the [map_flags] that [i915_bo_invalidate] reads. *)
Record mapped_vma := mk_mapped_vma {
  mv_vma : vma;
  mv_map_flags : Z
}.

(** Calls to the kernel and to the helpers of [drv.c] made while
    importing, mapping and invalidating. *)
Inductive map_event :=
| Ev_drv_prime_bo_import (ret : Z)
| Ev_drv_gem_bo_destroy
| DRM_IOCTL_I915_GEM_GET_TILING (handle : Z) (ret : Z)
| DRM_IOCTL_I915_GEM_MMAP (flags handle offset size : Z) (ret : Z)
| DRM_IOCTL_I915_GEM_MMAP_GTT (handle : Z) (ret : Z)
| Ev_mmap (length prot offset : Z) (ret : Z)
| DRM_IOCTL_I915_GEM_SET_DOMAIN (handle read_domains write_domain : Z) (ret : Z).

(** What the kernel answers: each ioctl its return value and the field
    it fills in, [mmap] the address or [MAP_FAILED]. *)
Record map_kernel := mk_map_kernel {
  gem_get_tiling : Z -> Z * Z;
  gem_mmap : Z -> Z -> Z -> Z -> Z * Z;
  gem_mmap_gtt : Z -> Z * Z;
  mmap : Z -> Z -> Z -> Z;
  gem_set_domain : Z -> Z -> Z -> Z
}.

Section Map.

(** [drv_prime_bo_import] and [drv_get_prot] of [helpers.c], not among
    the sources: the import fills the handles of the object and answers
    a status. *)
Variable drv_prime_bo_import : bo -> Gralloc.drv_import_fd_data -> Z * bo.
Variable drv_get_prot : Z -> Z.

(** [i915_bo_import], lines 523-545. *)
Definition i915_bo_import (K : map_kernel) (b : bo) (data : Gralloc.drv_import_fd_data)
  : Z * bo * list map_event :=
  let '(ret, b) := drv_prime_bo_import b data in
  if negb (ret =? 0) then (ret, b, [Ev_drv_prime_bo_import ret])
  else
    let handle := plane_get (handles b) 0 in
    let '(ret', tiling_mode) := gem_get_tiling K handle in
    if negb (ret' =? 0) then
      (ret', b, [Ev_drv_prime_bo_import ret; DRM_IOCTL_I915_GEM_GET_TILING handle ret';
                 Ev_drv_gem_bo_destroy])
    else
      (0, set_tiling b tiling_mode,
       [Ev_drv_prime_bo_import ret; DRM_IOCTL_I915_GEM_GET_TILING handle ret']).

(** The [gem_map.flags] both [DRM_IOCTL_I915_GEM_MMAP] requests of
    [i915_bo_map] are given. *)
Definition gem_map_flags (b : bo) : Z :=
  if negb (Z.land (meta_use_flags (meta b)) BO_USE_SCANOUT =? 0)
     && (Z.land (meta_use_flags (meta b))
           (Z.lor BO_USE_RENDERSCRIPT (Z.lor BO_USE_CAMERA_READ BO_USE_CAMERA_WRITE)) =? 0)
  then I915_MMAP_WC
  else 0.

Definition set_length (v : mapped_vma) (length : Z) : mapped_vma :=
  mk_mapped_vma (mk_vma (vma_addr (mv_vma v)) length) (mv_map_flags v).

(** [i915_bo_map], lines 547-624: the address returned, the [vma] as
    the call leaves it and the calls made. [plane] is not read. *)
Definition i915_bo_map (K : map_kernel) (b : bo) (v : mapped_vma) (plane : nat)
    (map_flags : Z) : Z * mapped_vma * list map_event :=
  let handle := plane_get (handles b) 0 in
  let total_size := meta_total_size (meta b) in
  if plane_get (meta_format_modifiers (meta b)) 0 =? I915_FORMAT_MOD_Y_TILED_CCS then
    (MAP_FAILED, v, [])
  else if meta_tiling (meta b) =? I915_TILING_NONE then
    let '(ret, addr_ptr) := gem_mmap K (gem_map_flags b) handle 0 total_size in
    let evs := [DRM_IOCTL_I915_GEM_MMAP (gem_map_flags b) handle 0 total_size ret] in
    if negb (ret =? 0) then (MAP_FAILED, v, evs)
    else
      let addr := u64 addr_ptr in
      if addr =? MAP_FAILED then (addr, v, evs)
      else (addr, set_length v total_size, evs)
  else
    let '(ret, offset) := gem_mmap_gtt K handle in
    if negb (ret =? 0) then
      let '(ret', addr_ptr) := gem_mmap K (gem_map_flags b) handle 0 total_size in
      let evs := [DRM_IOCTL_I915_GEM_MMAP_GTT handle ret;
                  DRM_IOCTL_I915_GEM_MMAP (gem_map_flags b) handle 0 total_size ret'] in
      if negb (ret' =? 0) then (MAP_FAILED, v, evs)
      else (u64 addr_ptr, set_length v total_size, evs)
    else
      let addr := mmap K total_size (drv_get_prot map_flags) offset in
      let evs := [DRM_IOCTL_I915_GEM_MMAP_GTT handle ret;
                  Ev_mmap total_size (drv_get_prot map_flags) offset addr] in
      if addr =? MAP_FAILED then (addr, v, evs)
      else (addr, set_length v total_size, evs).

(** [i915_bo_invalidate], lines 626-650. *)
Definition i915_bo_invalidate (K : map_kernel) (b : bo) (v : mapped_vma)
  : Z * list map_event :=
  let handle := plane_get (handles b) 0 in
  let domain :=
    if meta_tiling (meta b) =? I915_TILING_NONE then I915_GEM_DOMAIN_CPU
    else I915_GEM_DOMAIN_GTT in
  let write_domain :=
    if negb (Z.land (mv_map_flags v) BO_MAP_WRITE =? 0) then domain else 0 in
  let ret := gem_set_domain K handle domain write_domain in
  (ret, [DRM_IOCTL_I915_GEM_SET_DOMAIN handle domain write_domain ret]).

End Map.


(** *** Properties of import, mapping and cache maintenance *)

(** Imported objects a log leaves alive. *)
Definition objects_held (events : list map_event) : Z :=
  fold_left (fun n e => match e with
                        | Ev_drv_prime_bo_import 0 => n + 1
                        | Ev_drv_gem_bo_destroy => n - 1
                        | _ => n
                        end) events 0.

Section ImportFacts.

Variable drv_prime_bo_import : bo -> Gralloc.drv_import_fd_data -> Z * bo.

(** X8. [i915_bo_import] answers 0 exactly when the prime import and
    the tiling query both succeed; the object then carries the tiling
    mode the kernel reports, whatever the handle metadata said, and is
    otherwise as the import left it. When the tiling query fails the
    object just imported is destroyed again and the kernel's status is
    returned; when the import fails nothing is held either. *)
Theorem i915_bo_import_result (K : map_kernel) (b : bo)
    (data : Gralloc.drv_import_fd_data) :
  let '(ret, b', events) := i915_bo_import drv_prime_bo_import K b data in
  let r1 := fst (drv_prime_bo_import b data) in
  let b1 := snd (drv_prime_bo_import b data) in
  let answer := gem_get_tiling K (plane_get (handles b1) 0) in
  (ret = 0 <-> r1 = 0 /\ fst answer = 0) /\
  (ret = 0 -> b' = set_tiling b1 (snd answer) /\ objects_held events = 1) /\
  (ret <> 0 -> b' = b1 /\ objects_held events = 0
               /\ ret = (if r1 =? 0 then fst answer else r1)).
Proof.
  unfold i915_bo_import.
  destruct (drv_prime_bo_import b data) as [r1 b1]. cbn [fst snd].
  destruct (Z.eqb_spec r1 0) as [-> | Hr1]; cbn [negb].
  - destruct (gem_get_tiling K (plane_get (handles b1) 0)) as [r2 t]. cbn [fst snd].
    destruct (Z.eqb_spec r2 0) as [-> | Hr2]; cbn [negb].
    + repeat split; congruence.
    + repeat split; try reflexivity; try tauto; try (intros; exfalso; tauto).
  - repeat split; try tauto; try (intros; exfalso; tauto).
    unfold objects_held. cbn. destruct r1; try reflexivity. contradiction.
Qed.

End ImportFacts.

Section MapFacts.

Variable drv_get_prot : Z -> Z.

Lemma gem_map_flags_wc (b : bo) :
  gem_map_flags b
  = if Z.testbit (meta_use_flags (meta b)) 0
       && negb (Z.testbit (meta_use_flags (meta b)) 16
                || Z.testbit (meta_use_flags (meta b)) 7
                || Z.testbit (meta_use_flags (meta b)) 6)
    then I915_MMAP_WC else 0.
Proof.
  unfold gem_map_flags. set (u := meta_use_flags (meta b)).
  assert (H0 : (Z.land u BO_USE_SCANOUT =? 0) = negb (Z.testbit u 0)).
  { change BO_USE_SCANOUT with (Z.ones 1). rewrite Z.land_ones by lia.
    change (2 ^ 1) with 2. rewrite <- Z.bit0_mod.
    destruct (Z.testbit u 0); reflexivity. }
  assert (H1 : (Z.land u (Z.lor BO_USE_RENDERSCRIPT
                            (Z.lor BO_USE_CAMERA_READ BO_USE_CAMERA_WRITE)) =? 0)
               = negb (Z.testbit u 16 || Z.testbit u 7 || Z.testbit u 6)).
  { destruct (Z.eqb_spec (Z.land u (Z.lor BO_USE_RENDERSCRIPT
                            (Z.lor BO_USE_CAMERA_READ BO_USE_CAMERA_WRITE))) 0) as [E | E].
    - symmetry. apply negb_true_iff.
      assert (Hb : forall n, 0 <= n ->
                Z.testbit u n && Z.testbit (Z.lor BO_USE_RENDERSCRIPT
                            (Z.lor BO_USE_CAMERA_READ BO_USE_CAMERA_WRITE)) n = false).
      { intros n Hn. rewrite <- Z.land_spec, E. apply Z.bits_0. }
      pose proof (Hb 16 ltac:(lia)) as H16. pose proof (Hb 7 ltac:(lia)) as H7.
      pose proof (Hb 6 ltac:(lia)) as H6.
      change (Z.testbit _ 16) with true in H16 at 2.
      change (Z.testbit _ 7) with true in H7 at 2.
      change (Z.testbit _ 6) with true in H6 at 2.
      rewrite andb_true_r in H16, H7, H6. now rewrite H16, H7, H6.
    - symmetry. apply negb_false_iff.
      destruct (Z.testbit u 16) eqn:H16; [reflexivity|].
      destruct (Z.testbit u 7) eqn:H7; [reflexivity|].
      destruct (Z.testbit u 6) eqn:H6; [reflexivity|].
      exfalso. apply E. apply Z.bits_inj'. intros n Hn.
      rewrite Z.land_spec, Z.bits_0.
      destruct (Z.eq_dec n 16) as [-> | N16]; [now rewrite H16|].
      destruct (Z.eq_dec n 7) as [-> | N7]; [now rewrite H7|].
      destruct (Z.eq_dec n 6) as [-> | N6]; [now rewrite H6|].
      assert (Z.testbit (Z.lor BO_USE_RENDERSCRIPT
                           (Z.lor BO_USE_CAMERA_READ BO_USE_CAMERA_WRITE)) n = false) as ->;
        [|apply andb_false_r].
      change (Z.lor _ _) with (Z.lor (2 ^ 16) (Z.lor (2 ^ 7) (2 ^ 6))).
      rewrite !Z.lor_spec, !Z.pow2_bits_eqb by lia.
      destruct (Z.eqb_spec 16 n), (Z.eqb_spec 7 n), (Z.eqb_spec 6 n);
        try reflexivity; lia. }
  rewrite H0, H1, negb_involutive. reflexivity.
Qed.

(** X9. Every request [i915_bo_map] sends names the kernel handle of
    plane 0 and the whole object (offset 0, [total_size] bytes). A
    [GEM_MMAP] request asks for write-combining exactly when the buffer
    is for scanout (bit 0) and for neither renderscript (bit 16) nor
    camera use (bits 6 and 7); the GTT path is taken for tiled buffers
    only; a buffer with the compressed Y-tiled modifier is refused
    without any request. *)
Theorem i915_bo_map_requests (K : map_kernel) (b : bo) (v : mapped_vma) (plane : nat)
    (map_flags : Z) :
  let '(addr, v', events) := i915_bo_map drv_get_prot K b v plane map_flags in
  let use := meta_use_flags (meta b) in
  let wc := Z.testbit use 0
            && negb (Z.testbit use 16 || Z.testbit use 7 || Z.testbit use 6) in
  Forall (fun e =>
            match e with
            | DRM_IOCTL_I915_GEM_MMAP flags handle offset size _ =>
                flags = (if wc then I915_MMAP_WC else 0)
                /\ handle = plane_get (handles b) 0
                /\ offset = 0 /\ size = meta_total_size (meta b)
            | DRM_IOCTL_I915_GEM_MMAP_GTT handle _ =>
                handle = plane_get (handles b) 0
                /\ meta_tiling (meta b) <> I915_TILING_NONE
            | Ev_mmap length prot _ _ =>
                length = meta_total_size (meta b) /\ prot = drv_get_prot map_flags
                /\ meta_tiling (meta b) <> I915_TILING_NONE
            | _ => False
            end) events
  /\ (plane_get (meta_format_modifiers (meta b)) 0 = I915_FORMAT_MOD_Y_TILED_CCS ->
      addr = MAP_FAILED /\ events = [] /\ v' = v)
  /\ (length events <= 2)%nat.
Proof.
  unfold i915_bo_map. rewrite <- gem_map_flags_wc.
  destruct (Z.eqb_spec (plane_get (meta_format_modifiers (meta b)) 0)
              I915_FORMAT_MOD_Y_TILED_CCS) as [Hccs | Hccs].
  { cbv zeta. split; [apply Forall_nil_2|]. split; [tauto | cbn; lia]. }
  destruct (Z.eqb_spec (meta_tiling (meta b)) I915_TILING_NONE) as [Ht | Ht].
  - destruct (gem_mmap K _ _ _ _) as [ret p].
    destruct (negb (ret =? 0)); [|destruct (u64 p =? MAP_FAILED)]; cbv zeta;
      (split; [repeat apply Forall_cons_2; try apply Forall_nil_2; now repeat split|];
       split; [intros; contradiction | cbn; lia]).
  - destruct (gem_mmap_gtt K _) as [ret off].
    destruct (negb (ret =? 0)).
    + destruct (gem_mmap K _ _ _ _) as [ret' p].
      destruct (negb (ret' =? 0)); cbv zeta;
        (split; [repeat apply Forall_cons_2; try apply Forall_nil_2; now repeat split|];
         split; [intros; contradiction | cbn; lia]).
    + destruct (mmap K _ _ _ =? MAP_FAILED); cbv zeta;
        (split; [repeat apply Forall_cons_2; try apply Forall_nil_2; now repeat split|];
         split; [intros; contradiction | cbn; lia]).
Qed.

(** X10. [i915_bo_map] records the mapped length only on success: when
    the kernel never reports a successful [GEM_MMAP] at the address of
    [MAP_FAILED], a failed call leaves the [vma] as it was and a
    successful one sets its length to the object's [total_size]; the
    address field and the map flags of the [vma] are never written. *)
Theorem i915_bo_map_vma (K : map_kernel) (b : bo) (v : mapped_vma) (plane : nat)
    (map_flags : Z) :
  (forall flags handle offset size,
     fst (gem_mmap K flags handle offset size) = 0 ->
     u64 (snd (gem_mmap K flags handle offset size)) <> MAP_FAILED) ->
  let '(addr, v', events) := i915_bo_map drv_get_prot K b v plane map_flags in
  (addr = MAP_FAILED -> v' = v)
  /\ (addr <> MAP_FAILED -> vma_length (mv_vma v') = meta_total_size (meta b))
  /\ vma_addr (mv_vma v') = vma_addr (mv_vma v)
  /\ mv_map_flags v' = mv_map_flags v.
Proof.
  intros HK. unfold i915_bo_map.
  destruct (Z.eqb_spec (plane_get (meta_format_modifiers (meta b)) 0)
              I915_FORMAT_MOD_Y_TILED_CCS) as [Hccs | Hccs].
  { repeat split; tauto. }
  destruct (Z.eqb_spec (meta_tiling (meta b)) I915_TILING_NONE) as [Ht | Ht].
  - pose proof (HK (gem_map_flags b) (plane_get (handles b) 0) 0
                  (meta_total_size (meta b))) as Hk.
    destruct (gem_mmap K _ _ _ _) as [ret p]. cbn [fst snd] in Hk.
    destruct (Z.eqb_spec ret 0) as [-> | Hr]; cbn [negb]; [|repeat split; tauto].
    destruct (Z.eqb_spec (u64 p) MAP_FAILED) as [E | E]; cbv zeta.
    + repeat split; tauto.
    + repeat split; try reflexivity; intros; tauto.
  - destruct (gem_mmap_gtt K _) as [ret off].
    destruct (Z.eqb_spec ret 0) as [-> | Hr]; cbn [negb].
    + destruct (Z.eqb_spec (mmap K (meta_total_size (meta b)) (drv_get_prot map_flags) off)
                  MAP_FAILED) as [E | E]; cbv zeta.
      * repeat split; tauto.
      * repeat split; try reflexivity; intros; tauto.
    + pose proof (HK (gem_map_flags b) (plane_get (handles b) 0) 0
                    (meta_total_size (meta b))) as Hk.
      destruct (gem_mmap K _ _ _ _) as [ret' p]. cbn [fst snd] in Hk.
      destruct (Z.eqb_spec ret' 0) as [-> | Hr']; cbn [negb]; cbv zeta.
      * repeat split; try reflexivity; intros; exfalso; tauto.
      * repeat split; tauto.
Qed.

(** X11. A tiled buffer whose GTT mapping the kernel refuses is mapped
    through the CPU path instead, yet the later cache maintenance still
    treats it as a GTT mapping: [i915_bo_invalidate] asks for the GTT
    domain and [i915_bo_flush] flushes no cache line, even on a device
    without a shared last-level cache. *)
Theorem tiled_cpu_fallback (K : map_kernel) (i915 : i915_device) (b : bo)
    (v : mapped_vma) (plane : nat) (map_flags addr_ptr : Z) :
  plane_get (meta_format_modifiers (meta b)) 0 <> I915_FORMAT_MOD_Y_TILED_CCS ->
  meta_tiling (meta b) <> I915_TILING_NONE ->
  fst (gem_mmap_gtt K (plane_get (handles b) 0)) <> 0 ->
  gem_mmap K (gem_map_flags b) (plane_get (handles b) 0) 0 (meta_total_size (meta b))
  = (0, addr_ptr) ->
  exists r,
    i915_bo_map drv_get_prot K b v plane map_flags
    = (u64 addr_ptr, set_length v (meta_total_size (meta b)),
       [DRM_IOCTL_I915_GEM_MMAP_GTT (plane_get (handles b) 0) r;
        DRM_IOCTL_I915_GEM_MMAP (gem_map_flags b) (plane_get (handles b) 0) 0
          (meta_total_size (meta b)) 0])
    /\ r <> 0
    /\ (forall v', exists w ret,
          i915_bo_invalidate K b v'
          = (ret, [DRM_IOCTL_I915_GEM_SET_DOMAIN (plane_get (handles b) 0)
                     I915_GEM_DOMAIN_GTT w ret]))
    /\ forall fuel m, i915_bo_flush fuel i915 b m = Some (0, []).
Proof.
  intros Hccs Ht Hgtt Hmap.
  exists (fst (gem_mmap_gtt K (plane_get (handles b) 0))).
  unfold i915_bo_map, i915_bo_invalidate, i915_bo_flush.
  destruct (Z.eqb_spec (plane_get (meta_format_modifiers (meta b)) 0)
              I915_FORMAT_MOD_Y_TILED_CCS) as [? | _]; [contradiction|].
  destruct (Z.eqb_spec (meta_tiling (meta b)) I915_TILING_NONE) as [? | _];
    [contradiction|].
  destruct (gem_mmap_gtt K _) as [ret off]. cbn [fst] in *.
  destruct (Z.eqb_spec ret 0) as [? | _]; [contradiction|]. cbn [negb].
  rewrite Hmap. cbn [negb Z.eqb]. cbv zeta.
  split; [reflexivity|]. split; [assumption|]. split.
  - intros v'. eexists _, _. reflexivity.
  - intros fuel m. now rewrite andb_false_r.
Qed.

End MapFacts.

Lemma clflush_loop_more_fuel fuel : forall p end_ ops fuel',
  clflush_loop fuel p end_ = Some ops -> (fuel <= fuel')%nat ->
  clflush_loop fuel' p end_ = Some ops.
Proof.
  induction fuel as [| fuel IH]; intros p end_ ops fuel' H Hle.
  - simpl in H. destruct (p <? end_) eqn:E; [discriminate|].
    destruct fuel'; simpl; now rewrite E.
  - destruct fuel' as [| fuel']; [lia|].
    simpl in *. destruct (p <? end_) eqn:E; [|exact H].
    destruct (clflush_loop fuel _ end_) as [ops'|] eqn:E'; [|discriminate].
    now rewrite (IH _ _ _ fuel' E') by lia.
Qed.

(** With less fuel than lines to flush the loop does not end. *)
Lemma clflush_loop_short end_ fuel : forall p k,
  (fuel < k)%nat -> 0 <= p ->
  p + I915_CACHELINE_SIZE * Z.of_nat k <= 2 ^ 64 ->
  p + I915_CACHELINE_SIZE * (Z.of_nat k - 1) < end_ ->
  clflush_loop fuel p end_ = None.
Proof.
  unfold I915_CACHELINE_SIZE.
  induction fuel as [| f IH]; intros p k Hk Hp Htop Hlast.
  - simpl. assert ((p <? end_) = true) as -> by (apply Z.ltb_lt; lia).
    reflexivity.
  - simpl. assert ((p <? end_) = true) as -> by (apply Z.ltb_lt; lia).
    destruct k as [| k]; [lia|].
    unfold I915_CACHELINE_SIZE, u64. rewrite Z.mod_small by lia.
    rewrite (IH (p + 64) k) by lia. reflexivity.
Qed.

(** X12. [i915_clflush] returns, and flushes nothing outside the range
    it is given: for a range that ends at least one cache line (64
    bytes) below the top of the address space, the loop ends after
    [n = ceil((start + size - line) / 64)] rounds, where [line], the
    line of [start], is [start] rounded down to a multiple of 64. Run
    for at least [n] rounds the call has issued one fence followed by
    one flush for each of the [n] cache lines [line], [line + 64], ...
    in this order; cut short before that it has not returned. Every
    flushed address is a multiple of 64 that lies at or above [line] and
    below [start + size]. *)
Theorem i915_clflush_within (fuel : nat) (start size : Z) :
  0 <= start -> 0 <= size -> start + size <= 2 ^ 64 - 64 ->
  let line := 64 * (start / 64) in
  let n := Z.to_nat (ceil_div (start + size - line) 64) in
  i915_clflush fuel start size
  = (if (n <=? fuel)%nat then Some (Mfence :: flush_lines line n) else None)
  /\ length (flush_lines line n) = n
  /\ (forall i, (i < n)%nat ->
        nth_error (flush_lines line n) i = Some (Clflush (line + 64 * Z.of_nat i)))
  /\ forall p, In (Clflush p) (flush_lines line n) ->
       p mod 64 = 0 /\ line <= p < start + size.
Proof.
  intros Hs Hz Htop l n.
  assert (Hline : l = line_of start).
  { unfold l, line_of, I915_CACHELINE_SIZE.
    pose proof (Z.div_mod start 64 ltac:(lia)). lia. }
  assert (Hl : 0 <= l <= start /\ l mod 64 = 0).
  { unfold l. pose proof (Z.mod_pos_bound start 64 ltac:(lia)).
    pose proof (Z.div_mod start 64 ltac:(lia)). split; [lia|].
    rewrite Z.mul_comm. apply Z.mod_mul. lia. }
  destruct Hl as (Hl & Hlm).
  assert (Hq : 0 <= ceil_div (start + size - l) 64)
    by (unfold ceil_div; apply Z.div_pos; lia).
  pose proof (Z.div_mod (start + size - l + 64 - 1) 64 ltac:(lia)) as Hdm.
  pose proof (Z.mod_pos_bound (start + size - l + 64 - 1) 64 ltac:(lia)) as Hmb.
  fold (ceil_div (start + size - l) 64) in Hdm.
  assert (Hn : Z.of_nat n = ceil_div (start + size - l) 64) by (unfold n; lia).
  split; [| split; [| split]].
  - unfold i915_clflush.
    rewrite (cacheline_floor start), <- Hline by lia.
    unfold u64. rewrite (Z.mod_small (start + size)) by lia.
    destruct (Nat.leb_spec n fuel) as [Hle | Hlt].
    + rewrite (clflush_loop_lines n fuel l (start + size));
        unfold I915_CACHELINE_SIZE; try lia. reflexivity.
    + rewrite (clflush_loop_short (start + size) fuel l n);
        unfold I915_CACHELINE_SIZE; try lia. reflexivity.
  - unfold flush_lines. now rewrite length_map, length_seq.
  - intros i Hi. unfold flush_lines.
    rewrite nth_error_map, nth_error_seq.
    assert ((i <? n)%nat = true) as -> by (apply Nat.ltb_lt; exact Hi).
    reflexivity.
  - intros p Hp.
    unfold flush_lines in Hp. apply in_map_iff in Hp as (i & Hi & Hin).
    injection Hi as <-. apply in_seq in Hin. unfold I915_CACHELINE_SIZE.
    split.
    + rewrite (Z.mul_comm 64 (Z.of_nat i)), Z.mod_add by lia. exact Hlm.
    + lia.
Qed.

(** X13. A range whose end lies in the last cache line of the address
    space makes the loop of [i915_clflush] run for ever: the line
    pointer wraps around to 0 before it can reach the end, so no amount
    of fuel lets the call return. *)
Theorem i915_clflush_top_of_memory (fuel : nat) (start size : Z) :
  0 <= start < 2 ^ 64 ->
  2 ^ 64 - I915_CACHELINE_SIZE < u64 (start + size) ->
  i915_clflush fuel start size = None.
Proof.
  intros Hs Hend. unfold i915_clflush.
  rewrite (cacheline_floor start) by lia.
  assert (Hloop : forall f p, 0 <= p < 2 ^ 64 -> p mod 64 = 0 ->
            clflush_loop f p (u64 (start + size)) = None).
  { unfold I915_CACHELINE_SIZE in *.
    induction f as [| f IH]; intros p Hp Hpm.
    - simpl.
      assert (p <= 2 ^ 64 - 64).
      { pose proof (Z.div_mod p 64 ltac:(lia)).
        assert (p / 64 < 2 ^ 58) by (apply Z.div_lt_upper_bound; lia).
        change (2 ^ 64) with (64 * 2 ^ 58). lia. }
      assert ((p <? u64 (start + size)) = true) as -> by (apply Z.ltb_lt; lia).
      reflexivity.
    - simpl.
      assert (p <= 2 ^ 64 - 64).
      { pose proof (Z.div_mod p 64 ltac:(lia)).
        assert (p / 64 < 2 ^ 58) by (apply Z.div_lt_upper_bound; lia).
        change (2 ^ 64) with (64 * 2 ^ 58). lia. }
      assert ((p <? u64 (start + size)) = true) as -> by (apply Z.ltb_lt; lia).
      rewrite IH; [reflexivity | unfold u64; apply Z.mod_pos_bound; lia |].
      unfold I915_CACHELINE_SIZE, u64.
      rewrite (Z.mod_mod_divide (p + 64) (2 ^ 64) 64)
        by (exists (2 ^ 58); reflexivity).
      rewrite <- Z.add_mod_idemp_l, Hpm by lia. reflexivity. }
  rewrite Hloop; [reflexivity | |].
  - unfold line_of, I915_CACHELINE_SIZE.
    pose proof (Z.mod_pos_bound start 64 ltac:(lia)).
    pose proof (Z.div_mod start 64 ltac:(lia)).
    assert (0 <= start / 64) by (apply Z.div_pos; lia). lia.
  - unfold line_of, I915_CACHELINE_SIZE.
    pose proof (Z.div_mod start 64 ltac:(lia)).
    replace (start - start mod 64) with (start / 64 * 64) by lia.
    apply Z.mod_mul. lia.
Qed.

End I915Map.

(** ** i915.c: more about the layout engine and object creation *)

Module I915Facts.

Import I915 I915Kernel I915Device I915Map.

Section LayoutFacts.

Variable USE_GRALLOC1 : bool.
Variable pagesize : Z.
Variable drv_num_planes_from_format : Z -> nat.
Variable drv_stride_from_format : Z -> Z -> nat -> Z.
Variable drv_height_from_format : Z -> Z -> nat -> Z.
Variable drv_bo_from_format : bo -> Z -> Z -> Z -> bo.
Variable drv_get_combination : Z -> Z -> option format_metadata.
Variable drv_pick_modifier : list Z -> list Z -> Z.
Variable drv_get_prot : Z -> Z.

Local Arguments vinsert : simpl never.

Lemma from_format_step_modifiers w h f b off p b' off' :
  from_format_step USE_GRALLOC1 pagesize drv_stride_from_format drv_height_from_format
    w h f b off p = Some (b', off') ->
  meta_format_modifiers (meta b') = meta_format_modifiers (meta b)
  /\ meta_num_planes (meta b') = meta_num_planes (meta b)
  /\ handles b' = handles b.
Proof.
  unfold from_format_step.
  destruct (_ && _); [discriminate|].
  rewrite i915_align_dimensions_eq.
  destruct (plane_set (meta_strides (meta b)) p _) as [st|]; [|discriminate]. simpl.
  destruct (plane_set (meta_sizes (meta b)) p _) as [sz|]; [|discriminate]. simpl.
  destruct (plane_set (meta_offsets (meta b)) p off) as [os|]; [|discriminate]. simpl.
  intros [= <- <-]. now repeat split.
Qed.

Lemma from_format_loop_modifiers w h f n : forall p b off b' off',
  from_format_loop USE_GRALLOC1 pagesize drv_stride_from_format drv_height_from_format
    w h f n p b off = Some (b', off') ->
  meta_format_modifiers (meta b') = meta_format_modifiers (meta b)
  /\ meta_num_planes (meta b') = meta_num_planes (meta b)
  /\ handles b' = handles b.
Proof.
  induction n as [| n IH]; intros p b off b' off' H; simpl in H.
  - injection H as <- <-. now repeat split.
  - destruct (from_format_step _ _ _ _ w h f b off p) as [[b1 off1]|] eqn:Hstep;
      [|discriminate].
    apply from_format_step_modifiers in Hstep as (Hm & Hn & Hh).
    apply IH in H as (Hm' & Hn' & Hh'). repeat split; congruence.
Qed.

Lemma i915_bo_from_format_modifiers b w h f r b' :
  i915_bo_from_format USE_GRALLOC1 pagesize drv_num_planes_from_format
    drv_stride_from_format drv_height_from_format b w h f = Some (r, b') ->
  meta_format_modifiers (meta b') = meta_format_modifiers (meta b)
  /\ meta_num_planes (meta b') = meta_num_planes (meta b)
  /\ handles b' = handles b.
Proof.
  unfold i915_bo_from_format.
  destruct (from_format_loop _ _ _ _ w h f _ 0 b 0) as [[b1 off1]|] eqn:Hloop;
    [|discriminate].
  intros [= <- <-]. apply from_format_loop_modifiers in Hloop. exact Hloop.
Qed.

(** X14. The per-plane path of the layout engine always returns, with
    status 0, for a format of at most [DRV_MAX_PLANES] planes: for a
    linear buffer without further condition, and for an X- or Y-tiled
    buffer whose stride is aligned (every format but R8 in
    [USE_GRALLOC1] builds) when the page size is a power of two up to
    4096, because every plane then ends on a page boundary and the
    [assert] on the running offset cannot fire. *)
Theorem i915_bo_from_format_returns (b : bo) (w h f k : Z) :
  (drv_num_planes_from_format f <= DRV_MAX_PLANES)%nat ->
  meta_tiling (meta b) = I915_TILING_NONE
  \/ ((meta_tiling (meta b) = I915_TILING_X \/ meta_tiling (meta b) = I915_TILING_Y)
      /\ 0 <= k <= 12 /\ pagesize = 2 ^ k
      /\ USE_GRALLOC1 && (meta_format (meta b) =? DRM_FORMAT_R8) = false) ->
  exists b',
    i915_bo_from_format USE_GRALLOC1 pagesize drv_num_planes_from_format
      drv_stride_from_format drv_height_from_format b w h f = Some (0, b')
    /\ meta_tiling (meta b') = meta_tiling (meta b)
    /\ meta_format_modifiers (meta b') = meta_format_modifiers (meta b).
Proof.
  intros Hn Hcase.
  assert (Hsome : is_Some (i915_bo_from_format USE_GRALLOC1 pagesize
                             drv_num_planes_from_format drv_stride_from_format
                             drv_height_from_format b w h f)).
  { destruct Hcase as [Hlin | (Ht & Hk & Hpg & Hex)].
    - now apply i915_bo_from_format_linear.
    - now apply (i915_bo_from_format_tiled _ _ _ _ _ b w h f k). }
  destruct Hsome as [[r b'] Hrun]. exists b'.
  pose proof (i915_bo_from_format_inv _ _ _ _ _ _ _ _ _ _ _ Hrun) as (-> & Ht & _).
  apply i915_bo_from_format_modifiers in Hrun as Hm.
  split; [exact Hrun|]. split; [exact Ht | apply Hm].
Qed.

Lemma u32_mul_4096_mod (x : Z) : u32 (x * 4096) mod 4096 = 0.
Proof.
  unfold u32. rewrite (Z.mod_mod_divide (x * 4096) (2 ^ 32) 4096)
    by (exists (2 ^ 20); reflexivity).
  apply Z.mod_mul. lia.
Qed.

Lemma u32_add_mod_4096 (x y : Z) :
  x mod 4096 = 0 -> y mod 4096 = 0 -> u32 (x + y) mod 4096 = 0.
Proof.
  intros Hx Hy. unfold u32.
  rewrite (Z.mod_mod_divide (x + y) (2 ^ 32) 4096) by (exists (2 ^ 20); reflexivity).
  rewrite Z.add_mod, Hx, Hy by lia. reflexivity.
Qed.

Lemma compute_metadata_ccs b w h f u mods :
  f <> DRM_FORMAT_YVU420_ANDROID ->
  choose_modifier drv_get_combination drv_pick_modifier f u mods
  = Some I915_FORMAT_MOD_Y_TILED_CCS ->
  i915_bo_compute_metadata USE_GRALLOC1 pagesize drv_num_planes_from_format
    drv_stride_from_format drv_height_from_format drv_bo_from_format
    drv_get_combination drv_pick_modifier b w h f u mods
  = Some (0, ccs_layout drv_stride_from_format
               (set_format_modifiers (set_tiling b I915_TILING_Y)
                  (vinsert 0%fin I915_FORMAT_MOD_Y_TILED_CCS
                     (meta_format_modifiers (meta b)))) w h f).
Proof.
  intros Hf Hm. unfold i915_bo_compute_metadata. rewrite Hm.
  destruct (Z.eqb_spec f DRM_FORMAT_YVU420_ANDROID) as [? | _]; [contradiction|].
  rewrite Z.eqb_refl. rewrite tiling_of_modifier_ccs. reflexivity.
Qed.

(** X15. The compressed layout keeps the control surface on a 4096-byte
    boundary, as the comment in the code promises, and does so even when
    the 32-bit sizes wrap: for a format other than the legacy Android
    planar one laid out with the compressed Y-tiled modifier, the call
    returns 0 with two planes, Y tiling and the modifier recorded, the
    main surface at offset 0, and both plane sizes, the offset of the
    control surface and the total size all multiples of 4096. *)
Theorem compute_metadata_ccs_aligned (b : bo) (w h f u : Z) (mods : option (list Z)) :
  f <> DRM_FORMAT_YVU420_ANDROID ->
  choose_modifier drv_get_combination drv_pick_modifier f u mods
  = Some I915_FORMAT_MOD_Y_TILED_CCS ->
  exists b',
    i915_bo_compute_metadata USE_GRALLOC1 pagesize drv_num_planes_from_format
      drv_stride_from_format drv_height_from_format drv_bo_from_format
      drv_get_combination drv_pick_modifier b w h f u mods = Some (0, b')
    /\ meta_num_planes (meta b') = 2%nat
    /\ meta_tiling (meta b') = I915_TILING_Y
    /\ plane_get (meta_format_modifiers (meta b')) 0 = I915_FORMAT_MOD_Y_TILED_CCS
    /\ offset_of b' 0 = 0
    /\ size_of b' 0 mod 4096 = 0
    /\ size_of b' 1 mod 4096 = 0
    /\ offset_of b' 1 mod 4096 = 0
    /\ meta_total_size (meta b') mod 4096 = 0.
Proof.
  intros Hf Hm. eexists. split; [now apply compute_metadata_ccs|].
  unfold ccs_layout, offset_of, size_of. simpl.
  rewrite !plane_get_two_0, !plane_get_two_1.
  split; [reflexivity|]. split; [reflexivity|].
  split; [apply (plane_get_set_eq (meta_format_modifiers (meta b)) 0); reflexivity|].
  split; [reflexivity|].
  split; [apply u32_mul_4096_mod|]. split; [apply u32_mul_4096_mod|].
  split.
  - apply u32_add_mod_4096; [reflexivity | apply u32_mul_4096_mod].
  - apply u32_add_mod_4096; [|apply u32_mul_4096_mod].
    apply u32_add_mod_4096; [reflexivity | apply u32_mul_4096_mod].
Qed.

(** X16. After a successful layout of a format other than the legacy
    Android planar one, the tiling mode recorded agrees with the
    modifier recorded in plane 0: linear means untiled, X-tiled means X
    tiling, Y-tiled and compressed Y-tiled mean Y tiling, and so do, in
    [USE_GRALLOC1] builds only, Yf-tiled and compressed Yf-tiled; any
    other modifier (the two Yf ones included in the other builds) is
    recorded as well but leaves the tiling mode the object had. *)
Theorem compute_metadata_tiling_matches_modifier (b : bo) (w h f u : Z)
    (mods : option (list Z)) (r : Z) (b' : bo) :
  f <> DRM_FORMAT_YVU420_ANDROID ->
  i915_bo_compute_metadata USE_GRALLOC1 pagesize drv_num_planes_from_format
    drv_stride_from_format drv_height_from_format drv_bo_from_format
    drv_get_combination drv_pick_modifier b w h f u mods = Some (r, b') ->
  r = 0 ->
  let modifier := plane_get (meta_format_modifiers (meta b')) 0 in
  choose_modifier drv_get_combination drv_pick_modifier f u mods = Some modifier
  /\ (modifier = DRM_FORMAT_MOD_LINEAR -> meta_tiling (meta b') = I915_TILING_NONE)
  /\ (modifier = I915_FORMAT_MOD_X_TILED -> meta_tiling (meta b') = I915_TILING_X)
  /\ (modifier = I915_FORMAT_MOD_Y_TILED \/ modifier = I915_FORMAT_MOD_Y_TILED_CCS ->
      meta_tiling (meta b') = I915_TILING_Y)
  /\ (USE_GRALLOC1 = true ->
      modifier = I915_FORMAT_MOD_Yf_TILED \/ modifier = I915_FORMAT_MOD_Yf_TILED_CCS ->
      meta_tiling (meta b') = I915_TILING_Y)
  /\ (modifier <> DRM_FORMAT_MOD_LINEAR -> modifier <> I915_FORMAT_MOD_X_TILED ->
      modifier <> I915_FORMAT_MOD_Y_TILED -> modifier <> I915_FORMAT_MOD_Y_TILED_CCS ->
      USE_GRALLOC1 = false
      \/ (modifier <> I915_FORMAT_MOD_Yf_TILED
          /\ modifier <> I915_FORMAT_MOD_Yf_TILED_CCS) ->
      meta_tiling (meta b') = meta_tiling (meta b)).
Proof.
  intros Hf Hrun Hr. unfold i915_bo_compute_metadata in Hrun.
  destruct (choose_modifier _ _ f u mods) as [m|] eqn:Hm.
  2:{ injection Hrun as <- <-. discriminate Hr. }
  destruct (Z.eqb_spec f DRM_FORMAT_YVU420_ANDROID) as [? | _]; [contradiction|].
  set (b1 := set_format_modifiers (set_tiling b _) _) in Hrun.
  assert (Hb1 : plane_get (meta_format_modifiers (meta b1)) 0 = m
                /\ meta_tiling (meta b1)
                   = tiling_of_modifier USE_GRALLOC1 m (meta_tiling (meta b))).
  { subst b1. simpl. split; [|reflexivity].
    apply (plane_get_set_eq (meta_format_modifiers (meta b)) 0 m). reflexivity. }
  destruct Hb1 as (Hmod & Htil).
  assert (Hres : plane_get (meta_format_modifiers (meta b')) 0 = m
                 /\ meta_tiling (meta b')
                    = tiling_of_modifier USE_GRALLOC1 m (meta_tiling (meta b))).
  { destruct (m =? I915_FORMAT_MOD_Y_TILED_CCS).
    - injection Hrun as <- <-. unfold ccs_layout. simpl.
      split; [exact Hmod | exact Htil].
    - destruct (i915_bo_from_format _ _ _ _ _ b1 w h f) as [[r1 b2]|] eqn:Hff;
        [|discriminate].
      injection Hrun as <- <-.
      pose proof (i915_bo_from_format_inv _ _ _ _ _ _ _ _ _ _ _ Hff) as (_ & Ht & _).
      apply i915_bo_from_format_modifiers in Hff as (Hmm & _).
      rewrite Hmm, Ht. split; [exact Hmod | exact Htil]. }
  destruct Hres as (Hmod' & Htil'). cbv zeta. rewrite Hmod'.
  split; [reflexivity|]. rewrite Htil'.
  split; [intros ->; reflexivity|].
  split; [intros ->; reflexivity|].
  split; [intros [-> | ->]; reflexivity|].
  split; [intros -> [-> | ->]; reflexivity|].
  intros H1 H2 H3 H4 H5. unfold tiling_of_modifier.
  destruct (Z.eqb_spec m DRM_FORMAT_MOD_LINEAR) as [? | _]; [contradiction|].
  destruct (Z.eqb_spec m I915_FORMAT_MOD_X_TILED) as [? | _]; [contradiction|].
  destruct (Z.eqb_spec m I915_FORMAT_MOD_Y_TILED) as [? | _]; [contradiction|].
  destruct (Z.eqb_spec m I915_FORMAT_MOD_Y_TILED_CCS) as [? | _]; [contradiction|].
  cbn [orb].
  destruct H5 as [-> | [H5 H6]]; [reflexivity|].
  destruct (Z.eqb_spec m I915_FORMAT_MOD_Yf_TILED) as [? | _]; [contradiction|].
  destruct (Z.eqb_spec m I915_FORMAT_MOD_Yf_TILED_CCS) as [? | _]; [contradiction|].
  now rewrite andb_false_r.
Qed.

(** X17. Layout and mapping composed: a buffer laid out with the
    compressed Y-tiled modifier can never be mapped. Whatever handles it
    is given and whatever the kernel would answer, [i915_bo_map] returns
    [MAP_FAILED] without a single request and leaves the [vma] alone. *)
Theorem compressed_buffer_is_never_mapped (b : bo) (w h f u : Z)
    (mods : option (list Z)) (K : map_kernel) (hs : plane_array) (v : mapped_vma)
    (plane : nat) (map_flags : Z) :
  f <> DRM_FORMAT_YVU420_ANDROID ->
  choose_modifier drv_get_combination drv_pick_modifier f u mods
  = Some I915_FORMAT_MOD_Y_TILED_CCS ->
  exists b',
    i915_bo_compute_metadata USE_GRALLOC1 pagesize drv_num_planes_from_format
      drv_stride_from_format drv_height_from_format drv_bo_from_format
      drv_get_combination drv_pick_modifier b w h f u mods = Some (0, b')
    /\ i915_bo_map drv_get_prot K (set_handles b' hs) v plane map_flags
       = (MAP_FAILED, v, []).
Proof.
  intros Hf Hm. eexists. split; [now apply compute_metadata_ccs|].
  unfold i915_bo_map, ccs_layout. simpl.
  rewrite (plane_get_set_eq (meta_format_modifiers (meta b)) 0
             I915_FORMAT_MOD_Y_TILED_CCS) by reflexivity.
  reflexivity.
Qed.

End LayoutFacts.

Lemma fill_handles_all n : forall q hs handle hs' i,
  fill_handles n q hs handle = Some hs' -> (q <= i < q + n)%nat ->
  plane_get hs' i = handle.
Proof.
  induction n as [| n IH]; intros q hs handle hs' i H Hi; [lia|].
  cbn [fill_handles] in H.
  destruct (plane_set hs q handle) as [hs1|] eqn:Hset; [|discriminate].
  destruct (Nat.eq_dec i q) as [-> | Hne].
  - rewrite (fill_handles_keep n (S q) hs1 handle hs' q H) by lia.
    eapply plane_get_set_eq; eassumption.
  - apply (IH (S q) hs1 handle hs' i H). lia.
Qed.

(** X18. When the kernel creates the object and accepts the tiling
    request, [i915_bo_create_from_metadata] returns 0 with every plane
    of the object holding the one handle the kernel returned, the
    metadata untouched, the tiling request made for that handle with the
    stride of plane 0, and exactly that handle left open. *)
Theorem i915_bo_create_from_metadata_success (K : i915_kernel) (b : bo) (handle : Z) :
  (1 <= meta_num_planes (meta b) <= DRV_MAX_PLANES)%nat ->
  gem_create K (meta_total_size (meta b)) = inl handle ->
  gem_set_tiling K handle (meta_tiling (meta b)) (plane_get (meta_strides (meta b)) 0)
  = None ->
  exists b',
    i915_bo_create_from_metadata K b
    = Some (0, b',
            [DRM_IOCTL_I915_GEM_CREATE (meta_total_size (meta b)) (inl handle);
             DRM_IOCTL_I915_GEM_SET_TILING handle (meta_tiling (meta b))
               (plane_get (meta_strides (meta b)) 0) None])
    /\ meta b' = meta b
    /\ (forall i, (i < meta_num_planes (meta b))%nat -> plane_get (handles b') i = handle)
    /\ open_handles
         [DRM_IOCTL_I915_GEM_CREATE (meta_total_size (meta b)) (inl handle);
          DRM_IOCTL_I915_GEM_SET_TILING handle (meta_tiling (meta b))
            (plane_get (meta_strides (meta b)) 0) None] [] = [handle].
Proof.
  intros Hn Hc Ht. unfold i915_bo_create_from_metadata. rewrite Hc.
  destruct (fill_handles_total (meta_num_planes (meta b)) 0 (handles b) handle
              ltac:(lia)) as [hs Hfill].
  rewrite Hfill. cbn [set_handles handles meta].
  assert (H0 : plane_get hs 0 = handle)
    by (apply (fill_handles_all _ _ _ _ _ 0%nat Hfill); lia).
  rewrite H0, Ht. eexists. split; [reflexivity|].
  split; [reflexivity|]. split; [|reflexivity].
  intros i Hi. cbn [handles]. apply (fill_handles_all _ _ _ _ _ i Hfill). lia.
Qed.

End I915Facts.

(** ** cros_gralloc_driver.cc: reference accounting across the tables *)

Module GrallocRefs.

Import Gralloc.

(** What one entry of the handle table contributes to the references
    held on the Buffer at [p]. *)
Definition weight (p : positive) (e : positive * Z) : Z :=
  if decide (e.1 = p) then e.2 else 0.

(** The references all handles together hold on the Buffer at [p]. *)
Definition references (p : positive) (hs : gmap positive (positive * Z)) : Z :=
  map_fold (fun _ e acc => weight p e + acc) 0 hs.

(** Every handle entry counts at least one reference on a Buffer that is
    alive, and the reference count of every Buffer alive is the sum of
    the counts of the handles attached to it. *)
Definition refs_balanced (s : driver) : Prop :=
  (forall a p c, handles_ s !! a = Some (p, c) -> 1 <= c /\ is_Some (heap s !! p))
  /\ (forall p b, heap s !! p = Some b -> refcount_ b = references p (handles_ s)).

Lemma references_empty p : references p ∅ = 0.
Proof. apply map_fold_empty. Qed.

Lemma references_insert_fresh p a e hs :
  hs !! a = None -> references p (<[a := e]> hs) = weight p e + references p hs.
Proof.
  intros H. unfold references.
  apply (map_fold_insert_L (fun _ e acc => weight p e + acc)); [|exact H].
  intros. lia.
Qed.

Lemma references_delete p a e hs :
  hs !! a = Some e -> references p hs = weight p e + references p (delete a hs).
Proof.
  intros H. unfold references.
  apply (map_fold_delete_L (fun _ e acc => weight p e + acc)); [|exact H].
  intros. lia.
Qed.

Lemma references_insert p a e e' hs :
  hs !! a = Some e ->
  references p (<[a := e']> hs) = weight p e' - weight p e + references p hs.
Proof.
  intros H. rewrite <- insert_delete_eq.
  rewrite references_insert_fresh by apply lookup_delete_eq.
  rewrite (references_delete p a e hs H). lia.
Qed.

Lemma references_nonneg p hs :
  (forall a q c, hs !! a = Some (q, c) -> 0 <= c) -> 0 <= references p hs.
Proof.
  induction hs as [| a [q c] hs Hnone IH] using map_ind; intros Hc.
  - now rewrite references_empty.
  - rewrite references_insert_fresh by exact Hnone.
    assert (0 <= c) by (apply (Hc a q); apply lookup_insert_eq).
    assert (0 <= references p hs).
    { apply IH. intros a' q' c' H'. apply (Hc a' q').
      rewrite lookup_insert_ne; [exact H' | congruence]. }
    unfold weight. cbn. destruct (decide (q = p)); lia.
Qed.

Lemma references_none p hs :
  (forall a q c, hs !! a = Some (q, c) -> q <> p) -> references p hs = 0.
Proof.
  induction hs as [| a [q c] hs Hnone IH] using map_ind; intros Hq.
  - apply references_empty.
  - rewrite references_insert_fresh by exact Hnone.
    rewrite IH.
    + unfold weight. cbn. destruct (decide (q = p)) as [E | _]; [|reflexivity].
      exfalso. apply (Hq a q c); [apply lookup_insert_eq | exact E].
    + intros a' q' c' H'. apply (Hq a' q' c').
      rewrite lookup_insert_ne; [exact H' | congruence].
Qed.

Lemma references_member p hs a c :
  (forall a q c, hs !! a = Some (q, c) -> 0 <= c) ->
  hs !! a = Some (p, c) -> c <= references p hs.
Proof.
  intros Hc H. rewrite (references_delete p a (p, c) hs H).
  assert (0 <= references p (delete a hs)).
  { apply references_nonneg. intros a' q' c' H'.
    apply lookup_delete_Some in H' as [_ H']. now apply (Hc a' q'). }
  unfold weight. cbn. destruct (decide (p = p)); [lia | congruence].
Qed.

Lemma references_positive p hs :
  (forall a q c, hs !! a = Some (q, c) -> 0 <= c) ->
  0 < references p hs -> exists a c, hs !! a = Some (p, c).
Proof.
  induction hs as [| a [q c] hs Hnone IH] using map_ind; intros Hc Hpos.
  - rewrite references_empty in Hpos. lia.
  - rewrite references_insert_fresh in Hpos by exact Hnone.
    unfold weight in Hpos. cbn in Hpos.
    destruct (decide (q = p)) as [-> | Hne].
    + exists a, c. apply lookup_insert_eq.
    + destruct IH as (a' & c' & H'); [| lia |].
      * intros a' q' c' H'. apply (Hc a' q').
        rewrite lookup_insert_ne; [exact H' | congruence].
      * exists a', c'. rewrite lookup_insert_ne; [exact H' | congruence].
Qed.

Lemma empty_driver_balanced : refs_balanced empty_driver.
Proof.
  split; simpl.
  - intros a p c H. rewrite lookup_empty in H. discriminate.
  - intros p b H. rewrite lookup_empty in H. discriminate.
Qed.


Lemma weight_same p c : weight p (p, c) = c.
Proof. unfold weight. cbn. destruct (decide (p = p)); [reflexivity | congruence]. Qed.

Lemma weight_other p q c : q <> p -> weight p (q, c) = 0.
Proof. intros H. unfold weight. cbn. destruct (decide (q = p)); [contradiction | reflexivity]. Qed.

(** One more reference on the Buffer at [p], through a handle that is
    new or already attached to it. *)
Lemma balanced_add_reference s a p c' b' bs n l :
  refs_balanced s ->
  (handles_ s !! a = None /\ c' = 1) \/ handles_ s !! a = Some (p, c' - 1) ->
  refcount_ b' = references p (handles_ s) + 1 ->
  (forall a q c, handles_ s !! a = Some (q, c) -> q = p -> is_Some (heap s !! p)) ->
  refs_balanced (mk_driver (<[p := b']> (heap s)) bs (<[a := (p, c')]> (handles_ s)) n l).
Proof.
  intros [Hin Hsum] Hcase Hb' _. split; cbn [handles_ heap].
  - intros a' q c Hq. destruct (decide (a' = a)) as [-> | Hne].
    + rewrite lookup_insert_eq in Hq. injection Hq as <- <-.
      split; [|rewrite lookup_insert_eq; eauto].
      destruct Hcase as [[_ ->] | Hold]; [lia|].
      apply Hin in Hold as [Hc _]. lia.
    + rewrite lookup_insert_ne in Hq by congruence.
      apply Hin in Hq as [Hc Hlive]. split; [exact Hc|].
      destruct (decide (q = p)) as [-> | Hqp].
      * rewrite lookup_insert_eq. eauto.
      * rewrite lookup_insert_ne by congruence. exact Hlive.
  - intros q b Hq.
    assert (Hrefs : forall q', references q' (<[a := (p, c')]> (handles_ s))
                      = (if decide (p = q') then 1 else 0) + references q' (handles_ s)).
    { intros q'. destruct Hcase as [[Hnone ->] | Hold].
      - rewrite references_insert_fresh by exact Hnone.
        unfold weight. cbn. reflexivity.
      - rewrite (references_insert q' a (p, c' - 1)) by exact Hold.
        unfold weight. cbn. destruct (decide (p = q')); lia. }
    rewrite Hrefs.
    destruct (decide (p = q)) as [<- | Hne].
    + rewrite lookup_insert_eq in Hq. injection Hq as <-. lia.
    + rewrite lookup_insert_ne in Hq by congruence.
      rewrite (Hsum q b Hq). lia.
Qed.

(** One reference less on the Buffer at [p], which goes when that was
    the last one. *)
Lemma balanced_drop_reference s a p c b bs n l :
  refs_balanced s ->
  handles_ s !! a = Some (p, c) -> heap s !! p = Some b ->
  refs_balanced
    (mk_driver
       (if refcount_ b - 1 =? 0 then delete p (heap s)
        else <[p := decrease_refcount b]> (heap s))
       bs
       (if c - 1 =? 0 then delete a (handles_ s)
        else <[a := (p, c - 1)]> (handles_ s))
       n l).
Proof.
  intros [Hin Hsum] Ha Hp.
  pose proof (Hin a p c Ha) as [Hc _].
  pose proof (Hsum p b Hp) as Hb.
  set (hs' := if c - 1 =? 0 then delete a (handles_ s)
              else <[a := (p, c - 1)]> (handles_ s)).
  assert (Hrefs : forall q, references q hs'
                    = references q (handles_ s) - (if decide (p = q) then 1 else 0)).
  { intros q. unfold hs'. destruct (Z.eqb_spec (c - 1) 0) as [E | E].
    - rewrite (references_delete q a (p, c) (handles_ s) Ha).
      unfold weight. cbn. destruct (decide (p = q)); lia.
    - rewrite (references_insert q a (p, c)) by exact Ha.
      unfold weight. cbn. destruct (decide (p = q)); lia. }
  assert (Hin' : forall a' q c', hs' !! a' = Some (q, c') ->
                   1 <= c' /\ is_Some (heap s !! q)).
  { intros a' q c' Hq. unfold hs' in Hq.
    destruct (Z.eqb_spec (c - 1) 0) as [E | E].
    - apply lookup_delete_Some in Hq as [_ Hq]. now apply Hin in Hq.
    - destruct (decide (a' = a)) as [-> | Hne].
      + rewrite lookup_insert_eq in Hq. injection Hq as <- <-.
        split; [lia | eauto].
      + rewrite lookup_insert_ne in Hq by congruence. now apply Hin in Hq. }
  assert (Hnn : forall a' q c', hs' !! a' = Some (q, c') -> 0 <= c').
  { intros a' q c' Hq. apply Hin' in Hq as [? _]. lia. }
  split; cbn [handles_ heap]; fold hs'.
  - intros a' q c' Hq. pose proof (Hin' a' q c' Hq) as [Hc' Hlive].
    split; [exact Hc'|].
    destruct (decide (q = p)) as [-> | Hqp].
    + pose proof (references_member p hs' a' c' Hnn Hq) as Hmem.
      rewrite Hrefs in Hmem. destruct (decide (p = p)); [|congruence].
      destruct (Z.eqb_spec (refcount_ b - 1) 0) as [E | E]; [lia|].
      rewrite lookup_insert_eq. eauto.
    + destruct (refcount_ b - 1 =? 0).
      * rewrite lookup_delete_ne by congruence. exact Hlive.
      * rewrite lookup_insert_ne by congruence. exact Hlive.
  - intros q bq Hq. rewrite Hrefs.
    destruct (decide (p = q)) as [<- | Hne].
    + destruct (refcount_ b - 1 =? 0).
      * rewrite lookup_delete_eq in Hq. discriminate.
      * rewrite lookup_insert_eq in Hq. injection Hq as <-. cbn. lia.
    + assert (heap s !! q = Some bq) as Hq'.
      { destruct (refcount_ b - 1 =? 0).
        - now rewrite lookup_delete_ne in Hq by congruence.
        - now rewrite lookup_insert_ne in Hq by congruence. }
      rewrite (Hsum q bq Hq'). lia.
Qed.

Lemma balanced_fresh_unreferenced s :
  refs_balanced s -> references (fresh (dom (heap s))) (handles_ s) = 0.
Proof.
  intros [Hin _]. apply references_none. intros a q c Hq ->.
  apply Hin in Hq as [_ [b Hb]]. rewrite fresh_heap_None in Hb. discriminate.
Qed.

Lemma retain_balanced K handle s r s' :
  refs_balanced s -> retain K handle s = Some (r, s') -> refs_balanced s'.
Proof.
  intros Hbal. unfold retain.
  destruct (cros_gralloc_convert_handle handle) as [hnd|]; [|now intros [= <- <-]].
  destruct (handles_ s !! addr hnd) as [[p c]|] eqn:Ha.
  - destruct (heap s !! p) as [b|] eqn:Hp; [|discriminate]. cbn.
    intros [= <- <-]. unfold set_tables.
    apply balanced_add_reference; try assumption.
    + right. rewrite Ha. do 2 f_equal. lia.
    + destruct Hbal as [_ Hsum]. cbn. rewrite (Hsum p b Hp). reflexivity.
    + intros. eauto.
  - cbv zeta. destruct (drmPrimeFDToHandle K _) as [ret id].
    destruct (negb (ret =? 0)); [intros [= <- <-]; exact Hbal|].
    cbn [heap handles_ add_log buffers_].
    destruct (buffers_ s !! id) as [p|].
    + destruct (heap s !! p) as [b|] eqn:Hp; [|discriminate]. cbn.
      intros [= <- <-]. unfold set_tables. rewrite emplace_None by exact Ha.
      apply balanced_add_reference; try assumption.
      * now left.
      * destruct Hbal as [_ Hsum]. cbn. rewrite (Hsum p b Hp). reflexivity.
      * intros. eauto.
    + destruct (drv_bo_import K _) as [b|]; [|intros [= <- <-]; exact Hbal].
      intros [= <- <-]. unfold set_tables. cbn [heap handles_ add_log buffers_].
      rewrite (emplace_None (addr hnd)) by exact Ha.
      apply balanced_add_reference; try assumption.
      * now left.
      * cbn. now rewrite balanced_fresh_unreferenced.
      * intros a q c Hq ->. destruct Hbal as [Hin _]. now apply Hin in Hq.
Qed.

Lemma release_balanced handle s r s' :
  refs_balanced s -> release handle s = Some (r, s') -> refs_balanced s'.
Proof.
  intros Hbal. unfold release.
  destruct (cros_gralloc_convert_handle handle) as [hnd|]; [|now intros [= <- <-]].
  destruct (handles_ s !! addr hnd) as [[p c]|] eqn:Ha; [|now intros [= <- <-]].
  destruct (heap s !! p) as [b|] eqn:Hp; [|discriminate]. cbn.
  pose proof (balanced_drop_reference s (addr hnd) p c b
                (if refcount_ b - 1 =? 0 then delete (id_ b) (buffers_ s) else buffers_ s)
                (next_buffer_id s)
                (if refcount_ b - 1 =? 0
                 then log s ++ destroy_events (decrease_refcount b) else log s)
                Hbal Ha Hp) as Hnew.
  destruct (refcount_ b - 1 =? 0); intros [= <- <-]; exact Hnew.
Qed.


Lemma refs_balanced_tables s s' :
  heap s' = heap s -> handles_ s' = handles_ s -> refs_balanced s -> refs_balanced s'.
Proof. unfold refs_balanced. intros -> ->. tauto. Qed.

Lemma register_allocation_balanced K d b fd s r h s' :
  refs_balanced s -> (forall a, malloc K = Some a -> handles_ s !! a = None) ->
  register_allocation K d b fd s = Some (r, h, s') -> refs_balanced s'.
Proof.
  intros Hbal Hfresh H.
  apply register_allocation_Some in H as (a & hnd & Ha & _ & _ & _ & ->).
  rewrite (emplace_None a) by exact (Hfresh a Ha).
  apply balanced_add_reference; try assumption.
  - left. split; [exact (Hfresh a Ha) | reflexivity].
  - cbn. now rewrite balanced_fresh_unreferenced.
  - intros a' q c Hq ->. destruct Hbal as [Hin _]. now apply Hin in Hq.
Qed.

Section Reachable.

Variable USE_GRALLOC1 : bool.
Variable drv_resolve_format : Z -> Z -> Z.
Variable drv_num_buffers_per_bo : bo -> Z.

Lemma allocate_balanced K d s r h s' :
  refs_balanced s -> (forall a, malloc K = Some a -> handles_ s !! a = None) ->
  allocate USE_GRALLOC1 drv_resolve_format drv_num_buffers_per_bo K d s
  = Some (r, h, s') ->
  refs_balanced s'.
Proof.
  intros Hbal Hfresh. unfold allocate.
  destruct (create_bo _ _ K d) as [b|]; [|now intros [= <- <- <-]].
  destruct (negb (drv_num_buffers_per_bo b =? 1)).
  { intros [= <- <- <-]. now apply (refs_balanced_tables s). }
  destruct (0 <? d_reserved_region_size d).
  - destruct (create_reserved_region K _ _) as [fd evs].
    destruct (fd <? 0).
    + intros [= <- <- <-]. now apply (refs_balanced_tables s).
    + apply register_allocation_balanced; [|exact Hfresh].
      now apply (refs_balanced_tables s).
  - apply register_allocation_balanced; [|exact Hfresh].
    now apply (refs_balanced_tables s).
Qed.

(** What is assumed of the world around an allocation: the block
    [malloc] returns, if any, is at an address no registered handle
    lives at, and the kernel names the new object with an id no Buffer
    has. *)
Definition fresh_allocation (K : kernel) (d : cros_gralloc_buffer_descriptor)
    (s : driver) : Prop :=
  (forall a, malloc K = Some a -> handles_ s !! a = None)
  /\ forall b, create_bo USE_GRALLOC1 drv_resolve_format K d = Some b ->
               buffers_ s !! plane_get (handles b) 0 = None.

(** What is assumed of the kernel around an import: the object imported
    carries the id the kernel resolved the descriptor to. *)
Definition coherent_import (K : kernel) (handle : buffer_handle_t) : Prop :=
  forall hnd b,
    cros_gralloc_convert_handle handle = Some hnd ->
    drv_bo_import K (import_data_of (contents hnd)) = Some b ->
    plane_get (handles b) 0
    = snd (drmPrimeFDToHandle K (nth 0 (hnd_fds (contents hnd)) (-1))).

(** The states a driver goes through: from the empty driver by
    [allocate], [retain] and [release] in any order, with any arguments
    and any outcome the calls return with. *)
Inductive reachable : driver -> Prop :=
| reachable_empty : reachable empty_driver
| reachable_allocate K d s r h s' :
    reachable s -> fresh_allocation K d s ->
    allocate USE_GRALLOC1 drv_resolve_format drv_num_buffers_per_bo K d s
    = Some (r, h, s') ->
    reachable s'
| reachable_retain K handle s r s' :
    reachable s -> coherent_import K handle ->
    retain K handle s = Some (r, s') -> reachable s'
| reachable_release handle s r s' :
    reachable s -> release handle s = Some (r, s') -> reachable s'.

Lemma retain_consistent_coherent K handle s r s' :
  tables_consistent s -> coherent_import K handle ->
  retain K handle s = Some (r, s') -> tables_consistent s'.
Proof.
  intros Hcons Hco Hrun. pose proof Hrun as Hrun'. unfold retain in Hrun.
  destruct (cros_gralloc_convert_handle handle) as [hnd|] eqn:Hconv;
    [|now injection Hrun as <- <-].
  destruct (handles_ s !! addr hnd) as [[p c]|] eqn:Ha.
  - destruct (heap s !! p) as [b|] eqn:Hp; [|discriminate]. cbn in Hrun.
    injection Hrun as <- <-. now apply consistent_share.
  - cbv zeta in Hrun. destruct (drmPrimeFDToHandle K _) as [ret id] eqn:Hprime.
    destruct (negb (ret =? 0)); [injection Hrun as <- <-; exact Hcons|].
    cbn [heap handles_ add_log buffers_] in Hrun.
    destruct (buffers_ s !! id) as [p|] eqn:Hid.
    + destruct (heap s !! p) as [b|] eqn:Hp; [|discriminate]. cbn in Hrun.
      injection Hrun as <- <-. now apply (consistent_share (add_log s _) p b).
    + apply (retain_consistent K handle s r s' Hcons); [|exact Hrun'].
      intros hnd' b' Hconv' Himp. rewrite Hconv in Hconv'. injection Hconv' as <-.
      rewrite (Hco hnd b' Hconv Himp), Hprime. exact Hid.
Qed.

Lemma reachable_invariants s :
  reachable s -> tables_consistent s /\ refcounts_positive s /\ refs_balanced s.
Proof.
  induction 1 as [| K d s r h s' _ (Hc & Hp & Hb) [Hm Hid] Hrun
                  | K handle s r s' _ (Hc & Hp & Hb) Hco Hrun
                  | handle s r s' _ (Hc & Hp & Hb) Hrun].
  - split; [apply empty_driver_consistent|].
    split; [apply empty_driver_refcounts | apply empty_driver_balanced].
  - split; [eapply allocate_consistent; eassumption|].
    split; [eapply allocate_refcounts; eassumption|].
    eapply allocate_balanced; eassumption.
  - split; [eapply retain_consistent_coherent; eassumption|].
    split; [eapply retain_refcounts; eassumption|].
    eapply retain_balanced; eassumption.
  - split; [eapply release_consistent; eassumption|].
    split; [eapply release_refcounts; eassumption|].
    eapply release_balanced; eassumption.
Qed.

(** X19. In every state the driver can reach from its initial state by
    [allocate], [retain] and [release], provided [malloc] and the kernel
    hand out fresh names: each kernel object id has one Buffer and each
    Buffer is registered under its id; every Buffer alive has a
    reference count of at least 1 that equals the sum of the counts of
    the handles attached to it; every handle entry has a count of at
    least 1 and points to a Buffer that is alive; so the Buffers alive
    are exactly those some handle refers to. *)
Theorem reachable_state_invariants (s : driver) :
  reachable s ->
  tables_consistent s
  /\ one_buffer_per_id s
  /\ refcounts_positive s
  /\ refs_balanced s
  /\ forall p, is_Some (heap s !! p) <-> exists a c, handles_ s !! a = Some (p, c).
Proof.
  intros Hreach. apply reachable_invariants in Hreach as (Hc & Hp & Hb).
  split; [exact Hc|]. split; [now apply consistent_one_buffer|].
  split; [exact Hp|]. split; [exact Hb|].
  intros p. destruct Hb as [Hin Hsum]. split.
  - intros [b Hb]. apply references_positive.
    + intros a q c Hq. apply Hin in Hq as [? _]. lia.
    + rewrite <- (Hsum p b Hb). specialize (Hp p b Hb). lia.
  - intros (a & c & Ha). now apply Hin in Ha.
Qed.

(** X20. No call dereferences a dangling Buffer pointer: in a state
    whose tables are consistent and whose references are balanced,
    [retain] and [release] return a status for every handle and every
    answer of the kernel. *)
Theorem retain_release_total (K : kernel) (handle : buffer_handle_t) (s : driver) :
  tables_consistent s -> refs_balanced s ->
  is_Some (retain K handle s) /\ is_Some (release handle s).
Proof.
  intros [_ Hids] [Hin _]. split.
  - unfold retain.
    destruct (cros_gralloc_convert_handle handle) as [hnd|]; [|eauto].
    destruct (handles_ s !! addr hnd) as [[p c]|] eqn:Ha.
    + apply Hin in Ha as [_ [b ->]]. cbn. eauto.
    + cbv zeta. destruct (drmPrimeFDToHandle K _) as [ret id].
      destruct (negb (ret =? 0)); [eauto|].
      cbn [heap handles_ add_log buffers_].
      destruct (buffers_ s !! id) as [p|] eqn:Hid.
      * apply Hids in Hid as (b & -> & _). cbn. eauto.
      * destruct (drv_bo_import K _); eauto.
  - unfold release.
    destruct (cros_gralloc_convert_handle handle) as [hnd|]; [|eauto].
    destruct (handles_ s !! addr hnd) as [[p c]|] eqn:Ha; [|eauto].
    apply Hin in Ha as [_ [b ->]]. cbn.
    destruct (refcount_ b - 1 =? 0); eauto.
Qed.

End Reachable.


Lemma reserved_fd_of_handle {A} (f : nat -> A) (n : nat) (fd default : A) :
  nth n (map f (seq 0 n) ++ [fd]) default = fd.
Proof.
  rewrite app_nth2; rewrite length_map, length_seq; [|lia].
  now rewrite Nat.sub_diag.
Qed.

Lemma open_fds_app evs1 : forall evs2 live,
  open_fds (evs1 ++ evs2) live = open_fds evs2 (open_fds evs1 live).
Proof.
  induction evs1 as [| e evs1 IH]; intros evs2 live; [reflexivity|].
  destruct e; cbn [app open_fds]; apply IH.
Qed.

Lemma live_bos_app evs1 : forall evs2 live,
  live_bos (evs1 ++ evs2) live = live_bos evs2 (live_bos evs1 live).
Proof.
  induction evs1 as [| e evs1 IH]; intros evs2 live; [reflexivity|].
  destruct e; cbn [app live_bos]; apply IH.
Qed.

Lemma filter_out_only (fd : Z) : filter (fun x => x <> fd) [fd] = [].
Proof.
  rewrite filter_cons. destruct (decide (fd <> fd)) as [H | _]; [congruence | reflexivity].
Qed.

Local Arguments plane_get : simpl never.

(** What [release] makes of the state [register_allocation] built. *)
Lemma register_then_release K d b fd s r h s1 :
  (forall a, malloc K = Some a -> handles_ s !! a = None) ->
  buffers_ s !! plane_get (handles b) 0 = None ->
  register_allocation K d b fd s = Some (r, Some h, s1) ->
  exists s2,
    release (Some h) s1 = Some (0, s2)
    /\ tables s2 = tables s
    /\ next_buffer_id s2 = u32 (next_buffer_id s + 1)
    /\ log s2
       = log s ++ Ev_drv_bo_destroy b :: (if 0 <=? fd then [Ev_close fd] else []).
Proof.
  intros Hfresh Hid Hreg.
  apply register_allocation_Some in Hreg as (a & hnd & Ha & Hb & -> & [= ->] & ->).
  apply build_handle_fields in Hb as (_ & Hmagic & Hn & Hfds & _ & _).
  rewrite (emplace_None a) by exact (Hfresh a Ha).
  rewrite (emplace_None (plane_get (handles b) 0)) by exact Hid.
  unfold release. cbn [cros_gralloc_convert_handle contents addr].
  rewrite Hmagic, Z.eqb_refl. cbn [handles_ heap addr].
  rewrite !lookup_insert_eq. simpl.
  rewrite Hn, Hfds, reserved_fd_of_handle.
  eexists. split; [reflexivity|].
  unfold tables. simpl.
  rewrite !delete_insert_id; auto using fresh_heap_None.
Qed.



Section RoundTrip.

Variable USE_GRALLOC1 : bool.
Variable drv_resolve_format : Z -> Z -> Z.
Variable drv_num_buffers_per_bo : bo -> Z.

(** X21. Allocation and release are inverse on the tables: when
    [malloc] and the kernel return fresh names, releasing the handle a
    successful [allocate] returned answers 0 and puts the Buffer table,
    the id table and the handle table back to what they were before the
    allocation; only the id counter has moved on. Everything the two
    calls created is gone again: the buffer object is destroyed and the
    reserved-region descriptor, if one was made, is closed. *)
Theorem allocate_release_round_trip (K : kernel) (d : cros_gralloc_buffer_descriptor)
    (s : driver) (r : Z) (h : handle_ref) (s1 : driver) :
  fresh_allocation USE_GRALLOC1 drv_resolve_format K d s ->
  allocate USE_GRALLOC1 drv_resolve_format drv_num_buffers_per_bo K d s
  = Some (r, Some h, s1) ->
  exists s2 events,
    release (Some h) s1 = Some (0, s2)
    /\ tables s2 = tables s
    /\ next_buffer_id s2 = u32 (next_buffer_id s + 1)
    /\ log s2 = log s ++ events
    /\ live_bos events 0 = 0%nat
    /\ open_fds events [] = [].
Proof.
  intros [Ha Hid] Hrun. unfold allocate in Hrun.
  destruct (create_bo _ _ K d) as [b|] eqn:Hbo; [|discriminate].
  specialize (Hid b eq_refl).
  destruct (negb (drv_num_buffers_per_bo b =? 1)); [discriminate|].
  destruct (0 <? d_reserved_region_size d).
  - unfold create_reserved_region in Hrun.
    set (fd := memfd_create K _) in Hrun.
    destruct (fd =? -1) eqn:Efd.
    { assert ((- Z.pos (errno K) <? 0) = true) as Hneg by (apply Z.ltb_lt; lia).
      rewrite Hneg in Hrun. discriminate. }
    destruct (negb (ftruncate K fd (d_reserved_region_size d) =? 0)) eqn:Etr.
    { assert ((- Z.pos (errno K) <? 0) = true) as Hneg by (apply Z.ltb_lt; lia).
      rewrite Hneg in Hrun. discriminate. }
    destruct (Z.ltb_spec fd 0) as [Hlt | Hge]; [discriminate|].
    set (s0 := add_log (add_log s _) _) in Hrun.
    destruct (register_then_release K d b fd s0 r h s1) as (s2 & Hrel & Ht & Hn & Hl);
      [exact Ha | exact Hid | exact Hrun |].
    exists s2. eexists. split; [exact Hrel|]. split; [exact Ht|]. split; [exact Hn|].
    split.
    + rewrite Hl. subst s0. cbn [log add_log]. rewrite <- !app_assoc. reflexivity.
    + assert ((0 <=? fd) = true) as -> by (apply Z.leb_le; lia).
      split; [reflexivity|]. cbn. apply filter_out_only.
  - set (s0 := add_log s _) in Hrun.
    destruct (register_then_release K d b (-1) s0 r h s1) as (s2 & Hrel & Ht & Hn & Hl);
      [exact Ha | exact Hid | exact Hrun |].
    exists s2. eexists. split; [exact Hrel|]. split; [exact Ht|]. split; [exact Hn|].
    split.
    + rewrite Hl. subst s0. cbn [log add_log]. rewrite <- !app_assoc. reflexivity.
    + split; reflexivity.
Qed.


End RoundTrip.

(** X23. A failed [retain] or [release] registers nothing: [retain]
    answers 0, -EINVAL (handle malformed), minus the [errno] of the
    descriptor lookup, or -EFAULT (import refused), [release] answers 0
    or -EINVAL, and with any status but 0 the three tables and the id
    counter are as they were. The log of a failed [retain] grows by
    exactly the outside calls it made: none for a malformed handle, the
    prime lookup when that lookup fails, the prime lookup and the
    refused import when the import is refused. A failed [release] makes
    no outside call and leaves the driver exactly as it was. *)
Theorem failed_retain_release_change_nothing (K : kernel) (handle : buffer_handle_t)
    (s : driver) :
  (forall r s', retain K handle s = Some (r, s') ->
     (r = 0 \/ r = - EINVAL \/ r = - Z.pos (errno K) \/ r = - EFAULT)
     /\ (r <> 0 ->
         tables s' = tables s
         /\ next_buffer_id s' = next_buffer_id s
         /\ match cros_gralloc_convert_handle handle with
            | None => r = - EINVAL /\ s' = s
            | Some hnd =>
                let fd := nth 0 (hnd_fds (contents hnd)) (-1) in
                let '(ret, id) := drmPrimeFDToHandle K fd in
                if ret =? 0 then
                  r = - EFAULT
                  /\ drv_bo_import K (import_data_of (contents hnd)) = None
                  /\ log s'
                     = log s
                       ++ [Ev_drmPrimeFDToHandle fd ret id;
                           Ev_drv_bo_import_refused (import_data_of (contents hnd))]
                else
                  r = - Z.pos (errno K)
                  /\ log s' = log s ++ [Ev_drmPrimeFDToHandle fd ret id]
            end))
  /\ (forall r s', release handle s = Some (r, s') ->
        (r = 0 \/ r = - EINVAL) /\ (r <> 0 -> s' = s)).
Proof.
  split; intros r s'.
  - unfold retain.
    destruct (cros_gralloc_convert_handle handle) as [hnd|];
      [|intros [= <- <-]; split; [right; now left | auto]].
    destruct (handles_ s !! addr hnd) as [[p c]|].
    + destruct (heap s !! p) as [b|]; [|discriminate]. cbn.
      intros [= <- <-]. split; [now left | congruence].
    + cbv zeta. destruct (drmPrimeFDToHandle K _) as [ret id].
      destruct (ret =? 0); cbn [negb].
      2:{ intros [= <- <-]. split; [right; right; now left | auto]. }
      cbn [heap handles_ add_log buffers_].
      destruct (buffers_ s !! id) as [p|].
      * destruct (heap s !! p) as [b|]; [|discriminate]. cbn.
        intros [= <- <-]. split; [now left | congruence].
      * destruct (drv_bo_import K _) as [b|];
          intros [= <- <-]; [split; [now left | congruence]|].
        split; [now repeat right |]. intros _.
        repeat split. cbn. now rewrite <- app_assoc.
  - unfold release.
    destruct (cros_gralloc_convert_handle handle) as [hnd|];
      [|intros [= <- <-]; split; [now right | reflexivity]].
    destruct (handles_ s !! addr hnd) as [[p c]|];
      [|intros [= <- <-]; split; [now right | reflexivity]].
    destruct (heap s !! p) as [b|]; [|discriminate]. cbn.
    destruct (refcount_ b - 1 =? 0); intros [= <- <-]; (split; [now left | congruence]).
Qed.

(** X24. A call on one handle leaves every other handle alone. After a
    successful [retain] the handle is attached to a Buffer, after a
    successful [release] its count is one less or its entry gone; the
    entry of every other handle, every Buffer but the one the handle is
    attached to, and the id counter are as they were. *)
Theorem retain_release_frame (K : kernel) (hnd : handle_ref) (s s' : driver) :
  (retain K (Some hnd) s = Some (0, s') ->
   exists p c,
     handles_ s' !! addr hnd = Some (p, c)
     /\ (forall a, a <> addr hnd -> handles_ s' !! a = handles_ s !! a)
     /\ (forall q, q <> p -> heap s' !! q = heap s !! q)
     /\ next_buffer_id s' = next_buffer_id s)
  /\ (release (Some hnd) s = Some (0, s') ->
      exists p c,
        handles_ s !! addr hnd = Some (p, c)
        /\ handles_ s' !! addr hnd = (if c - 1 =? 0 then None else Some (p, c - 1))
        /\ (forall a, a <> addr hnd -> handles_ s' !! a = handles_ s !! a)
        /\ (forall q, q <> p -> heap s' !! q = heap s !! q)
        /\ next_buffer_id s' = next_buffer_id s).
Proof.
  split.
  - unfold retain.
    destruct (cros_gralloc_convert_handle (Some hnd)) as [hnd'|] eqn:Hconv;
      [|discriminate].
    assert (hnd' = hnd) as ->.
    { cbn in Hconv. destruct (_ =? _); congruence. }
    destruct (handles_ s !! addr hnd) as [[p c]|] eqn:Ha.
    + destruct (heap s !! p) as [b|]; [|discriminate]. cbn.
      intros [= <-]. exists p, (c + 1). cbn.
      split; [apply lookup_insert_eq|].
      split; [intros a Hne; now rewrite lookup_insert_ne by congruence|].
      split; [intros q Hne; now rewrite lookup_insert_ne by congruence | reflexivity].
    + cbv zeta. destruct (drmPrimeFDToHandle K _) as [ret id].
      destruct (negb (ret =? 0)) eqn:Eret.
      { intros H. discriminate H. }
      cbn [heap handles_ add_log buffers_].
      destruct (buffers_ s !! id) as [p|].
      * destruct (heap s !! p) as [b|]; [|discriminate]. cbn.
        intros [= <-]. exists p, 1. cbn. rewrite emplace_None by exact Ha.
        split; [apply lookup_insert_eq|].
        split; [intros a Hne; now rewrite lookup_insert_ne by congruence|].
        split; [intros q Hne; now rewrite lookup_insert_ne by congruence | reflexivity].
      * destruct (drv_bo_import K _) as [b|]; [|discriminate].
        intros [= <-]. exists (fresh (dom (heap s))), 1. cbn.
        rewrite (emplace_None (addr hnd)) by exact Ha.
        split; [apply lookup_insert_eq|].
        split; [intros a Hne; now rewrite lookup_insert_ne by congruence|].
        split; [intros q Hne; now rewrite lookup_insert_ne by congruence | reflexivity].
  - unfold release.
    destruct (cros_gralloc_convert_handle (Some hnd)) as [hnd'|] eqn:Hconv;
      [|discriminate].
    assert (hnd' = hnd) as ->.
    { cbn in Hconv. destruct (_ =? _); congruence. }
    destruct (handles_ s !! addr hnd) as [[p c]|] eqn:Ha; [|discriminate].
    destruct (heap s !! p) as [b|]; [|discriminate]. cbn.
    assert (Hh : forall hs', hs' = (if c - 1 =? 0 then delete (addr hnd) (handles_ s)
                                    else <[addr hnd := (p, c - 1)]> (handles_ s)) ->
              hs' !! addr hnd = (if c - 1 =? 0 then None else Some (p, c - 1))
              /\ forall a, a <> addr hnd -> hs' !! a = handles_ s !! a).
    { intros hs' ->. destruct (c - 1 =? 0).
      - split; [apply lookup_delete_eq|].
        intros a Hne. now rewrite lookup_delete_ne by congruence.
      - split; [apply lookup_insert_eq|].
        intros a Hne. now rewrite lookup_insert_ne by congruence. }
    destruct (Hh _ eq_refl) as [Hself Hothers].
    destruct (refcount_ b - 1 =? 0); intros [= <-]; exists p, c; cbn;
      (split; [reflexivity|]; split; [exact Hself|]; split; [exact Hothers|];
       split; [|reflexivity]).
    + intros q Hne. now rewrite lookup_delete_ne by congruence.
    + intros q Hne. now rewrite lookup_insert_ne by congruence.
Qed.

End GrallocRefs.

(** ** cros_gralloc_driver.cc: the operations that look a Buffer up *)

Module GrallocOps.

Import Gralloc GrallocRefs.

(** The method of [cros_gralloc_buffer] a driver operation ends with.
    The class is not among the sources: a call is recorded, not run. *)
Inductive buffer_method :=
| Buffer_lock_rect (map_flags : Z)
| Buffer_lock (map_flags : Z)
| Buffer_unlock
| Buffer_invalidate
| Buffer_flush
| Buffer_resource_info
| Buffer_get_reserved_region.

(** How a driver operation ends: with a status of its own, or with
    [return buffer->method (...)] on the Buffer at [buffer]. *)
Inductive outcome :=
| Status (ret : Z)
| Delegated (buffer : positive) (method : buffer_method).

(** [cros_gralloc_driver::get_buffer], lines 649-656; [None] is
    [nullptr]. *)
Definition get_buffer (hnd : handle_ref) (s : driver) : option positive :=
  match handles_ s !! addr hnd with
  | Some (buffer, _) => Some buffer
  | None => None
  end.

(** The steps every operation below shares: convert the handle, find
    its Buffer, call the method. *)
Definition with_buffer (handle : buffer_handle_t) (s : driver) (method : buffer_method)
  : outcome :=
  match cros_gralloc_convert_handle handle with
  | None => Status (- EINVAL)
  | Some hnd =>
      match get_buffer hnd s with
      | None => Status (- EINVAL)
      | Some buffer => Delegated buffer method
      end
  end.

(** [cros_gralloc_driver::lock], lines 457-479 and, for [USE_GRALLOC1],
    lines 482-503. [sync_wait] is what [cros_gralloc_sync_wait]
    answers for the acquire fence. *)
Definition lock_rect (sync_wait : Z) (handle : buffer_handle_t) (map_flags : Z)
    (s : driver) : outcome :=
  if negb (sync_wait =? 0) then Status sync_wait
  else with_buffer handle s (Buffer_lock_rect map_flags).

Definition lock (sync_wait : Z) (handle : buffer_handle_t) (map_flags : Z) (s : driver)
  : outcome :=
  if negb (sync_wait =? 0) then Status sync_wait
  else with_buffer handle s (Buffer_lock map_flags).

(** [unlock] and [flush], lines 506-530 and 551-575: the outcome and
    what is stored through [release_fence], if anything. *)
Definition unlock (handle : buffer_handle_t) (s : driver) : outcome * option Z :=
  match with_buffer handle s Buffer_unlock with
  | Status ret => (Status ret, None)
  | o => (o, Some (-1))
  end.

Definition flush (handle : buffer_handle_t) (s : driver) : outcome * option Z :=
  match with_buffer handle s Buffer_flush with
  | Status ret => (Status ret, None)
  | o => (o, Some (-1))
  end.

(** [invalidate], [resource_info] and [get_reserved_region], lines
    532-549 and 601-640. *)
Definition invalidate (handle : buffer_handle_t) (s : driver) : outcome :=
  with_buffer handle s Buffer_invalidate.

Definition resource_info (handle : buffer_handle_t) (s : driver) : outcome :=
  with_buffer handle s Buffer_resource_info.

Definition get_reserved_region (handle : buffer_handle_t) (s : driver) : outcome :=
  with_buffer handle s Buffer_get_reserved_region.

(** Modelled from the spec: [get_id] of the class [cros_gralloc_buffer],
    not among the sources, returns "the Buffer's stable id". *)
Definition get_id (b : cros_gralloc_buffer) : Z := id_ b.

(** [get_backing_store], lines 577-599: the status and what is stored
    through [out_store]. [None] is a Buffer pointer that dangles. *)
Definition get_backing_store (USE_GRALLOC1 : bool) (handle : buffer_handle_t)
    (s : driver) : option (Z * option Z) :=
  match cros_gralloc_convert_handle handle with
  | None => Some (- EINVAL, None)
  | Some hnd =>
      if USE_GRALLOC1 then Some (0, Some (hnd_id (contents hnd)))
      else
        match get_buffer hnd s with
        | None => Some (- EINVAL, None)
        | Some buffer =>
            b ← heap s !! buffer;
            Some (0, Some (get_id b))
        end
  end.

(** The operations that end with a call on the Buffer, on one handle. *)
Definition lookups (handle : buffer_handle_t) (map_flags : Z) (s : driver)
  : list outcome :=
  [lock_rect 0 handle map_flags s; lock 0 handle map_flags s;
   fst (unlock handle s); invalidate handle s; fst (flush handle s);
   resource_info handle s; get_reserved_region handle s].

(** *** Properties *)

Lemma with_buffer_cases handle s method :
  match cros_gralloc_convert_handle handle with
  | None => with_buffer handle s method = Status (- EINVAL)
  | Some hnd =>
      match handles_ s !! addr hnd with
      | None => with_buffer handle s method = Status (- EINVAL)
      | Some (p, _) => with_buffer handle s method = Delegated p method
      end
  end.
Proof.
  unfold with_buffer, get_buffer.
  destruct (cros_gralloc_convert_handle handle) as [hnd|]; [|reflexivity].
  destruct (handles_ s !! addr hnd) as [[p c]|]; reflexivity.
Qed.

(** X25. With the fence signalled, [lock], [unlock], [invalidate],
    [flush], [resource_info] and [get_reserved_region] all end the same
    way: with -EINVAL, and without touching any Buffer, when the handle
    is malformed or not in the handle table; otherwise with a call on
    the Buffer the table attaches the handle to, which is alive in every
    state whose references are balanced. [unlock] and [flush] store the
    release fence -1 exactly when they reach the Buffer. *)
Theorem lookups_find_the_buffer (handle : buffer_handle_t) (map_flags : Z) (s : driver) :
  refs_balanced s ->
  match cros_gralloc_convert_handle handle with
  | Some hnd =>
      match handles_ s !! addr hnd with
      | Some (p, c) =>
          is_Some (heap s !! p)
          /\ Forall (fun o => exists method, o = Delegated p method)
               (lookups handle map_flags s)
          /\ snd (unlock handle s) = Some (-1) /\ snd (flush handle s) = Some (-1)
      | None =>
          Forall (fun o => o = Status (- EINVAL)) (lookups handle map_flags s)
          /\ snd (unlock handle s) = None /\ snd (flush handle s) = None
      end
  | None =>
      Forall (fun o => o = Status (- EINVAL)) (lookups handle map_flags s)
      /\ snd (unlock handle s) = None /\ snd (flush handle s) = None
  end.
Proof.
  intros [Hin _].
  unfold lookups, lock_rect, lock, unlock, flush, invalidate, resource_info,
    get_reserved_region.
  cbn [negb Z.eqb].
  pose proof (fun m => with_buffer_cases handle s m) as Hw.
  destruct (cros_gralloc_convert_handle handle) as [hnd|].
  - destruct (handles_ s !! addr hnd) as [[p c]|] eqn:Ha.
    + split; [now apply Hin in Ha|].
      rewrite !Hw. cbn [fst snd].
      split; [|split; reflexivity].
      repeat apply Forall_cons_2; try apply Forall_nil_2; eauto.
    + rewrite !Hw. cbn [fst snd]. split; [|split; reflexivity].
      repeat apply Forall_cons_2; try apply Forall_nil_2; reflexivity.
  - rewrite !Hw. cbn [fst snd]. split; [|split; reflexivity].
    repeat apply Forall_cons_2; try apply Forall_nil_2; reflexivity.
Qed.

(** [lock] waits for the acquire fence before it looks at the
    handle: a failed wait is returned as it is, for a malformed or
    unknown handle too, and no Buffer is reached. *)
Theorem lock_fence_first (sync_wait : Z) (handle : buffer_handle_t) (map_flags : Z)
    (s : driver) :
  sync_wait <> 0 ->
  lock_rect sync_wait handle map_flags s = Status sync_wait
  /\ lock sync_wait handle map_flags s = Status sync_wait.
Proof.
  intros H. unfold lock_rect, lock.
  destruct (Z.eqb_spec sync_wait 0) as [? | _]; [contradiction|]. now split.
Qed.

(** X26. Once the last reference of a handle is released, the handle
    is unknown to every operation that looks a Buffer up: they all
    answer -EINVAL. In [USE_GRALLOC1] builds [get_backing_store] is the
    exception: it reads the id out of the handle itself and answers 0
    for any well-formed handle, registered or not; in the other builds
    it answers -EINVAL like the rest. *)
Theorem released_handle_is_unknown (hnd : handle_ref) (p : positive) (map_flags : Z)
    (s : driver) (r : Z) (s' : driver) :
  hnd_magic (contents hnd) = cros_gralloc_magic ->
  handles_ s !! addr hnd = Some (p, 1) ->
  release (Some hnd) s = Some (r, s') ->
  r = 0
  /\ Forall (fun o => o = Status (- EINVAL)) (lookups (Some hnd) map_flags s')
  /\ get_backing_store true (Some hnd) s' = Some (0, Some (hnd_id (contents hnd)))
  /\ get_backing_store false (Some hnd) s' = Some (- EINVAL, None).
Proof.
  intros Hmagic Ha Hrel.
  assert (Hconv : cros_gralloc_convert_handle (Some hnd) = Some hnd)
    by now apply convert_valid.
  assert (Hgone : r = 0 /\ handles_ s' !! addr hnd = None).
  { unfold release in Hrel. rewrite Hconv, Ha in Hrel.
    destruct (heap s !! p) as [b|]; [|discriminate]. cbn in Hrel.
    destruct (refcount_ b - 1 =? 0); injection Hrel as <- <-; cbn;
      (split; [reflexivity | apply lookup_delete_eq]). }
  destruct Hgone as [-> Hgone]. split; [reflexivity|].
  pose proof (fun m => with_buffer_cases (Some hnd) s' m) as Hw.
  rewrite Hconv, Hgone in Hw.
  split.
  - unfold lookups, lock_rect, lock, unlock, flush, invalidate, resource_info,
      get_reserved_region.
    cbn [negb Z.eqb]. rewrite !Hw. cbn [fst].
    repeat apply Forall_cons_2; try apply Forall_nil_2; reflexivity.
  - unfold get_backing_store, get_buffer. rewrite Hconv, Hgone. now split.
Qed.

Section Support.

Variable drv_get_combination : Z -> Z -> option format_metadata.

(** X27. [is_supported] asks the registry at most twice, always about
    the format resolved from the flags as they came in: once with the
    flags as given and, when that finds nothing and bit 0 of the flags
    (the scanout flag) is set, once more with the flags it then leaves
    in the descriptor. When it answers yes, the flags it leaves in the
    descriptor are supported for that format. It changes nothing in the
    descriptor but the flags, and those only in bit 0: when the first
    query succeeds or bit 0 is clear the flags stay as given; otherwise
    bit 0 is cleared and every other bit kept, which takes 1 off the
    word, also when the second query fails too and the answer is no.
    The flags are a 64-bit word. *)
Theorem is_supported_sound (drv_resolve_format : Z -> Z -> Z)
    (d : cros_gralloc_buffer_descriptor) :
  0 <= d_use_flags d < 2 ^ 64 ->
  let '(supported, d', queries) :=
    is_supported drv_resolve_format drv_get_combination d in
  let resolved := drv_resolve_format (d_drm_format d) (d_use_flags d) in
  let first_try := bool_decide (is_Some (drv_get_combination resolved (d_use_flags d))) in
  (supported = true <-> is_Some (drv_get_combination resolved (d_use_flags d')))
  /\ d' = set_use_flags d (d_use_flags d')
  /\ (if first_try || negb (Z.testbit (d_use_flags d) 0)
      then d_use_flags d' = d_use_flags d
           /\ queries = [(resolved, d_use_flags d)]
      else d_use_flags d' = d_use_flags d - 1
           /\ (forall n, 0 <= n ->
                 Z.testbit (d_use_flags d') n
                 = Z.testbit (d_use_flags d) n && negb (n =? 0))
           /\ queries = [(resolved, d_use_flags d); (resolved, d_use_flags d - 1)])
  /\ (length queries <= 2)%nat
  /\ Forall (fun q => fst q = resolved) queries.
Proof.
  intros Hrange. unfold is_supported. cbv zeta.
  set (resolved := drv_resolve_format (d_drm_format d) (d_use_flags d)).
  rewrite scanout_bit, negb_involutive.
  destruct (drv_get_combination resolved (d_use_flags d)) as [m|] eqn:Hq1.
  - rewrite bool_decide_eq_true_2 by eauto. cbn [negb andb orb].
    rewrite Hq1. split; [split; eauto|].
    split; [now destruct d|]. split; [now split|]. split; [cbn; lia|].
    repeat apply Forall_cons_2; try apply Forall_nil_2; reflexivity.
  - rewrite bool_decide_eq_false_2 by (intros [? [=]]). cbn [negb andb orb].
    destruct (Z.testbit (d_use_flags d) 0) eqn:Hbit; cbn [negb].
    + cbn [d_use_flags set_use_flags app].
      rewrite (drop_scanout_minus_one _ Hrange Hbit).
      split; [apply bool_decide_eq_true|].
      split; [reflexivity|].
      split.
      { split; [reflexivity|]. split; [|reflexivity].
        intros n Hn. rewrite <- (drop_scanout_minus_one _ Hrange Hbit).
        now apply drop_scanout_bits. }
      split; [cbn; lia|].
      repeat apply Forall_cons_2; try apply Forall_nil_2; reflexivity.
    + rewrite Hq1. split; [split; [discriminate | intros [? [=]]]|].
      split; [now destruct d|]. split; [now split|]. split; [cbn; lia|].
      repeat apply Forall_cons_2; try apply Forall_nil_2; reflexivity.
Qed.

(** X28. With the i915 backend the scanout fallback cannot change the
    format: every query of [is_supported] is about the format resolved
    from the flags as they came in, the descriptor it leaves behind
    resolves to that same format, and [allocate] called with that
    descriptor asks the buffer-object factory for that format, so that
    it runs as it would with a resolver that always answers the format
    checked. The reason is that [i915_resolve_format] looks at the
    camera flags only (provided the private hook of [USE_GRALLOC1]
    builds does not look at [BO_USE_SCANOUT] either). *)
Theorem fallback_keeps_resolved_format (USE_GRALLOC1 : bool)
    (i915_private_resolve_format : Z -> Z -> option Z)
    (drv_num_buffers_per_bo : bo -> Z) (K : kernel)
    (d : cros_gralloc_buffer_descriptor) (s : driver) :
  (forall format use_flags,
     i915_private_resolve_format format (drop_scanout use_flags)
     = i915_private_resolve_format format use_flags) ->
  let resolve := I915.i915_resolve_format USE_GRALLOC1 i915_private_resolve_format in
  let '(supported, d', queries) := is_supported resolve drv_get_combination d in
  let checked := resolve (d_drm_format d) (d_use_flags d) in
  Forall (fun q => fst q = checked) queries
  /\ resolve (d_drm_format d') (d_use_flags d') = checked
  /\ create_bo USE_GRALLOC1 resolve K d'
     = (if USE_GRALLOC1 && negb (d_modifier d =? 0)
        then drv_bo_create_with_modifiers K (d_width d) (d_height d) checked
               [d_modifier d]
        else drv_bo_create K (d_width d) (d_height d) checked
               (allocate_use_flags d' checked))
  /\ allocate USE_GRALLOC1 resolve drv_num_buffers_per_bo K d' s
     = allocate USE_GRALLOC1 (fun _ _ => checked) drv_num_buffers_per_bo K d' s.
Proof.
  intros Hhook resolve.
  assert (Hdrop : forall f u, resolve f (drop_scanout u) = resolve f u).
  { intros f u. unfold resolve, I915.i915_resolve_format.
    rewrite Hhook.
    assert (Z.land (drop_scanout u) I915.camera_mask = Z.land u I915.camera_mask) as ->;
      [|reflexivity].
    unfold drop_scanout. rewrite <- Z.land_assoc. f_equal. }
  assert (Hall : forall d',
            d' = d \/ d' = set_use_flags d (drop_scanout (d_use_flags d)) ->
            resolve (d_drm_format d') (d_use_flags d')
            = resolve (d_drm_format d) (d_use_flags d)
            /\ create_bo USE_GRALLOC1 resolve K d'
               = (if USE_GRALLOC1 && negb (d_modifier d =? 0)
                  then drv_bo_create_with_modifiers K (d_width d) (d_height d)
                         (resolve (d_drm_format d) (d_use_flags d)) [d_modifier d]
                  else drv_bo_create K (d_width d) (d_height d)
                         (resolve (d_drm_format d) (d_use_flags d))
                         (allocate_use_flags d'
                            (resolve (d_drm_format d) (d_use_flags d))))
            /\ allocate USE_GRALLOC1 resolve drv_num_buffers_per_bo K d' s
               = allocate USE_GRALLOC1
                   (fun _ _ => resolve (d_drm_format d) (d_use_flags d))
                   drv_num_buffers_per_bo K d' s).
  { intros d' Hd'.
    assert (resolve (d_drm_format d') (d_use_flags d')
            = resolve (d_drm_format d) (d_use_flags d)) as Hres.
    { destruct Hd' as [-> | ->]; [reflexivity|].
      cbn [d_drm_format d_use_flags set_use_flags]. apply Hdrop. }
    assert (d_width d' = d_width d /\ d_height d' = d_height d
            /\ d_modifier d' = d_modifier d) as (Hw & Hh & Hm)
      by (destruct Hd' as [-> | ->]; repeat split).
    split; [exact Hres|].
    assert (create_bo USE_GRALLOC1 resolve K d'
            = create_bo USE_GRALLOC1
                (fun _ _ => resolve (d_drm_format d) (d_use_flags d)) K d') as Hbo.
    { unfold create_bo. now rewrite Hres. }
    split.
    - unfold create_bo. now rewrite Hres, Hw, Hh, Hm.
    - unfold allocate. now rewrite Hbo. }
  unfold is_supported. cbv zeta. fold resolve.
  destruct (negb _ && negb _).
  - destruct (Hall (set_use_flags d (drop_scanout (d_use_flags d)))) as (H1 & H2 & H3);
      [now right|].
    split; [|split; [exact H1 | split; [exact H2 | exact H3]]].
    repeat apply Forall_cons_2; try apply Forall_nil_2; reflexivity.
  - destruct (Hall d) as (H1 & H2 & H3); [now left|].
    split; [|split; [exact H1 | split; [exact H2 | exact H3]]].
    repeat apply Forall_cons_2; try apply Forall_nil_2; reflexivity.
Qed.

End Support.

End GrallocOps.

(** ** Concrete runs: device, registry, mapping and cache maintenance *)

Module I915MoreRuns.

Import I915 I915Kernel I915Device I915Map I915Facts Helpers.

(** Example values for what [drv_priv.h] and [drv.h] define: a render
    mask with the rendering, texture, linear and software flags, and two
    topology tags. *)
Definition render_mask : Z :=
  Z.lor BO_USE_LINEAR
    (Z.lor BO_USE_RENDERING
       (Z.lor BO_USE_TEXTURE
          (Z.lor BO_USE_SW_READ_OFTEN
             (Z.lor BO_USE_SW_WRITE_OFTEN
                (Z.lor BO_USE_SW_READ_RARELY BO_USE_SW_WRITE_RARELY))))).
Definition texture_mask : Z := Z.lor BO_USE_TEXTURE BO_USE_LINEAR.
Definition sw_mask : Z :=
  Z.lor BO_USE_SW_READ_OFTEN
    (Z.lor BO_USE_SW_WRITE_OFTEN (Z.lor BO_USE_SW_READ_RARELY BO_USE_SW_WRITE_RARELY)).
Definition two_gpu_igpu_dgpu : Z := 4.
Definition three_gpu_igpu_virtio_dgpu : Z := 5.

(** A KVM guest on an ADL-P device. *)
Definition kvm_guest : cpuid_answers :=
  mk_cpuid (Some (0, 0, 0x80000000, 0)) (0, 0x4B4D564B, 0x564B4D56, 0x4D).
Definition adlp_device : i915_device := mk_i915_device 12 1 0x46A0 true.

Lemma i915_add_combinations_scanout_witness :
  Z.testbit (snd (x_tiled_masks true render_mask true true)) 0 = false.
Proof.
  refine (i915_add_combinations_scanout true false render_mask texture_mask sw_mask
            two_gpu_igpu_dgpu three_gpu_igpu_virtio_dgpu kvm_guest 0 adlp_device
            x_tiled_metadata (snd (x_tiled_masks true render_mask true true)) _).
  simpl. do 11 right. left. reflexivity.
Defined.

(** A linear 64 x 8 XRGB8888 buffer of one page with kernel handle 5,
    and the same buffer X-tiled. *)
Definition linear_bo : bo := GrallocRuns.xrgb_bo.
Definition tiled_bo : bo := set_tiling linear_bo I915_TILING_X.

Definition prot (map_flags : Z) : Z := if Z.land map_flags 2 =? 0 then 1 else 3.

(** A kernel that maps at 0x7f0000001000, and one that refuses GTT
    mappings. *)
Definition mapping_kernel : map_kernel :=
  mk_map_kernel (fun _ => (0, I915_TILING_X)) (fun _ _ _ _ => (0, 0x7f0000001000))
    (fun _ => (0, 0x100000)) (fun _ _ _ => 0x7f0000002000) (fun _ _ _ => 0).
Definition no_gtt_kernel : map_kernel :=
  mk_map_kernel (fun _ => (0, I915_TILING_X)) (fun _ _ _ _ => (0, 0x7f0000001000))
    (fun _ => (-1, 0)) (fun _ _ _ => 0x7f0000002000) (fun _ _ _ => 0).

Definition unmapped : mapped_vma := mk_mapped_vma (mk_vma 0 0) 3.

Lemma i915_bo_map_vma_witness :
  fst (fst (i915_bo_map prot mapping_kernel linear_bo unmapped 0 3)) = 0x7f0000001000
  /\ vma_length (mv_vma (snd (fst (i915_bo_map prot mapping_kernel linear_bo unmapped 0 3))))
     = 4096.
Proof.
  split; [reflexivity|].
  pose proof (i915_bo_map_vma prot mapping_kernel linear_bo unmapped 0 3) as H.
  destruct (i915_bo_map prot mapping_kernel linear_bo unmapped 0 3) as [[a v'] evs] eqn:E.
  assert (Ha : a = 0x7f0000001000) by (vm_compute in E; congruence).
  destruct H as (_ & Hlen & _).
  - intros flags handle offset size _. vm_compute. discriminate.
  - cbn [fst snd]. rewrite Hlen; [reflexivity|]. rewrite Ha. vm_compute. discriminate.
Defined.

Lemma tiled_cpu_fallback_witness :
  fst (fst (i915_bo_map prot no_gtt_kernel tiled_bo unmapped 0 3)) = 0x7f0000001000
  /\ i915_bo_invalidate no_gtt_kernel tiled_bo unmapped
     = (0, [DRM_IOCTL_I915_GEM_SET_DOMAIN 5 I915_GEM_DOMAIN_GTT I915_GEM_DOMAIN_GTT 0])
  /\ i915_bo_flush 10 I915Runs.no_llc tiled_bo (mk_mapping (mk_vma 0x7f0000001000 4096))
     = Some (0, []).
Proof.
  destruct (tiled_cpu_fallback prot no_gtt_kernel I915Runs.no_llc tiled_bo unmapped 0 3
              0x7f0000001000) as (r & Hmap & _ & _ & Hflush).
  - vm_compute. discriminate.
  - vm_compute. discriminate.
  - vm_compute. discriminate.
  - reflexivity.
  - split; [now rewrite Hmap|]. split; [reflexivity | apply Hflush].
Defined.

Lemma i915_clflush_within_witness :
  i915_clflush 10 4100 100 = Some [Mfence; Clflush 4096; Clflush 4160]
  /\ i915_clflush 2 4100 100 = Some [Mfence; Clflush 4096; Clflush 4160]
  /\ i915_clflush 1 4100 100 = None
  /\ forall p, In (Clflush p) [Clflush 4096; Clflush 4160] ->
       p mod 64 = 0 /\ 4096 <= p < 4200.
Proof.
  destruct (i915_clflush_within 10 4100 100) as (H10 & _ & _ & H); try lia.
  destruct (i915_clflush_within 2 4100 100) as (H2 & _); try lia.
  destruct (i915_clflush_within 1 4100 100) as (H1 & _); try lia.
  split; [exact H10 |]. split; [exact H2 |]. split; [exact H1 | exact H].
Defined.

Lemma i915_clflush_top_of_memory_witness :
  i915_clflush 1000 (2 ^ 64 - 64) 32 = None.
Proof.
  apply (i915_clflush_top_of_memory 1000 (2 ^ 64 - 64) 32).
  - vm_compute. split; [discriminate | reflexivity].
  - vm_compute. reflexivity.
Defined.

Lemma i915_bo_from_format_returns_witness :
  exists b',
    I915Runs.per_plane_layout I915Runs.x_tiled_bo 64 8 DRM_FORMAT_XRGB8888 = Some (0, b')
    /\ meta_tiling (meta b') = I915_TILING_X.
Proof.
  destruct (i915_bo_from_format_returns true 4096 drv_num_planes_from_format
              drv_stride_from_format drv_height_from_format I915Runs.x_tiled_bo
              64 8 DRM_FORMAT_XRGB8888 12) as (b' & Hrun & Ht & _).
  - vm_compute. lia.
  - right. split; [now left|]. split; [lia|]. split; reflexivity.
  - exists b'. split; [exact Hrun | exact Ht].
Defined.

Lemma compute_metadata_ccs_aligned_witness :
  exists b',
    I915Runs.layout ccs_registry (I915Runs.request 1920 1080 DRM_FORMAT_XRGB8888)
      1920 1080 DRM_FORMAT_XRGB8888 0 = Some (0, b')
    /\ offset_of b' 1 mod 4096 = 0
    /\ meta_total_size (meta b') mod 4096 = 0.
Proof.
  destruct (compute_metadata_ccs_aligned true 4096 drv_num_planes_from_format
              drv_stride_from_format drv_height_from_format drv_bo_from_format
              ccs_registry drv_pick_modifier
              (I915Runs.request 1920 1080 DRM_FORMAT_XRGB8888) 1920 1080
              DRM_FORMAT_XRGB8888 0 None)
    as (b' & Hrun & _ & _ & _ & _ & _ & _ & Hoff & Htot).
  - discriminate.
  - reflexivity.
  - exists b'. split; [exact Hrun|]. split; [exact Hoff | exact Htot].
Defined.

(** A registry that answers every request with a Yf-tiled entry. *)
Definition yf_tiled_registry (format use_flags : Z) : option format_metadata :=
  Some (mk_format_metadata 1 I915_TILING_Y I915_FORMAT_MOD_Yf_TILED).

(** The same request laid out in a [USE_GRALLOC1] build and in another
    build, starting from an object marked X-tiled: the first records Y
    tiling for the Yf-tiled modifier, the second leaves X. *)
Lemma compute_metadata_tiling_matches_modifier_witness :
  (exists b',
     i915_bo_compute_metadata true 4096 drv_num_planes_from_format
       drv_stride_from_format drv_height_from_format drv_bo_from_format
       yf_tiled_registry drv_pick_modifier I915Runs.x_tiled_bo 64 8
       DRM_FORMAT_XRGB8888 0 None = Some (0, b')
     /\ plane_get (meta_format_modifiers (meta b')) 0 = I915_FORMAT_MOD_Yf_TILED
     /\ meta_tiling (meta b') = I915_TILING_Y)
  /\ (exists b',
        i915_bo_compute_metadata false 4096 drv_num_planes_from_format
          drv_stride_from_format drv_height_from_format drv_bo_from_format
          yf_tiled_registry drv_pick_modifier I915Runs.x_tiled_bo 64 8
          DRM_FORMAT_XRGB8888 0 None = Some (0, b')
        /\ plane_get (meta_format_modifiers (meta b')) 0 = I915_FORMAT_MOD_Yf_TILED
        /\ meta_tiling (meta b') = I915_TILING_X).
Proof.
  split.
  - destruct (i915_bo_compute_metadata true 4096 drv_num_planes_from_format
                drv_stride_from_format drv_height_from_format drv_bo_from_format
                yf_tiled_registry drv_pick_modifier I915Runs.x_tiled_bo 64 8
                DRM_FORMAT_XRGB8888 0 None) as [[r b']|] eqn:Hrun;
      [|discriminate Hrun].
    assert (Hr : r = 0) by (vm_compute in Hrun; congruence).
    destruct (compute_metadata_tiling_matches_modifier true 4096
                drv_num_planes_from_format drv_stride_from_format
                drv_height_from_format drv_bo_from_format
                yf_tiled_registry drv_pick_modifier
                I915Runs.x_tiled_bo 64 8 DRM_FORMAT_XRGB8888 0 None
                r b') as (Hm & _ & _ & _ & Hyf & _).
    + discriminate.
    + exact Hrun.
    + exact Hr.
    + assert (Hmod : plane_get (meta_format_modifiers (meta b')) 0
                     = I915_FORMAT_MOD_Yf_TILED)
        by (change (Some I915_FORMAT_MOD_Yf_TILED
                    = Some (plane_get (meta_format_modifiers (meta b')) 0)) in Hm;
            congruence).
      exists b'. rewrite Hr. split; [reflexivity|].
      split; [exact Hmod | exact (Hyf eq_refl (or_introl Hmod))].
  - destruct (i915_bo_compute_metadata false 4096 drv_num_planes_from_format
                drv_stride_from_format drv_height_from_format drv_bo_from_format
                yf_tiled_registry drv_pick_modifier I915Runs.x_tiled_bo 64 8
                DRM_FORMAT_XRGB8888 0 None) as [[r b']|] eqn:Hrun;
      [|discriminate Hrun].
    assert (Hr : r = 0) by (vm_compute in Hrun; congruence).
    destruct (compute_metadata_tiling_matches_modifier false 4096
                drv_num_planes_from_format drv_stride_from_format
                drv_height_from_format drv_bo_from_format
                yf_tiled_registry drv_pick_modifier
                I915Runs.x_tiled_bo 64 8 DRM_FORMAT_XRGB8888 0 None
                r b') as (Hm & _ & _ & _ & _ & Hother).
    + discriminate.
    + exact Hrun.
    + exact Hr.
    + assert (Hmod : plane_get (meta_format_modifiers (meta b')) 0
                     = I915_FORMAT_MOD_Yf_TILED)
        by (change (Some I915_FORMAT_MOD_Yf_TILED
                    = Some (plane_get (meta_format_modifiers (meta b')) 0)) in Hm;
            congruence).
      exists b'. rewrite Hr. split; [reflexivity|]. split; [exact Hmod|].
      rewrite Hmod in Hother.
      apply Hother; try discriminate. now left.
Defined.

Lemma compressed_buffer_is_never_mapped_witness :
  exists b',
    I915Runs.layout ccs_registry (I915Runs.request 1920 1080 DRM_FORMAT_XRGB8888)
      1920 1080 DRM_FORMAT_XRGB8888 0 = Some (0, b')
    /\ i915_bo_map prot mapping_kernel (set_handles b' (handles linear_bo)) unmapped 0 3
       = (MAP_FAILED, unmapped, []).
Proof.
  apply (compressed_buffer_is_never_mapped true 4096 drv_num_planes_from_format
           drv_stride_from_format drv_height_from_format drv_bo_from_format
           ccs_registry drv_pick_modifier prot).
  - discriminate.
  - reflexivity.
Defined.

(** A kernel that creates handle 5 and accepts every tiling request. *)
Definition creating_kernel : i915_kernel :=
  mk_i915_kernel (fun _ => inl 5) (fun _ _ _ => None) (fun _ => None).

Lemma i915_bo_create_from_metadata_success_witness :
  exists b',
    i915_bo_create_from_metadata creating_kernel linear_bo
    = Some (0, b',
            [DRM_IOCTL_I915_GEM_CREATE 4096 (inl 5);
             DRM_IOCTL_I915_GEM_SET_TILING 5 I915_TILING_NONE 256 None])
    /\ plane_get (handles b') 0 = 5.
Proof.
  destruct (i915_bo_create_from_metadata_success creating_kernel linear_bo 5)
    as (b' & Hrun & _ & Hh & _).
  - vm_compute. lia.
  - reflexivity.
  - reflexivity.
  - exists b'. split; [exact Hrun|]. apply Hh. vm_compute. lia.
Defined.

End I915MoreRuns.

(** ** Concrete runs: reference accounting and lookups *)

Module GrallocMoreRuns.

Import Gralloc GrallocRuns GrallocRefs GrallocOps.

Lemma allocated_reachable : reachable true resolve distinct_handles allocated.
Proof.
  apply (reachable_allocate true resolve distinct_handles kernel_ok plain_request
           empty_driver 0 allocated_handle allocated).
  - apply reachable_empty.
  - split; [intros a _; apply lookup_empty | intros b _; apply lookup_empty].
  - reflexivity.
Qed.

Lemma allocated_balanced : refs_balanced allocated.
Proof.
  apply (allocate_balanced true resolve distinct_handles kernel_ok plain_request
           empty_driver 0 allocated_handle allocated).
  - apply empty_driver_balanced.
  - intros a _. apply lookup_empty.
  - reflexivity.
Qed.

(** The handle that allocation returned. *)
Definition allocated_ref : handle_ref :=
  match allocated_handle with
  | Some hnd => hnd
  | None => imported_handle
  end.



Definition kernel_prime_fails : kernel :=
  mk_kernel (fun _ _ _ _ => Some xrgb_bo) (fun _ _ _ _ => Some xrgb_bo)
    (fun _ plane => 10 + Z.of_nat plane) (fun _ => Some xrgb_bo) (fun _ _ => 4)
    (fun _ => (-1, 0)) (fun _ => 7) (fun _ _ => 0) (Some 100%positive) 9.

Definition kernel_import_refused : kernel :=
  mk_kernel (fun _ _ _ _ => Some xrgb_bo) (fun _ _ _ _ => Some xrgb_bo)
    (fun _ plane => 10 + Z.of_nat plane) (fun _ => None) (fun _ _ => 4)
    (fun _ => (0, 6)) (fun _ => 7) (fun _ _ => 0) (Some 100%positive) 28.

Lemma reachable_state_invariants_witness :
  tables_consistent allocated
  /\ one_buffer_per_id allocated
  /\ refcounts_positive allocated
  /\ refs_balanced allocated
  /\ forall p, is_Some (heap allocated !! p)
               <-> exists a c, handles_ allocated !! a = Some (p, c).
Proof.
  apply (reachable_state_invariants true resolve distinct_handles allocated).
  exact allocated_reachable.
Defined.

Lemma retain_release_total_witness :
  is_Some (retain kernel_ok (Some imported_handle) allocated)
  /\ is_Some (release allocated_handle allocated).
Proof.
  split.
  - apply (retain_release_total kernel_ok (Some imported_handle) allocated).
    + exact allocated_consistent.
    + exact allocated_balanced.
  - apply (retain_release_total kernel_ok allocated_handle allocated).
    + exact allocated_consistent.
    + exact allocated_balanced.
Defined.

Lemma allocate_release_round_trip_witness :
  exists h s1 s2 events,
    run_allocate kernel_ok reserved_request empty_driver = Some (0, Some h, s1)
    /\ release (Some h) s1 = Some (0, s2)
    /\ tables s2 = tables empty_driver
    /\ log s2 = log empty_driver ++ events
    /\ live_bos events 0 = 0%nat
    /\ open_fds events [] = [].
Proof.
  destruct (run_allocate kernel_ok reserved_request empty_driver)
    as [[[r [h|]] s1]|] eqn:Hrun; try discriminate Hrun.
  assert (Hr : r = 0) by (vm_compute in Hrun; congruence).
  destruct (allocate_release_round_trip true resolve distinct_handles kernel_ok
              reserved_request empty_driver r h s1)
    as (s2 & events & Hrel & Ht & _ & Hl & Hb & Hf).
  - split; [intros a _; apply lookup_empty | intros b _; apply lookup_empty].
  - exact Hrun.
  - exists h, s1, s2, events. rewrite Hr. now repeat split.
Defined.

Lemma lookups_find_the_buffer_witness :
  Forall (fun o => exists method, o = Delegated 1%positive method)
    (lookups allocated_handle 3 allocated)
  /\ snd (unlock allocated_handle allocated) = Some (-1).
Proof.
  pose proof (lookups_find_the_buffer allocated_handle 3 allocated allocated_balanced)
    as H.
  change (cros_gralloc_convert_handle allocated_handle) with (Some allocated_ref) in H.
  change (handles_ allocated !! addr allocated_ref) with (Some (1%positive, 1)) in H.
  destruct H as (_ & Hall & Hfence & _). split; [exact Hall | exact Hfence].
Defined.

Lemma lock_fence_first_witness :
  lock_rect (-62) None 3 allocated = Status (-62)
  /\ lock (-62) allocated_handle 3 allocated = Status (-62).
Proof.
  split.
  - apply (lock_fence_first (-62) None 3 allocated). discriminate.
  - apply (lock_fence_first (-62) allocated_handle 3 allocated). discriminate.
Defined.

Lemma released_handle_is_unknown_witness :
  exists hnd s',
    allocated_handle = Some hnd
    /\ release (Some hnd) allocated = Some (0, s')
    /\ Forall (fun o => o = Status (- EINVAL)) (lookups (Some hnd) 3 s')
    /\ get_backing_store true (Some hnd) s' = Some (0, Some 1)
    /\ get_backing_store false (Some hnd) s' = Some (- EINVAL, None).
Proof.
  exists allocated_ref.
  destruct (release allocated_handle allocated) as [[r s']|] eqn:Hrel;
    [|discriminate Hrel].
  exists s'.
  destruct (released_handle_is_unknown allocated_ref
              1%positive 3 allocated r s') as (-> & Hall & Hg1 & Hg0).
  - reflexivity.
  - reflexivity.
  - exact Hrel.
  - split; [reflexivity|]. split; [exact Hrel|]. split; [exact Hall|].
    split; [exact Hg1 | exact Hg0].
Defined.


(** A refused import and a failed prime lookup on a handle from another
    process: the tables stay, the log records the calls made. *)
Lemma failed_retain_release_change_nothing_witness :
  (exists s',
     retain kernel_import_refused (Some imported_handle) allocated = Some (- EFAULT, s')
     /\ tables s' = tables allocated
     /\ log s'
        = log allocated
          ++ [Ev_drmPrimeFDToHandle 33 0 6;
              Ev_drv_bo_import_refused (import_data_of (contents imported_handle))])
  /\ (exists s',
        retain kernel_prime_fails (Some imported_handle) allocated = Some (-9, s')
        /\ tables s' = tables allocated
        /\ log s' = log allocated ++ [Ev_drmPrimeFDToHandle 33 (-1) 0]).
Proof.
  split.
  - destruct (retain kernel_import_refused (Some imported_handle) allocated)
      as [[r s']|] eqn:Hrun; [| vm_compute in Hrun; discriminate Hrun].
    assert (Hr : r = - EFAULT)
      by (vm_compute in Hrun; injection Hrun as <- _; reflexivity).
    destruct (proj1 (failed_retain_release_change_nothing kernel_import_refused
                       (Some imported_handle) allocated) r s' Hrun) as (_ & Hfail).
    rewrite Hr in Hfail. destruct (Hfail ltac:(discriminate)) as (Ht & _ & Hcase).
    change (cros_gralloc_convert_handle (Some imported_handle))
      with (Some imported_handle) in Hcase.
    cbn in Hcase. destruct Hcase as (_ & _ & Hlog).
    exists s'. rewrite Hr. split; [reflexivity |]. split; [exact Ht | exact Hlog].
  - destruct (retain kernel_prime_fails (Some imported_handle) allocated)
      as [[r s']|] eqn:Hrun; [| vm_compute in Hrun; discriminate Hrun].
    assert (Hr : r = -9)
      by (vm_compute in Hrun; injection Hrun as <- _; reflexivity).
    destruct (proj1 (failed_retain_release_change_nothing kernel_prime_fails
                       (Some imported_handle) allocated) r s' Hrun) as (_ & Hfail).
    rewrite Hr in Hfail. destruct (Hfail ltac:(discriminate)) as (Ht & _ & Hcase).
    change (cros_gralloc_convert_handle (Some imported_handle))
      with (Some imported_handle) in Hcase.
    cbn in Hcase. destruct Hcase as (_ & Hlog).
    exists s'. rewrite Hr. split; [reflexivity |]. split; [exact Ht | exact Hlog].
Defined.

(** The support check on the request for scanout, linear layout and
    camera reads, against the registry that has the last two only. *)
Lemma is_supported_sound_witness :
  is_supported resolve registry_camera_linear scanout_camera_request
  = (true, set_use_flags scanout_camera_request 136,
     [(DRM_FORMAT_XRGB8888, 137); (DRM_FORMAT_XRGB8888, 136)])
  /\ is_Some (registry_camera_linear DRM_FORMAT_XRGB8888 136)
  /\ forall n, 0 <= n -> Z.testbit 136 n = Z.testbit 137 n && negb (n =? 0).
Proof.
  pose proof (is_supported_sound registry_camera_linear resolve scanout_camera_request)
    as H.
  change (is_supported resolve registry_camera_linear scanout_camera_request)
    with (true, set_use_flags scanout_camera_request 136,
          [(DRM_FORMAT_XRGB8888, 137); (DRM_FORMAT_XRGB8888, 136)]) in H.
  cbv beta iota zeta in H.
  change (d_use_flags scanout_camera_request) with 137 in H.
  change (d_use_flags (set_use_flags scanout_camera_request 136)) with 136 in H.
  change (resolve (d_drm_format scanout_camera_request) 137)
    with DRM_FORMAT_XRGB8888 in H.
  destruct (H ltac:(lia)) as (Hs & _ & Hcase & _).
  change (bool_decide (is_Some (registry_camera_linear DRM_FORMAT_XRGB8888 137))
          || negb (Z.testbit 137 0)) with false in Hcase.
  destruct Hcase as (_ & Hbits & _).
  split; [reflexivity |]. split; [now apply Hs | exact Hbits].
Defined.

(** A flexible format requested for scanout and camera reads: the
    backend resolves it to NV12 before and after the fallback. *)
Definition flex_camera_request : cros_gralloc_buffer_descriptor :=
  mk_descriptor 64 8 1 0 DRM_FORMAT_FLEX_IMPLEMENTATION_DEFINED
    (Z.lor BO_USE_SCANOUT BO_USE_CAMERA_READ) 0 "buffer" 0.

Lemma fallback_keeps_resolved_format_witness :
  is_supported resolve registry_without_scanout flex_camera_request
  = (true, set_use_flags flex_camera_request BO_USE_CAMERA_READ,
     [(DRM_FORMAT_NV12, 129); (DRM_FORMAT_NV12, 128)])
  /\ resolve DRM_FORMAT_FLEX_IMPLEMENTATION_DEFINED BO_USE_CAMERA_READ = DRM_FORMAT_NV12
  /\ run_allocate kernel_ok (set_use_flags flex_camera_request BO_USE_CAMERA_READ)
       empty_driver
     = allocate true (fun _ _ => DRM_FORMAT_NV12) distinct_handles kernel_ok
         (set_use_flags flex_camera_request BO_USE_CAMERA_READ) empty_driver.
Proof.
  pose proof (fallback_keeps_resolved_format registry_without_scanout true
                Helpers.no_private_resolve distinct_handles kernel_ok
                flex_camera_request empty_driver) as H.
  cbv zeta in H. fold resolve in H.
  change (is_supported resolve registry_without_scanout flex_camera_request)
    with (true, set_use_flags flex_camera_request BO_USE_CAMERA_READ,
          [(DRM_FORMAT_NV12, 129); (DRM_FORMAT_NV12, 128)]) in H.
  cbv beta iota in H.
  destruct (H ltac:(reflexivity)) as (_ & Hres & _ & Hrun).
  split; [reflexivity |]. split; [exact Hres | exact Hrun].
Defined.

End GrallocMoreRuns.

(** ** cros_gralloc_driver.cc: finding the render node *)

Module GrallocInit.

Definition ENODEV : Z := 19.

(** What probing [renderD<i>] gives: no path ([asprintf] fails), no
    descriptor ([open] fails), a descriptor without version, or a
    descriptor and the name of its driver. *)
Inductive probe :=
| Asprintf_fails
| Open_fails
| No_version (fd : Z)
| Version (fd : Z) (name : string).

(** The outside calls [init] makes that open, close, create or destroy
    something. *)
Inductive init_event :=
| Ev_open (node fd : Z)
| Ev_close (fd : Z)
| Ev_drv_create (fd : Z) (ok : bool)
| Ev_drv_init (fd gpu_grp_type ret : Z)
| Ev_drv_destroy (fd : Z).

(** Modelled from the spec: [drv.c] is not among the sources; a driver
    handle is "bound to one render node", and is identified here with
    the descriptor it was created on, which is what [drv_get_fd] gives
    back. *)
Record init_world := mk_init_world {
  probe_node : Z -> probe;
  drv_create : Z -> bool;
  drv_init : Z -> Z -> Z
}.

(** The locals of [init] that the scan fills: [node_fd] and [node_name]
    up to [availabe_node], [virtio_node_idx] ([None] for -1), and the
    calls made. *)
Record scan := mk_scan {
  node_fd : list Z;
  node_name : list string;
  virtio_node_idx : option nat;
  scan_log : list init_event
}.

Definition render_num : nat := 10.
Definition name_length : nat := 50.
Definition min_node : Z := 128.
Definition num_nodes : nat := 63.

(** The numbers [min_node .. max_node - 1] the [for] loop goes through. *)
Definition nodes : list Z := map (fun k => min_node + Z.of_nat k) (seq 0 num_nodes).

(** One turn of the loop, lines 75-111. [None] is undefined behaviour:
    an eleventh usable node is written past the end of [node_fd], a
    name of 50 characters or more past the end of its row of
    [node_name]. *)
Definition scan_step (W : init_world) (st : scan) (i : Z) : option scan :=
  match probe_node W i with
  | Asprintf_fails => Some st
  | Open_fails => Some st
  | No_version fd =>
      Some (mk_scan (node_fd st) (node_name st) (virtio_node_idx st)
              (scan_log st ++ [Ev_open i fd; Ev_close fd]))
  | Version fd name =>
      if String.eqb name "vgem" then
        Some (mk_scan (node_fd st) (node_name st) (virtio_node_idx st)
                (scan_log st ++ [Ev_open i fd; Ev_close fd]))
      else
        let availabe_node := length (node_fd st) in
        let virtio :=
          if String.eqb name "virtio_gpu" then Some availabe_node
          else virtio_node_idx st in
        if (render_num <=? availabe_node)%nat then None
        else if (name_length <=? String.length name)%nat then None
        else
          Some (mk_scan (node_fd st ++ [fd]) (node_name st ++ [name]) virtio
                  (scan_log st ++ [Ev_open i fd]))
  end.

Fixpoint scan_loop (W : init_world) (st : scan) (l : list Z) : option scan :=
  match l with
  | [] => Some st
  | i :: l' =>
      match scan_step W st i with
      | Some st' => scan_loop W st' l'
      | None => None
      end
  end.

Section Init.

(** The topology tags of [drv.h], not among the sources. *)
Variable ONE_GPU_INTEL : Z.
Variable ONE_GPU_VIRTIO : Z.
Variable TWO_GPU_IGPU_VIRTIO : Z.
Variable TWO_GPU_IGPU_DGPU : Z.
Variable THREE_GPU_IGPU_VIRTIO_DGPU : Z.

(** The [switch (availabe_node)] of lines 122-149: the descriptors it
    closes and the tag it chooses. *)
Definition classify (st : scan) : list init_event * Z :=
  match length (node_fd st) with
  | 1%nat =>
      ([], match virtio_node_idx st with
           | Some _ => ONE_GPU_VIRTIO
           | None => ONE_GPU_INTEL
           end)
  | 2%nat =>
      ([Ev_close (nth 1 (node_fd st) 0)],
       match virtio_node_idx st with
       | Some _ => TWO_GPU_IGPU_VIRTIO
       | None => TWO_GPU_IGPU_DGPU
       end)
  | 3%nat =>
      ((if String.eqb (nth 1 (node_name st) EmptyString) "i915"
        then [Ev_close (nth 1 (node_fd st) 0)] else [])
       ++ match virtio_node_idx st with
          | Some k => [Ev_close (nth k (node_fd st) 0)]
          | None => []
          end,
       THREE_GPU_IGPU_VIRTIO_DGPU)
  | _ => ([], 0)
  end.

(** [cros_gralloc_driver::init], lines 40-173: the status, [drv_render_]
    after the call and the calls made. [drv_render_] is what the field
    holds on entry. *)
Definition init (W : init_world) (drv_render_ : option Z)
  : option (Z * option Z * list init_event) :=
  let destroyed :=
    match drv_render_ with
    | Some fd => [Ev_drv_destroy fd; Ev_close fd]
    | None => []
    end in
  match scan_loop W (mk_scan [] [] None destroyed) nodes with
  | None => None
  | Some st =>
      match node_fd st with
      | [] => Some (- ENODEV, None, scan_log st)
      | fd0 :: _ =>
          if negb (drv_create W fd0) then
            Some (- ENODEV, None, scan_log st ++ [Ev_drv_create fd0 false; Ev_close fd0])
          else
            let '(closes, gpu_grp_type) := classify st in
            let ret := drv_init W fd0 gpu_grp_type in
            let evs :=
              scan_log st ++ [Ev_drv_create fd0 true] ++ closes
              ++ [Ev_drv_init fd0 gpu_grp_type ret] in
            if negb (ret =? 0) then
              Some (- ENODEV, None, evs ++ [Ev_drv_destroy fd0; Ev_close fd0])
            else Some (0, Some fd0, evs)
      end
  end.

End Init.

(** A node is usable when it opens, reports a version and is not driven
    by [vgem]; what is kept of it is its descriptor and its name. *)
Definition usable (W : init_world) (i : Z) : option (Z * string) :=
  match probe_node W i with
  | Version fd name => if String.eqb name "vgem" then None else Some (fd, name)
  | _ => None
  end.

Definition usable_nodes (W : init_world) : list (Z * string) := omap (usable W) nodes.

(** The index of the last node driven by [virtio_gpu], if any. *)
Fixpoint last_virtio (names : list string) (base : nat) (found : option nat) : option nat :=
  match names with
  | [] => found
  | name :: names' =>
      last_virtio names' (S base)
        (if String.eqb name "virtio_gpu" then Some base else found)
  end.


(** *** Properties *)

Lemma scan_step_usable W st i st' :
  scan_step W st i = Some st' ->
  node_fd st' = node_fd st ++ map fst (option_list (usable W i))
  /\ node_name st' = node_name st ++ map snd (option_list (usable W i))
  /\ virtio_node_idx st'
     = last_virtio (map snd (option_list (usable W i))) (length (node_fd st))
         (virtio_node_idx st).
Proof.
  unfold scan_step, usable.
  destruct (probe_node W i) as [| | fd | fd name].
  - intros [= <-]. cbn. now rewrite !app_nil_r.
  - intros [= <-]. cbn. now rewrite !app_nil_r.
  - intros [= <-]. cbn. now rewrite !app_nil_r.
  - destruct (String.eqb name "vgem").
    + intros [= <-]. cbn. now rewrite !app_nil_r.
    + destruct (render_num <=? length (node_fd st))%nat; [discriminate|].
      destruct (name_length <=? String.length name)%nat; [discriminate|].
      intros [= <-]. cbn. now repeat split.
Qed.

Lemma last_virtio_app names1 : forall names2 base found,
  last_virtio (names1 ++ names2) base found
  = last_virtio names2 (base + length names1) (last_virtio names1 base found).
Proof.
  induction names1 as [| n names1 IH]; intros names2 base found; cbn.
  - now rewrite Nat.add_0_r.
  - rewrite IH. f_equal. lia.
Qed.

Lemma scan_loop_usable W l : forall st st',
  length (node_fd st) = length (node_name st) ->
  scan_loop W st l = Some st' ->
  node_fd st' = node_fd st ++ map fst (omap (usable W) l)
  /\ node_name st' = node_name st ++ map snd (omap (usable W) l)
  /\ virtio_node_idx st'
     = last_virtio (map snd (omap (usable W) l)) (length (node_fd st))
         (virtio_node_idx st).
Proof.
  induction l as [| i l IH]; intros st st' Hlen H; cbn in H.
  - injection H as <-. cbn. now rewrite !app_nil_r.
  - destruct (scan_step W st i) as [st1|] eqn:Hstep; [|discriminate].
    apply scan_step_usable in Hstep as (Hfd & Hname & Hv).
    apply IH in H as (Hfd' & Hname' & Hv').
    2:{ rewrite Hfd, Hname, !length_app, !length_map. lia. }
    rewrite Hfd', Hname', Hv', Hfd, Hname, Hv.
    change (omap (usable W) (i :: l))
      with (match usable W i with
            | Some y => y :: omap (usable W) l
            | None => omap (usable W) l
            end).
    destruct (usable W i) as [[fd name]|]; cbn.
    + rewrite <- !app_assoc, length_app. cbn.
      repeat split. f_equal. lia.
    + rewrite !app_nil_r. now repeat split.
Qed.

Lemma scan_loop_returns W l : forall st,
  (length (node_fd st) + length (omap (usable W) l) <= render_num)%nat ->
  Forall (fun u => (String.length (snd u) < name_length)%nat) (omap (usable W) l) ->
  is_Some (scan_loop W st l).
Proof.
  induction l as [| i l IH]; intros st Hn Hshort; cbn; [eauto|].
  change (omap (usable W) (i :: l))
    with (match usable W i with
          | Some y => y :: omap (usable W) l
          | None => omap (usable W) l
          end) in Hn, Hshort.
  unfold scan_step.
  destruct (usable W i) as [[fd name]|] eqn:Hu; unfold usable in Hu.
  - destruct (probe_node W i) as [| | fd' | fd' name']; try discriminate.
    destruct (String.eqb name' "vgem"); [discriminate|].
    injection Hu as -> ->.
    cbn [length] in Hn. apply Forall_cons in Hshort as [Hname Hshort]. cbn in Hname.
    destruct (Nat.leb_spec render_num (length (node_fd st))); [lia|].
    destruct (Nat.leb_spec name_length (String.length name)); [lia|].
    apply IH; [|exact Hshort]. cbn [node_fd]. rewrite length_app. cbn [length]. lia.
  - destruct (probe_node W i) as [| | fd' | fd' name']; try (apply IH; assumption).
    destruct (String.eqb name' "vgem"); [apply IH; assumption | discriminate].
Qed.

Lemma last_virtio_found names : forall base found,
  is_Some (last_virtio names base found)
  <-> is_Some found \/ existsb (fun name => String.eqb name "virtio_gpu") names = true.
Proof.
  induction names as [| n names IH]; intros base found; cbn.
  - split; [now left | intros [H | H]; [exact H | discriminate]].
  - rewrite IH. destruct (String.eqb n "virtio_gpu"); cbn.
    + split; [now right | eauto].
    + tauto.
Qed.

Section InitFacts.

Variable ONE_GPU_INTEL : Z.
Variable ONE_GPU_VIRTIO : Z.
Variable TWO_GPU_IGPU_VIRTIO : Z.
Variable TWO_GPU_IGPU_DGPU : Z.
Variable THREE_GPU_IGPU_VIRTIO_DGPU : Z.

(** The tag for a list of usable nodes, by their number and by whether
    one of them is driven by [virtio_gpu]. *)
Definition topology_tag (usable_nodes : list (Z * string)) : Z :=
  let virtio :=
    existsb (fun name => String.eqb name "virtio_gpu") (map snd usable_nodes) in
  match length usable_nodes with
  | 1%nat => if virtio then ONE_GPU_VIRTIO else ONE_GPU_INTEL
  | 2%nat => if virtio then TWO_GPU_IGPU_VIRTIO else TWO_GPU_IGPU_DGPU
  | 3%nat => THREE_GPU_IGPU_VIRTIO_DGPU
  | _ => 0
  end.

(** X29. With at most ten usable render nodes, each with a driver name
    shorter than 50 characters, [init] returns, and it answers 0 exactly
    when there is a usable node (one that opens, reports a version and
    is not driven by [vgem]) and both [drv_create] and [drv_init]
    succeed on the first of them in node order, which the driver is then
    bound to; in every other case it answers -ENODEV and leaves no
    driver. [drv_init] is given the tag that the number of usable nodes
    and the presence of a [virtio_gpu] node determine. *)
Theorem init_binds_first_usable_node (W : init_world) (drv_render_ : option Z) :
  (length (usable_nodes W) <= render_num)%nat ->
  Forall (fun u => (String.length (snd u) < name_length)%nat) (usable_nodes W) ->
  exists r drv events,
    init ONE_GPU_INTEL ONE_GPU_VIRTIO TWO_GPU_IGPU_VIRTIO TWO_GPU_IGPU_DGPU
      THREE_GPU_IGPU_VIRTIO_DGPU W drv_render_ = Some (r, drv, events)
    /\ (r = 0 \/ r = - ENODEV)
    /\ match usable_nodes W with
       | [] => r = - ENODEV /\ drv = None
       | (fd0, _) :: _ =>
           if drv_create W fd0
              && (drv_init W fd0 (topology_tag (usable_nodes W)) =? 0)
           then r = 0 /\ drv = Some fd0
                /\ In (Ev_drv_init fd0 (topology_tag (usable_nodes W)) 0) events
           else r = - ENODEV /\ drv = None
       end.
Proof.
  unfold init, usable_nodes. generalize nodes. intros l Hn Hshort.
  set (st0 := mk_scan [] [] None _).
  destruct (scan_loop_returns W l st0) as [st Hscan]; [exact Hn | exact Hshort |].
  rewrite Hscan.
  apply scan_loop_usable in Hscan as (Hfd & Hname & Hv); [|reflexivity].
  cbn [node_fd node_name virtio_node_idx st0 app length] in Hfd, Hname, Hv.
  set (us := omap (usable W) l) in *. clearbody us. clear Hn Hshort.
  assert (Htag : snd (classify ONE_GPU_INTEL ONE_GPU_VIRTIO TWO_GPU_IGPU_VIRTIO
                        TWO_GPU_IGPU_DGPU THREE_GPU_IGPU_VIRTIO_DGPU st)
                 = topology_tag us).
  { unfold classify, topology_tag. rewrite Hfd, length_map.
    pose proof (last_virtio_found (map snd us) 0 None) as Hfound.
    rewrite <- Hv in Hfound.
    destruct (existsb _ _).
    - assert (is_Some (virtio_node_idx st)) as [k ->] by (apply Hfound; now right).
      destruct (length us) as [| [| [| [| n]]]]; reflexivity.
    - assert (virtio_node_idx st = None) as ->.
      { destruct (virtio_node_idx st) eqn:E; [|reflexivity].
        destruct Hfound as [Hf _]. destruct (Hf ltac:(eauto)) as [[? [=]] | [=]]. }
      destruct (length us) as [| [| [| [| n]]]]; reflexivity. }
  rewrite Hfd.
  destruct us as [| [fd0 name0] rest]; cbn [map fst].
  - eexists _, _, _. split; [reflexivity|]. split; [now right | now split].
  - destruct (drv_create W fd0); cbn [negb andb].
    + destruct (classify _ _ _ _ _ st) as [closes grp]. cbn [snd] in Htag. subst grp.
      destruct (Z.eqb_spec (drv_init W fd0 (topology_tag ((fd0, name0) :: rest))) 0)
        as [E | E]; cbn [negb].
      * eexists _, _, _. split; [reflexivity|]. split; [now left|].
        split; [reflexivity|]. split; [reflexivity|].
        rewrite E. rewrite !in_app_iff. right. right. right. now left.
      * eexists _, _, _. split; [reflexivity|]. split; [now right | now split].
    + eexists _, _, _. split; [reflexivity|]. split; [now right | now split].
Qed.

End InitFacts.

End GrallocInit.

(** ** A concrete run of [init] *)

Module GrallocInitRuns.

Import GrallocInit.

(** A machine with a [vgem] node at renderD128 and an [i915] node at
    renderD129, on which the driver can be created and initialised. The
    topology tags are example values. *)
Definition one_intel_gpu : init_world :=
  mk_init_world
    (fun i => if i =? 128 then Version 7 "vgem"
              else if i =? 129 then Version 8 "i915"
              else Open_fails)
    (fun _ => true) (fun _ _ => 0).

Lemma init_binds_first_usable_node_witness :
  exists events,
    init 1 2 3 4 5 one_intel_gpu None = Some (0, Some 8, events)
    /\ In (Ev_drv_init 8 1 0) events.
Proof.
  destruct (init_binds_first_usable_node 1 2 3 4 5 one_intel_gpu None)
    as (r & drv & events & Hrun & _ & Hm).
  - vm_compute. lia.
  - vm_compute. repeat constructor.
  - change (r = 0 /\ drv = Some 8 /\ In (Ev_drv_init 8 1 0) events) in Hm.
    destruct Hm as (-> & -> & Hin). exists events. split; [exact Hrun | exact Hin].
Defined.

End GrallocInitRuns.
